(** * The purchase request queue of MCP_PurchaseOrderFlow

    A shallow embedding of [src/purchase_queue_tool.py] (class
    [PurchaseQueueTool]) and the properties of the queue document.
    The tool [manage_purchase_queue] of [src/mcppoagent.py] hands its
    arguments to [manage_queue] of this class once the server has
    checked them; that check belongs to the server library and is not
    part of the embedding, which is about the class alone.

    The tool keeps one JSON document in [data/purchase_queue.json] and
    every operation is a load / mutate / save cycle over the whole file.
    The embedding therefore has three layers:

    - the Python values [json.load] produces, with the dynamic checks of
      the operations the tool applies to them (subscripting, [.get],
      [.append], [len], iteration, [in], truthiness);
    - the environment: the file, the wall clock behind [datetime.now()],
      the failures [open] may report and the exceptions that can stop a
      [json.dump] half way, threaded through a state and exception
      monad;
    - the methods of the class, one definition per method, under the
      names they have in the source. *)

From stdpp Require Import gmap strings list fin_maps pretty.

Set Warnings "-register-all".
Open Scope string_scope.

(** ** Python values *)

(** A Python [float]: a finite binary fraction [m * 2^e], an infinity or
    a NaN ([json.load] accepts the tokens [Infinity] and [NaN]).  The
    tool never computes with floats; only their truth value matters. *)
Inductive pyfloat :=
  | Finite (m e : Z)
  | Infinity (negative : bool)
  | NaN.

(** What [json.load] returns.  A [dict] is a finite map from strings:
    equality of two dicts in Python ignores insertion order, and so does
    equality of [gmap].  A [str] is kept as its UTF-8 bytes. *)
Inductive json :=
  | JNull
  | JBool (b : bool)
  | JInt (z : Z)
  | JFloat (f : pyfloat)
  | JStr (s : string)
  | JArr (l : list json)
  | JObj (d : gmap string json).

Inductive pytype :=
  | NoneType | PyBool | PyInt | PyFloat | PyStr | PyList | PyDict.

Definition type_of (v : json) : pytype :=
  match v with
  | JNull => NoneType
  | JBool _ => PyBool
  | JInt _ => PyInt
  | JFloat _ => PyFloat
  | JStr _ => PyStr
  | JArr _ => PyList
  | JObj _ => PyDict
  end.

(** ** Exceptions *)

(** The error numbers [open] reports.  Python raises the subclass
    [FileNotFoundError] of [OSError] exactly for [ENOENT]. *)
Inductive errno := ENOENT | EACCES | EISDIR | ENOSPC | EIO.

(** The operation a [TypeError] comes from. *)
Inductive type_error :=
  | NotSubscriptable   (* v[k] on None, bool, int, float *)
  | BadIndex           (* v["k"] on a list or a str *)
  | NoItemAssignment   (* v["k"] = x on anything but a dict *)
  | NoLen              (* len(v) *)
  | NotIterable        (* for _ in v *)
  | NotContainer.      (* k in v *)

Inductive exn :=
  | OSError (code : errno)
  | JSONDecodeError
  | KeyError (key : string)
  | IndexError
  | TypeError (what : type_error) (ty : pytype)
  | AttributeError (ty : pytype) (attr : string)
  | ValueError
  | UnicodeDecodeError
  | RecursionError.

Definition is_FileNotFoundError (e : exn) : bool :=
  match e with OSError ENOENT => true | _ => false end.

Definition is_JSONDecodeError (e : exn) : bool :=
  match e with JSONDecodeError => true | _ => false end.

Inductive result (A : Type) :=
  | Ok (a : A)
  | Raise (e : exn).
Arguments Ok {A} a.
Arguments Raise {A} e.

(** ** The Python runtime

    Two renderings belong to the interpreter, not to the repository: how
    [str()] prints a float, a list or a dict inside an f-string, and the
    message [str(e)] of an exception.  They are an interface here. *)
Class PyRuntime := {
  py_repr : json -> string;
  exn_str : exn -> string
}.

(** ** Strings *)

Definition nl : string := String (Ascii.ascii_of_nat 10) "".

(** UTF-8 continuation bytes are [10xxxxxx]. *)
Definition is_continuation (a : Ascii.ascii) : bool :=
  let n := Ascii.nat_of_ascii a in (128 <=? n)%nat && (n <? 192)%nat.

Definition starts_with_continuation (s : string) : bool :=
  match s with
  | String a _ => is_continuation a
  | EmptyString => false
  end.

(** The characters of a [str], each one a [str] of length one. *)
Fixpoint code_points (s : string) : list string :=
  match s with
  | EmptyString => []
  | String a rest =>
      match code_points rest with
      | c :: cs =>
          if starts_with_continuation rest
          then String a c :: cs
          else String a "" :: c :: cs
      | [] => [String a ""]
      end
  end.

(** [k in s] on two strings. *)
Fixpoint is_substring (k s : string) : bool :=
  String.prefix k s ||
  match s with
  | String _ rest => is_substring k rest
  | EmptyString => false
  end.

(** [str.zfill]-style padding, as [%02d] and [%04d] print. *)
Definition zfill (width n : nat) : string :=
  let digits := pretty n in
  String.concat "" (replicate (width - String.length digits) "0") ++ digits.

(** ** Dynamic operations *)

Definition float_nonzero (f : pyfloat) : bool :=
  match f with
  | Finite m _ => negb (m =? 0)%Z
  | _ => true
  end.

(** [bool(v)]: what [if v] and [not v] test. *)
Definition truthy (v : json) : bool :=
  match v with
  | JNull => false
  | JBool b => b
  | JInt z => negb (z =? 0)%Z
  | JFloat f => float_nonzero f
  | JStr s => negb (String.eqb s "")
  | JArr l => negb (bool_decide (length l = 0%nat))
  | JObj d => negb (bool_decide (size d = 0%nat))
  end.

(** [v[k]] with a string key. *)
Definition py_getitem (v : json) (k : string) : result json :=
  match v with
  | JObj d =>
      match d !! k with
      | Some x => Ok x
      | None => Raise (KeyError k)
      end
  | JArr _ | JStr _ => Raise (TypeError BadIndex (type_of v))
  | _ => Raise (TypeError NotSubscriptable (type_of v))
  end.

(** [v[k] = x] with a string key; the result is the mutated object. *)
Definition py_setitem (v : json) (k : string) (x : json) : result json :=
  match v with
  | JObj d => Ok (JObj (<[k := x]> d))
  | _ => Raise (TypeError NoItemAssignment (type_of v))
  end.

(** [v.get(k, dflt)]. *)
Definition py_get (v : json) (k : string) (dflt : json) : result json :=
  match v with
  | JObj d => Ok (default dflt (d !! k))
  | _ => Raise (AttributeError (type_of v) "get")
  end.

(** [v.append(x)]; the result is the mutated list. *)
Definition py_append (v : json) (x : json) : result json :=
  match v with
  | JArr l => Ok (JArr (l ++ [x]))
  | _ => Raise (AttributeError (type_of v) "append")
  end.

(** [v.pop(i)]; the result is the mutated list. *)
Definition py_pop (v : json) (i : nat) : result json :=
  match v with
  | JArr l =>
      if bool_decide (i < length l)%nat
      then Ok (JArr (delete i l))
      else Raise IndexError
  | JObj _ => Raise (KeyError (pretty i))
  | _ => Raise (AttributeError (type_of v) "pop")
  end.

(** [len(v)]. *)
Definition py_len (v : json) : result nat :=
  match v with
  | JArr l => Ok (length l)
  | JStr s => Ok (length (code_points s))
  | JObj d => Ok (size d)
  | _ => Raise (TypeError NoLen (type_of v))
  end.

(** The items [for x in v] visits. *)
Definition py_iter (v : json) : result (list json) :=
  match v with
  | JArr l => Ok l
  | JStr s => Ok (JStr <$> code_points s)
  | JObj d => Ok (JStr <$> (map_to_list d).*1)
  | _ => Raise (TypeError NotIterable (type_of v))
  end.

(** [value == s] for a string [s]. *)
Definition py_eq_str (v : json) (s : string) : bool :=
  match v with
  | JStr t => String.eqb t s
  | _ => false
  end.

(** [k in v] for a string [k]. *)
Definition py_contains (k : string) (v : json) : result bool :=
  match v with
  | JObj d => Ok (bool_decide (is_Some (d !! k)))
  | JArr l => Ok (existsb (fun x => py_eq_str x k) l)
  | JStr s => Ok (is_substring k s)
  | _ => Raise (TypeError NotContainer (type_of v))
  end.

(** [str(v)], as an f-string field prints it. *)
Definition py_str `{PyRuntime} (v : json) : string :=
  match v with
  | JStr s => s
  | JNull => "None"
  | JBool true => "True"
  | JBool false => "False"
  | JInt z => pretty z
  | _ => py_repr v
  end.

(** ** Time *)

(** The fields of a [datetime] object. *)
Record datetime := DateTime {
  year : nat; month : nat; day : nat;
  hour : nat; minute : nat; second : nat;
  microsecond : nat
}.

(** [t.strftime("%Y%m%d_%H%M%S")].  The year prints with four digits,
    as every year from 1000 on does on every platform. *)
Definition strftime (t : datetime) : string :=
  zfill 4 (year t) ++ zfill 2 (month t) ++ zfill 2 (day t) ++ "_" ++
  zfill 2 (hour t) ++ zfill 2 (minute t) ++ zfill 2 (second t).

(** [t.isoformat()]: the microseconds are printed only when non-zero. *)
Definition isoformat (t : datetime) : string :=
  zfill 4 (year t) ++ "-" ++ zfill 2 (month t) ++ "-" ++ zfill 2 (day t) ++
  "T" ++ zfill 2 (hour t) ++ ":" ++ zfill 2 (minute t) ++ ":" ++
  zfill 2 (second t) ++
  (if (microsecond t =? 0)%nat then "" else "." ++ zfill 6 (microsecond t)).

(** Two instants that a clock with a resolution of one second cannot
    tell apart. *)
Definition same_second (t1 t2 : datetime) : Prop :=
  year t1 = year t2 /\ month t1 = month t2 /\ day t1 = day t2 /\
  hour t1 = hour t2 /\ minute t1 = minute t2 /\ second t1 = second t2.

(** ** The environment *)

(** Why [json.load] refuses a file with an exception other than
    [JSONDecodeError]: bytes that are not text in the encoding, a number
    with more digits than the interpreter converts, brackets nested
    deeper than it recurses. *)
Inductive load_error := NotUnicode | IntTooLong | TooDeep.

Definition load_exn (why : load_error) : exn :=
  match why with
  | NotUnicode => UnicodeDecodeError
  | IntTooLong => ValueError
  | TooDeep => RecursionError
  end.

(** What [data/purchase_queue.json] holds: nothing; text that is not
    JSON, what [json.load] answers with [JSONDecodeError], as the
    beginning of a document whose writing broke off is; something
    [json.load] refuses with another exception; or the serialisation of
    a value. *)
Inductive file :=
  | Missing
  | Garbled
  | Json (v : json)
  | Unloadable (why : load_error).

Inductive io_event := OpenRead | OpenWrite.

(** [clock] lists the answers of [datetime.now()], [ticks] counts the
    calls made so far; [log] records every [open] of the queue file, and
    [faults n] is the error, if any, that the [n]-th [open] reports.
    [json.dump] writes to a file that [open] has emptied, and it can
    break off: on a value the interpreter does not print (an [int] of
    too many digits, nesting too deep) or on a failure of the disk.
    Which values and when belongs to the interpreter and to the
    machine: [dump_faults n] is the exception, if any, that stops the
    dump through the [n]-th [open]. *)
Record world := World {
  disk : file;
  clock : nat -> datetime;
  ticks : nat;
  faults : nat -> option errno;
  dump_faults : nat -> option exn;
  log : list io_event
}.

Definition tick (w : world) : world :=
  {| disk := disk w; clock := clock w; ticks := S (ticks w);
     faults := faults w; dump_faults := dump_faults w; log := log w |}.

Definition opened (ev : io_event) (w : world) : world :=
  {| disk := disk w; clock := clock w; ticks := ticks w;
     faults := faults w; dump_faults := dump_faults w; log := log w ++ [ev] |}.

Definition stored (v : json) (w : world) : world :=
  {| disk := Json v; clock := clock w; ticks := ticks w;
     faults := faults w; dump_faults := dump_faults w; log := log w |}.

(** The file after a dump that broke off. *)
Definition torn (w : world) : world :=
  {| disk := Garbled; clock := clock w; ticks := ticks w;
     faults := faults w; dump_faults := dump_faults w; log := log w |}.

(** The next [n] calls of [open] succeed, and so does what is written
    through them. *)
Definition calm (n : nat) (w : world) : Prop :=
  forall i, (i < n)%nat ->
    faults w (length (log w) + i) = None /\
    dump_faults w (length (log w) + i) = None.

(** ** Computations: state and exceptions *)

Definition M (A : Type) : Type := world -> result A * world.

Definition ret {A} (a : A) : M A := fun w => (Ok a, w).

Definition raise {A} (e : exn) : M A := fun w => (Raise e, w).

Definition bind {A B} (m : M A) (k : A -> M B) : M B :=
  fun w =>
    match m w with
    | (Ok a, w') => k a w'
    | (Raise e, w') => (Raise e, w')
    end.

Definition lift {A} (r : result A) : M A := fun w => (r, w).

Notation "x <- c1 ;; c2" := (bind c1 (fun x => c2))
  (at level 100, c1 at next level, right associativity, only parsing).
Notation "c1 ;; c2" := (bind c1 (fun _ => c2))
  (at level 100, right associativity, only parsing).

(** [try: body / except <catches> as e: handler e]. *)
Definition try_except {A} (body : M A) (catches : exn -> bool)
    (handler : exn -> M A) : M A :=
  fun w =>
    match body w with
    | (Raise e, w') => if catches e then handler e w' else (Raise e, w')
    | done => done
    end.

(** [datetime.now()]. *)
Definition now : M datetime :=
  fun w => (Ok (clock w (ticks w)), tick w).

(** [open(self.queue_file, mode)]. *)
Definition open_file (mode : io_event) : M unit :=
  fun w =>
    match faults w (length (log w)) with
    | Some code => (Raise (OSError code), opened mode w)
    | None => (Ok tt, opened mode w)
    end.

(** [with open(self.queue_file, 'r') as f: return json.load(f)]. *)
Definition read_json : M json :=
  open_file OpenRead ;;
  fun w =>
    match disk w with
    | Missing => (Raise (OSError ENOENT), w)
    | Garbled => (Raise JSONDecodeError, w)
    | Json v => (Ok v, w)
    | Unloadable why => (Raise (load_exn why), w)
    end.

(** [with open(self.queue_file, 'w') as f: json.dump(v, f, indent=2)].
    Opening for writing empties the file; a dump that breaks off leaves
    the beginning of the document behind. *)
Definition write_json (v : json) : M unit :=
  open_file OpenWrite ;;
  fun w =>
    match dump_faults w (pred (length (log w))) with
    | Some e => (Raise e, torn w)
    | None => (Ok tt, stored v w)
    end.

(** ** The class [PurchaseQueueTool] *)

(** The strings the methods return. *)
Definition msg_no_request_data : string := "Error: No request data provided".

Definition msg_no_request_id : string := "Error: No request ID provided".

Definition msg_added (request_id : string) (n : nat) : string :=
  "✅ Purchase request " ++ request_id ++
  " added to queue successfully. Total pending requests: " ++ pretty n.

Definition msg_completed (request_id : string) (n : nat) : string :=
  "✅ Request " ++ request_id ++
  " marked as completed. Remaining pending: " ++ pretty n.

Definition msg_not_found (request_id : string) : string :=
  "❌ Request " ++ request_id ++ " not found in pending requests".

Definition msg_no_pending : string :=
  "📋 No pending purchase requests in queue.".

Definition msg_unknown_action (action : string) : string :=
  "Error: Unknown action '" ++ action ++
  "'. Available actions: add_to_queue, get_pending, mark_completed, get_status".

(** The document [_initialize_queue] writes. *)
Definition initial_data (created_at last_updated : datetime) : json :=
  JObj {[ "pending_requests" := JArr [];
          "completed_requests" := JArr [];
          "metadata" := JObj {[ "created_at" := JStr (isoformat created_at);
                                "last_updated" := JStr (isoformat last_updated) ]} ]}.

(** The entry [_add_to_queue] builds. *)
Definition queue_item (request_id : string) (timestamp : datetime)
    (request_data : json) : json :=
  JObj {[ "request_id" := JStr request_id;
          "timestamp" := JStr (isoformat timestamp);
          "status" := JStr "pending";
          "validation_data" := request_data;
          "created_by" := JStr "purchase_validation_agent" ]}.

Definition _initialize_queue : M unit :=
  created_at <- now ;;
  last_updated <- now ;;
  write_json (initial_data created_at last_updated).

(** [__init__]: the file is created when [os.path.exists] says it is
    absent. *)
Definition __init__ : M unit :=
  fun w =>
    match disk w with
    | Missing => _initialize_queue w
    | _ => ret tt w
    end.

Definition _load_queue : M json :=
  try_except read_json
    (fun e => is_FileNotFoundError e || is_JSONDecodeError e)
    (fun _ => _initialize_queue ;; read_json).

(** [data] is mutated in place; the mutated object is the result, for
    the caller that goes on using it. *)
Definition _save_queue (data : json) : M json :=
  t <- now ;;
  metadata <- lift (py_getitem data "metadata") ;;
  metadata <- lift (py_setitem metadata "last_updated" (JStr (isoformat t))) ;;
  data <- lift (py_setitem data "metadata" metadata) ;;
  write_json data ;;
  ret data.

Definition _generate_request_id : M string :=
  timestamp <- now ;;
  ret ("PQ_" ++ strftime timestamp).

Definition _add_to_queue (request_data : json) : M string :=
  if negb (truthy request_data) then ret msg_no_request_data else
  queue_data <- _load_queue ;;
  request_id <- _generate_request_id ;;
  timestamp <- now ;;
  let item := queue_item request_id timestamp request_data in
  pending <- lift (py_getitem queue_data "pending_requests") ;;
  pending <- lift (py_append pending item) ;;
  queue_data <- lift (py_setitem queue_data "pending_requests" pending) ;;
  queue_data <- _save_queue queue_data ;;
  pending <- lift (py_getitem queue_data "pending_requests") ;;
  n <- lift (py_len pending) ;;
  ret (msg_added request_id n).

(** The body of [for i, request in enumerate(pending_requests)], from
    index [i] on, [rest] being the items not yet visited. *)
Fixpoint mark_loop (request_id : string)
    (queue_data pending_requests completed_requests : json)
    (i : nat) (rest : list json) : M string :=
  match rest with
  | [] => ret (msg_not_found request_id)
  | request :: rest =>
      found <- lift (py_getitem request "request_id") ;;
      if py_eq_str found request_id then
        request <- lift (py_setitem request "status" (JStr "completed")) ;;
        t <- now ;;
        request <- lift (py_setitem request "completed_at" (JStr (isoformat t))) ;;
        request <- lift (py_setitem request "processed_by"
                           (JStr "purchase_order_agent")) ;;
        completed_requests <- lift (py_append completed_requests request) ;;
        pending_requests <- lift (py_pop pending_requests i) ;;
        queue_data <- lift (py_setitem queue_data "pending_requests"
                              pending_requests) ;;
        queue_data <- lift (py_setitem queue_data "completed_requests"
                              completed_requests) ;;
        _save_queue queue_data ;;
        n <- lift (py_len pending_requests) ;;
        ret (msg_completed request_id n)
      else
        mark_loop request_id queue_data pending_requests completed_requests
          (S i) rest
  end.

(** [request_id] is [None] or a [str]. *)
Definition _mark_completed (request_id : option string) : M string :=
  match request_id with
  | None | Some "" => ret msg_no_request_id
  | Some request_id =>
      queue_data <- _load_queue ;;
      pending_requests <- lift (py_get queue_data "pending_requests" (JArr [])) ;;
      completed_requests <- lift (py_get queue_data "completed_requests" (JArr [])) ;;
      items <- lift (py_iter pending_requests) ;;
      mark_loop request_id queue_data pending_requests completed_requests 0 items
  end.

Section Rendering.
Context `{PyRuntime}.

(** One [if "<key>" in validation_data: result += ...] line of the
  summary; [field] is how the value is fetched. *)
Definition summary_line (validation_data : json) (key label : string)
  (field : result json) (result : string) : M string :=
present <- lift (py_contains key validation_data) ;;
if (present : bool) then
  v <- lift field ;;
  ret (result ++ "     - " ++ label ++ py_str v ++ nl)
else ret result.

(** The body of [for request in pending], [result] being the text
  built so far. *)
Fixpoint pending_loop (result : string) (items : list json) : M string :=
match items with
| [] => ret result
| request :: rest =>
    request_id <- lift (py_getitem request "request_id") ;;
    let result := result ++ "🔹 Request ID: " ++ py_str request_id ++ nl in
    timestamp <- lift (py_getitem request "timestamp") ;;
    let result := result ++ "   Timestamp: " ++ py_str timestamp ++ nl in
    status <- lift (py_getitem request "status") ;;
    let result := result ++ "   Status: " ++ py_str status ++ nl in
    validation_data <- lift (py_get request "validation_data" (JObj ∅)) ;;
    result <-
      (if truthy validation_data then
         let result := result ++ "   Validation Summary:" ++ nl in
         result <- summary_line validation_data "budget_status"
                     "Budget Status: "
                     (py_getitem validation_data "budget_status") result ;;
         result <- summary_line validation_data "total_cost"
                     "Total Cost: $"
                     (py_get validation_data "total_cost" (JStr "N/A")) result ;;
         result <- summary_line validation_data "supplier_count"
                     "Suppliers: "
                     (py_getitem validation_data "supplier_count") result ;;
         summary_line validation_data "priority_items"
           "Critical Items: "
           (py_getitem validation_data "priority_items") result
       else ret result) ;;
    pending_loop (result ++ nl) rest
end.

Definition _get_pending_requests : M string :=
queue_data <- _load_queue ;;
pending <- lift (py_get queue_data "pending_requests" (JArr [])) ;;
if negb (truthy pending) then ret msg_no_pending else
n <- lift (py_len pending) ;;
let result :=
  "📋 Found " ++ pretty n ++ " pending purchase request(s):" ++ nl ++ nl in
items <- lift (py_iter pending) ;;
pending_loop result items.

Definition _get_queue_status : M string :=
queue_data <- _load_queue ;;
pending <- lift (py_get queue_data "pending_requests" (JArr [])) ;;
pending_count <- lift (py_len pending) ;;
completed <- lift (py_get queue_data "completed_requests" (JArr [])) ;;
completed_count <- lift (py_len completed) ;;
let result := "📊 Purchase Queue Status:" ++ nl in
let result := result ++ "   Pending Requests: " ++ pretty pending_count ++ nl in
let result := result ++ "   Completed Requests: " ++ pretty completed_count ++ nl in
metadata <- lift (py_get queue_data "metadata" (JObj ∅)) ;;
last_updated <- lift (py_get metadata "last_updated" (JStr "N/A")) ;;
ret (result ++ "   Last Updated: " ++ py_str last_updated ++ nl).

(** The [try] block of [manage_queue]. *)
Definition dispatch (action : string) (request_data : json)
  (request_id : option string) : M string :=
if String.eqb action "add_to_queue" then _add_to_queue request_data
else if String.eqb action "get_pending" then _get_pending_requests
else if String.eqb action "mark_completed" then _mark_completed request_id
else if String.eqb action "get_status" then _get_queue_status
else ret (msg_unknown_action action).

(** [except Exception] catches every exception of this model. *)
Definition manage_queue (action : string) (request_data : json)
  (request_id : option string) : M string :=
try_except (dispatch action request_data request_id)
  (fun _ => true)
  (fun e => ret ("Error in PurchaseQueueTool: " ++ exn_str e)).

End Rendering.

(** ** Queue documents and the vocabulary of the statements *)

(** [request_id_is rid e]: [e] is a dict that carries a [request_id], and
    whether that identifier is [rid]; [None] for anything else. *)
Definition request_id_is (rid : string) (e : json) : option bool :=
  match e with
  | JObj r => (fun v => py_eq_str v rid) <$> r !! "request_id"
  | _ => None
  end.

(** An entry the loop of [_mark_completed] walks past. *)
Definition other_request (rid : string) (e : json) : Prop :=
  request_id_is rid e = Some false.

(** An entry the loop of [_mark_completed] stops at. *)
Definition matching_request (rid : string) (e : json) : Prop :=
  request_id_is rid e = Some true.

(** An entry that carries some [request_id]. *)
Definition is_request (e : json) : Prop :=
  match e with
  | JObj r => is_Some (r !! "request_id")
  | _ => False
  end.

(** The three fields of a queue document [d]. *)
Definition queue_doc (d : gmap string json) (pending completed : list json)
    (metadata : gmap string json) : Prop :=
  d !! "pending_requests" = Some (JArr pending) /\
  d !! "completed_requests" = Some (JArr completed) /\
  d !! "metadata" = Some (JObj metadata).

(** What [_save_queue] does to the metadata at instant [t]. *)
Definition touched (t : datetime) (metadata : gmap string json) : json :=
  JObj (<["last_updated" := JStr (isoformat t)]> metadata).

(** What [_mark_completed] does to the entry it moves at instant [t]. *)
Definition completed_entry (t : datetime) (r : gmap string json) : json :=
  JObj (<["processed_by" := JStr "purchase_order_agent"]>
          (<["completed_at" := JStr (isoformat t)]>
             (<["status" := JStr "completed"]> r))).

(** The identifier [_generate_request_id] makes of instant [t]. *)
Definition request_id_at (t : datetime) : string := "PQ_" ++ strftime t.

(** The [n]-th answer of the clock counted from now. *)
Definition reading (w : world) (n : nat) : datetime := clock w (n + ticks w).

(** Field [k] of an entry, when the entry is a dict that has it. *)
Definition field (k : string) (e : json) : option json :=
  match e with
  | JObj r => r !! k
  | _ => None
  end.

(** The action names [manage_queue] dispatches on. *)
Definition actions : list string :=
  ["add_to_queue"; "get_pending"; "mark_completed"; "get_status"].

(** What [except Exception as e] in [manage_queue] returns. *)
Definition msg_error `{PyRuntime} (e : exn) : string :=
  "Error in PurchaseQueueTool: " ++ exn_str e.

(** The line [_get_pending_requests] adds for [key] when the payload is
    the dict [x]. *)
Definition add_line `{PyRuntime} (x : gmap string json) (key label : string)
    (result : string) : string :=
  match x !! key with
  | Some v => result ++ "     - " ++ label ++ py_str v ++ nl
  | None => result
  end.

(** What [_get_pending_requests] prints for a single entry with
    identifier [rid], timestamp [ts], status [pending] and a non-empty
    dict [x] as payload. *)
Definition listing_of_one `{PyRuntime} (rid ts : string)
    (x : gmap string json) : string :=
  let result :=
    "📋 Found " ++ pretty 1%nat ++ " pending purchase request(s):" ++ nl ++ nl in
  let result := result ++ "🔹 Request ID: " ++ rid ++ nl in
  let result := result ++ "   Timestamp: " ++ ts ++ nl in
  let result := result ++ "   Status: " ++ "pending" ++ nl in
  let result := result ++ "   Validation Summary:" ++ nl in
  let result := add_line x "budget_status" "Budget Status: " result in
  let result := add_line x "total_cost" "Total Cost: $" result in
  let result := add_line x "supplier_count" "Suppliers: " result in
  let result := add_line x "priority_items" "Critical Items: " result in
  result ++ nl.

(** What [_get_queue_status] prints. *)
Definition status_text (pending_count completed_count : nat)
    (last_updated : string) : string :=
  let result := "📊 Purchase Queue Status:" ++ nl in
  let result := result ++ "   Pending Requests: " ++ pretty pending_count ++ nl in
  let result := result ++ "   Completed Requests: " ++ pretty completed_count ++ nl in
  result ++ "   Last Updated: " ++ last_updated ++ nl.

(** The two mutating operations of the store, and the states a sequence
    of them reaches. *)
Inductive operation :=
  | Admit (request_data : json)
  | Complete (request_id : option string).

Definition perform (op : operation) : M string :=
  match op with
  | Admit request_data => _add_to_queue request_data
  | Complete request_id => _mark_completed request_id
  end.

Inductive reaches (w0 : world) : world -> Prop :=
  | reaches_start : reaches w0 w0
  | reaches_step w op r w' :
      reaches w0 w -> perform op w = (r, w') -> reaches w0 w'.

(** Every entry of [pending] is pending and carries no [completed_at];
    every entry of [completed] is completed and carries one. *)
Definition pending_shape (e : json) : Prop :=
  is_request e /\
  field "status" e = Some (JStr "pending") /\ field "completed_at" e = None.

Definition completed_shape (e : json) : Prop :=
  is_request e /\
  field "status" e = Some (JStr "completed") /\ is_Some (field "completed_at" e).

(** The value of a decimal digit, and of a string of digits read from
    the left with [acc] as the value read so far. *)
Definition digit_value (a : Ascii.ascii) : N := N.of_nat (Ascii.nat_of_ascii a) - 48.

Fixpoint number_of (acc : N) (s : string) : N :=
  match s with
  | EmptyString => acc
  | String a rest => number_of (10 * acc + digit_value a) rest
  end.

(** The ranges of the fields of a [datetime] object. *)
Definition valid_datetime (t : datetime) : Prop :=
  (1 <= Z.of_nat (year t) <= 9999)%Z /\
  (1 <= month t <= 12)%nat /\ (1 <= day t <= 31)%nat /\
  (hour t < 24)%nat /\ (minute t < 60)%nat /\ (second t < 60)%nat /\
  (Z.of_nat (microsecond t) < 1000000)%Z.

(** The identifiers of a list of entries, in order. *)
Definition identifiers (l : list json) : list (option json) :=
  field "request_id" <$> l.

(** The identifier [_generate_request_id] makes of the [k]-th answer of
    the clock, as an entry carries it. *)
Definition minted (clk : nat -> datetime) (k : nat) : option json :=
  Some (JStr (request_id_at (clk k))).

(** Readings of the clock, latest first, each at least three readings
    after the one before: an admission reads the clock three times, for
    the identifier, for the timestamp and for [last_updated]. *)
Fixpoint spaced (ks : list nat) : Prop :=
  match ks with
  | [] => True
  | k :: ks => Forall (fun k' => k' + 3 <= k)%nat ks /\ spaced ks
  end.

(** A file holding a queue document whose entries have the shape of
    their list and whose identifiers were made, one each, of readings
    of the clock [clk] that lie three apart, each followed by two more
    among the first [n]. *)
Definition kept (clk : nat -> datetime) (n : nat) (f : file) : Prop :=
  exists d ps cs md ks,
    f = Json (JObj d) /\ queue_doc d ps cs md /\
    Forall pending_shape ps /\ Forall completed_shape cs /\
    identifiers (ps ++ cs) ≡ₚ minted clk <$> ks /\
    spaced ks /\ Forall (fun k => k + 3 <= n)%nat ks.

(** [w'] is a later state of the world [w]: the clock is the same one
    and has been read at least as often. *)
Definition later (w w' : world) : Prop :=
  clock w' = clock w /\ (ticks w <= ticks w')%nat.

(** A computation that only moves the world forward. *)
Definition forward {A} (m : M A) : Prop :=
  forall w r w', m w = (r, w') -> later w w'.

(** The invariant at a world: the file is torn, or it is kept. *)
Definition keeps (w : world) : Prop :=
  disk w = Garbled \/ kept (clock w) (ticks w) (disk w).

(** ** Effects and listings *)

(** A computation that leaves the world as it finds it. *)
Definition pure {A} (m : M A) : Prop :=
  forall w r w', m w = (r, w') -> w' = w.

(** The next [open] does not report that the file is absent. *)
Definition present (w : world) : Prop :=
  faults w (length (log w)) <> Some ENOENT.

(** A computation that leaves the failures to come as they are. *)
Definition steady {A} (m : M A) : Prop :=
  forall w r w', m w = (r, w') ->
    faults w' = faults w /\ dump_faults w' = dump_faults w.

(** The line [_get_pending_requests] prints for [key] when the payload
    is the dict [x]: none when [x] has no such key. *)
Definition line_of `{PyRuntime} (x : gmap string json) (key label : string)
    : string :=
  match x !! key with
  | Some v => "     - " ++ label ++ py_str v ++ nl
  | None => ""
  end.

(** The summary it prints for a payload: none for a payload Python
    finds false. *)
Definition summary_of `{PyRuntime} (validation_data : json) : string :=
  match validation_data with
  | JObj x =>
      if truthy validation_data then
        "   Validation Summary:" ++ nl ++
        line_of x "budget_status" "Budget Status: " ++
        line_of x "total_cost" "Total Cost: $" ++
        line_of x "supplier_count" "Suppliers: " ++
        line_of x "priority_items" "Critical Items: "
      else ""
  | _ => ""
  end.

(** The block it prints for the entry [e]; an entry without
    [validation_data] counts as one with the empty dict. *)
Definition block_of `{PyRuntime} (e : json) : string :=
  "🔹 Request ID: " ++ py_str (default JNull (field "request_id" e)) ++ nl ++
  "   Timestamp: " ++ py_str (default JNull (field "timestamp" e)) ++ nl ++
  "   Status: " ++ py_str (default JNull (field "status" e)) ++ nl ++
  summary_of (default (JObj ∅) (field "validation_data" e)) ++ nl.

(** The whole listing of a non-empty pending list. *)
Definition listing_of `{PyRuntime} (pending : list json) : string :=
  "📋 Found " ++ pretty (length pending) ++
  " pending purchase request(s):" ++ nl ++ nl ++
  String.concat "" (block_of <$> pending).

(** An entry [_get_pending_requests] prints without an exception: a dict
    with an identifier, a timestamp and a status whose payload, if it
    has one, is a dict or a value Python finds false. *)
Definition listable (e : json) : Prop :=
  is_Some (field "request_id" e) /\
  is_Some (field "timestamp" e) /\
  is_Some (field "status" e) /\
  match default (JObj ∅) (field "validation_data" e) with
  | JObj _ => True
  | v => truthy v = false
  end.

(** ** Sequences of calls *)

(** One call of [manage_queue], and the answers to a sequence of calls
    made one after the other on the same queue file. *)
Record call := Call {
  call_action : string;
  call_data : json;
  call_id : option string
}.

Fixpoint serve `{PyRuntime} (calls : list call) : M (list string) :=
  match calls with
  | [] => ret []
  | c :: calls =>
      answer <- manage_queue (call_action c) (call_data c) (call_id c) ;;
      answers <- serve calls ;;
      ret (answer :: answers)
  end.

(** How a caller tells the two answers of success from every other
    answer: by the way they start. *)
Definition is_added (answer : string) : bool :=
  String.prefix "✅ Purchase request " answer.

Definition is_completed (answer : string) : bool :=
  String.prefix "✅ Request " answer.

(** The payloads of the calls that were answered with an admission. *)
Fixpoint admitted (calls : list call) (answers : list string) : list json :=
  match calls, answers with
  | c :: calls, a :: answers =>
      if is_added a then call_data c :: admitted calls answers
      else admitted calls answers
  | _, _ => []
  end.

(** The payloads of a list of entries, in order. *)
Definition payloads (l : list json) : list (option json) :=
  field "validation_data" <$> l.

(** What the annotation [Dict[str, Any] = None] of [request_data]
    admits. *)
Definition dict_or_none (v : json) : Prop :=
  match v with
  | JObj _ | JNull => True
  | _ => False
  end.

(** The open of the queue file never reports that the file is absent. *)
Definition never_absent (w : world) : Prop :=
  forall n, faults w n <> Some ENOENT.

(** No dump into the queue file ever breaks off. *)
Definition never_torn (w : world) : Prop :=
  forall n, dump_faults w n = None.

(** The values Python finds false: [None], [False], a zero, the empty
    string, the empty list and the empty dict. *)
Definition false_value (v : json) : Prop :=
  v = JNull \/ v = JBool false \/ v = JInt 0 \/
  (exists e, v = JFloat (Finite 0 e)) \/
  v = JStr "" \/ v = JArr [] \/ v = JObj ∅.

(** A value [in] cannot search: neither a string nor a list nor a
    dict. *)
Definition scalar (v : json) : Prop :=
  match v with
  | JBool _ | JInt _ | JFloat _ => True
  | _ => False
  end.

(** ** Sample data for the examples *)

(** A runtime for the examples.  It prints a float that is a whole
    number as CPython does (digits, then [.0]) and any other float, a
    list or a dict as an ellipsis; an exception prints as the name of
    its class, a [KeyError] as the quoted key. *)
Definition sample_runtime : PyRuntime :=
  {| py_repr := fun v =>
       match v with
       | JFloat (Finite m (Z0 as e)) | JFloat (Finite m (Zpos _ as e)) =>
           pretty (m * 2 ^ e)%Z ++ ".0"
       | _ => "..."
       end;
     exn_str := fun e =>
       match e with
       | OSError ENOENT => "FileNotFoundError"
       | OSError EACCES => "PermissionError"
       | OSError EISDIR => "IsADirectoryError"
       | OSError _ => "OSError"
       | JSONDecodeError => "JSONDecodeError"
       | KeyError k => "'" ++ k ++ "'"
       | IndexError => "IndexError"
       | TypeError _ _ => "TypeError"
       | AttributeError _ _ => "AttributeError"
       | ValueError => "ValueError"
       | UnicodeDecodeError => "UnicodeDecodeError"
       | RecursionError => "RecursionError"
       end |}.

(** A clock whose answers all fall into the second 2025-01-02 12:00:00,
    one hundred microseconds apart. *)
Definition burst_clock (n : nat) : datetime :=
  DateTime 2025 1 2 12 0 0 (100 * S n).

(** A clock that advances by one second per reading. *)
Definition slow_clock (n : nat) : datetime :=
  DateTime 2025 1 2 12 (n `div` 60) (n `mod` 60) 0.

Definition no_faults : nat -> option errno := fun _ => None.

Definition no_dump_faults : nat -> option exn := fun _ => None.

(** The world before the tool is constructed: no queue file yet. *)
Definition blank_world (clk : nat -> datetime) : world :=
  {| disk := Missing; clock := clk; ticks := 0;
     faults := no_faults; dump_faults := no_dump_faults; log := [] |}.

(** The world right after [__init__]. *)
Definition fresh_world (clk : nat -> datetime) : world :=
  snd (__init__ (blank_world clk)).

(** The payload of the self-test at the end of the source file; the
    cost 1000.00 is the float [125 * 2^3]. *)
Definition test_request : gmap string json :=
  {[ "supplier_name" := JStr "Test Supplier";
     "total_cost" := JFloat (Finite 125 3);
     "budget_status" := JStr "approved";
     "supplier_count" := JInt 1;
     "priority_items" := JInt 2 ]}.

(** The world after two admissions within one second. *)
Definition collided_world : world :=
  snd (_add_to_queue (JObj test_request)
         (snd (_add_to_queue (JObj test_request) (fresh_world burst_clock)))).

(** The world after two admissions a few seconds apart: the identifiers
    are [PQ_20250102_120002] and [PQ_20250102_120005]. *)
Definition busy_world : world :=
  snd (_add_to_queue (JObj test_request)
         (snd (_add_to_queue (JObj test_request) (fresh_world slow_clock)))).


(** A world whose queue file holds JSON that is no queue document: an
    empty list. *)
Definition odd_world : world :=
  {| disk := Json (JArr []); clock := slow_clock; ticks := 0;
     faults := no_faults; dump_faults := no_dump_faults; log := [] |}.

(** A world whose queue file holds bytes that are not text. *)
Definition undecodable_world : world :=
  {| disk := Unloadable NotUnicode; clock := slow_clock; ticks := 0;
     faults := no_faults; dump_faults := no_dump_faults; log := [] |}.

(** A fresh store on a disk that is full: the dump through the third
    [open], the write of the first admission, breaks off. *)
Definition full_disk_world : world :=
  {| disk := Json (initial_data (slow_clock 0) (slow_clock 1));
     clock := slow_clock; ticks := 2;
     faults := no_faults;
     dump_faults := fun n => if (n =? 2)%nat then Some (OSError ENOSPC) else None;
     log := [OpenWrite] |}.

(** A clock that advances by one second at every third reading: the
    three readings of one admission can fall into one second. *)
Definition paced_clock (n : nat) : datetime :=
  DateTime 2025 1 2 12 ((n `div` 3) `div` 60) ((n `div` 3) `mod` 60) (n `mod` 3).

(** The world after two admissions on that clock. *)
Definition paced_world : world :=
  snd (_add_to_queue (JObj test_request)
         (snd (_add_to_queue (JObj test_request) (fresh_world paced_clock)))).

(** The document a world holds and its metadata, for naming them in the
    examples. *)
Definition document (w : world) : gmap string json :=
  match disk w with
  | Json (JObj d) => d
  | _ => ∅
  end.

Definition metadata_of (d : gmap string json) : gmap string json :=
  match d !! "metadata" with
  | Some (JObj md) => md
  | _ => ∅
  end.

(** A world whose queue file is not JSON, on a machine where every
    [open] succeeds. *)
Definition garbled_world : world :=
  {| disk := Garbled; clock := slow_clock; ticks := 0;
     faults := no_faults; dump_faults := no_dump_faults; log := [] |}.

(** A world whose queue file holds the empty JSON object. *)
Definition bare_world : world :=
  {| disk := Json (JObj ∅); clock := slow_clock; ticks := 0;
     faults := no_faults; dump_faults := no_dump_faults; log := [] |}.

(** Calls of [manage_queue] on a fresh store: an admission, an
    admission without data, a second admission, the completion of the
    first, a listing and an action the method does not have. *)
Definition sample_calls : list call :=
  [ Call "add_to_queue" (JObj test_request) None;
    Call "add_to_queue" JNull None;
    Call "add_to_queue" (JObj test_request) None;
    Call "mark_completed" JNull (Some "PQ_20250102_120002");
    Call "get_pending" JNull None;
    Call "purge" JNull None ].


(** * Properties *)

Open Scope list_scope.

(** ** Running computations *)

Lemma bind_run {A B} (m : M A) (k : A -> M B) w a w' :
  m w = (Ok a, w') -> bind m k w = k a w'.
Proof. intros Hm. unfold bind. by rewrite Hm. Qed.

Lemma bind_fail {A B} (m : M A) (k : A -> M B) w e w' :
  m w = (Raise e, w') -> bind m k w = (Raise e, w').
Proof. intros Hm. unfold bind. by rewrite Hm. Qed.

Lemma bind_lift {A B} (r : result A) (k : A -> M B) w a :
  r = Ok a -> bind (lift r) k w = k a w.
Proof. by intros ->. Qed.

Lemma bind_now {B} (k : datetime -> M B) w :
  bind now k w = k (clock w (ticks w)) (tick w).
Proof. reflexivity. Qed.

Lemma calm_S n w ev : calm (S n) w -> calm n (opened ev w).
Proof.
  intros Hc i Hi. unfold opened; simpl. rewrite length_app. simpl.
  replace (length (log w) + 1 + i)%nat with (length (log w) + S i)%nat by lia.
  apply Hc. lia.
Qed.

Lemma calm_head n w : calm (S n) w -> faults w (length (log w)) = None.
Proof. intros Hc. specialize (Hc 0%nat). rewrite Nat.add_0_r in Hc. apply Hc. lia. Qed.

Lemma calm_dump n w : calm (S n) w -> dump_faults w (length (log w)) = None.
Proof. intros Hc. specialize (Hc 0%nat). rewrite Nat.add_0_r in Hc. apply Hc. lia. Qed.

Lemma calm_tick n w : calm n w -> calm n (tick w).
Proof. done. Qed.

Lemma calm_stored n v w : calm n w -> calm n (stored v w).
Proof. done. Qed.

Lemma calm_le n m w : (m <= n)%nat -> calm n w -> calm m w.
Proof. intros Hle Hc i Hi. apply Hc. lia. Qed.

Lemma open_file_run mode w n :
  calm (S n) w -> open_file mode w = (Ok tt, opened mode w).
Proof. intros Hc. unfold open_file. by rewrite (calm_head _ _ Hc). Qed.

Lemma read_json_run w v n :
  calm (S n) w -> disk w = Json v -> read_json w = (Ok v, opened OpenRead w).
Proof.
  intros Hc Hd. unfold read_json.
  rewrite (bind_run _ _ _ _ _ (open_file_run _ _ _ Hc)).
  change (disk (opened OpenRead w)) with (disk w). by rewrite Hd.
Qed.

Lemma write_json_run w v n :
  calm (S n) w -> write_json v w = (Ok tt, stored v (opened OpenWrite w)).
Proof.
  intros Hc. unfold write_json.
  rewrite (bind_run _ _ _ _ _ (open_file_run _ _ _ Hc)).
  unfold opened at 1 2. simpl. rewrite length_app, Nat.add_1_r. simpl.
  by rewrite (calm_dump _ _ Hc).
Qed.

Lemma _load_queue_run w v n :
  calm (S n) w -> disk w = Json v -> _load_queue w = (Ok v, opened OpenRead w).
Proof.
  intros Hc Hd. unfold _load_queue, try_except.
  by rewrite (read_json_run _ _ _ Hc Hd).
Qed.

Lemma py_getitem_ok d k x : d !! k = Some x -> py_getitem (JObj d) k = Ok x.
Proof. intros Hk. unfold py_getitem. by rewrite Hk. Qed.

Lemma _save_queue_run w d md n :
  calm (S n) w -> d !! "metadata" = Some (JObj md) ->
  let d' := <["metadata" := touched (clock w (ticks w)) md]> d in
  _save_queue (JObj d) w = (Ok (JObj d'), stored (JObj d') (opened OpenWrite (tick w))).
Proof.
  intros Hc Hmd d'. unfold _save_queue.
  rewrite bind_now.
  rewrite (bind_lift _ _ _ _ (py_getitem_ok _ _ _ Hmd)).
  rewrite (bind_lift _ _ _ (touched (clock w (ticks w)) md)) by reflexivity.
  rewrite (bind_lift _ _ _ (JObj d')) by reflexivity.
  rewrite (bind_run _ _ _ _ _ (write_json_run _ _ _ (calm_tick _ _ Hc))).
  reflexivity.
Qed.

Lemma _add_to_queue_run w d ps md x n :
  truthy x = true -> disk w = Json (JObj d) ->
  d !! "pending_requests" = Some (JArr ps) ->
  d !! "metadata" = Some (JObj md) ->
  calm (S (S n)) w ->
  let rid := request_id_at (reading w 0) in
  let d' := <["metadata" := touched (reading w 2) md]>
              (<["pending_requests" := JArr (ps ++ [queue_item rid (reading w 1) x])]> d) in
  _add_to_queue x w =
    (Ok (msg_added rid (S (length ps))),
     stored (JObj d') (opened OpenWrite (tick (tick (tick (opened OpenRead w)))))).
Proof.
  intros Hx Hd Hps Hmd Hc rid d'. unfold _add_to_queue. rewrite Hx. cbn [negb].
  rewrite (bind_run _ _ _ _ _ (_load_queue_run _ _ _ Hc Hd)).
  unfold _generate_request_id. 
  rewrite (bind_run _ _ _ rid (tick (opened OpenRead w))) by reflexivity.
  rewrite bind_now.
  rewrite (bind_lift _ _ _ _ (py_getitem_ok _ _ _ Hps)).
  rewrite (bind_lift _ _ _ (JArr (ps ++ [queue_item rid (reading w 1) x]))) by reflexivity.
  rewrite (bind_lift _ _ _ (JObj (<["pending_requests" := JArr (ps ++ [queue_item rid (reading w 1) x])]> d))) by reflexivity.
  erewrite bind_run; cycle 1.
  { eapply (_save_queue_run _ _ md n).
    - do 3 apply calm_tick. apply (calm_S _ _ _ Hc).
    - rewrite lookup_insert_ne by done. exact Hmd. }
  cbv zeta.
  erewrite bind_lift; cycle 1.
  { apply py_getitem_ok. rewrite lookup_insert_ne by done. apply lookup_insert_eq. }
  rewrite (bind_lift _ _ _ (S (length ps))); cycle 1.
  { unfold py_len. rewrite length_app. simpl. f_equal. lia. }
  reflexivity.
Qed.

(** The same runs under the failures of the two [open]s alone, whatever
    becomes of the dump. *)
Lemma read_json_ok w v :
  faults w (length (log w)) = None -> disk w = Json v ->
  read_json w = (Ok v, opened OpenRead w).
Proof.
  intros Hf Hd. unfold read_json, bind, open_file. rewrite Hf.
  change (disk (opened OpenRead w)) with (disk w). by rewrite Hd.
Qed.

Lemma _load_queue_ok w v :
  faults w (length (log w)) = None -> disk w = Json v ->
  _load_queue w = (Ok v, opened OpenRead w).
Proof.
  intros Hf Hd. unfold _load_queue, try_except. by rewrite (read_json_ok _ _ Hf Hd).
Qed.

Lemma write_json_at w v :
  faults w (length (log w)) = None ->
  write_json v w =
    match dump_faults w (length (log w)) with
    | Some e => (Raise e, torn (opened OpenWrite w))
    | None => (Ok tt, stored v (opened OpenWrite w))
    end.
Proof.
  intros Hf. unfold write_json, bind, open_file. rewrite Hf.
  unfold opened at 1 2. simpl. rewrite length_app, Nat.add_1_r. simpl.
  by destruct (dump_faults w (length (log w))).
Qed.

Lemma _save_queue_at w d md :
  d !! "metadata" = Some (JObj md) ->
  faults w (length (log w)) = None ->
  let d' := <["metadata" := touched (clock w (ticks w)) md]> d in
  _save_queue (JObj d) w =
    match dump_faults w (length (log w)) with
    | Some e => (Raise e, torn (opened OpenWrite (tick w)))
    | None => (Ok (JObj d'), stored (JObj d') (opened OpenWrite (tick w)))
    end.
Proof.
  intros Hmd Hf d'. unfold _save_queue.
  rewrite bind_now.
  rewrite (bind_lift _ _ _ _ (py_getitem_ok _ _ _ Hmd)).
  rewrite (bind_lift _ _ _ (touched (clock w (ticks w)) md)) by reflexivity.
  rewrite (bind_lift _ _ _ (JObj d')) by reflexivity.
  unfold bind. rewrite (write_json_at (tick w)) by exact Hf.
  change (dump_faults (tick w) (length (log (tick w))))
    with (dump_faults w (length (log w))).
  by destruct (dump_faults w (length (log w))).
Qed.

Lemma _add_to_queue_at w d ps md x :
  truthy x = true -> disk w = Json (JObj d) ->
  d !! "pending_requests" = Some (JArr ps) ->
  d !! "metadata" = Some (JObj md) ->
  faults w (length (log w)) = None ->
  faults w (S (length (log w))) = None ->
  let rid := request_id_at (reading w 0) in
  let d' := <["metadata" := touched (reading w 2) md]>
              (<["pending_requests" := JArr (ps ++ [queue_item rid (reading w 1) x])]> d) in
  let w1 := opened OpenWrite (tick (tick (tick (opened OpenRead w)))) in
  _add_to_queue x w =
    match dump_faults w (S (length (log w))) with
    | Some e => (Raise e, torn w1)
    | None => (Ok (msg_added rid (S (length ps))), stored (JObj d') w1)
    end.
Proof.
  intros Hx Hd Hps Hmd Hf0 Hf1 rid d' w1. unfold _add_to_queue. rewrite Hx. cbn [negb].
  rewrite (bind_run _ _ _ _ _ (_load_queue_ok _ _ Hf0 Hd)).
  unfold _generate_request_id.
  rewrite (bind_run _ _ _ rid (tick (opened OpenRead w))) by reflexivity.
  rewrite bind_now.
  rewrite (bind_lift _ _ _ _ (py_getitem_ok _ _ _ Hps)).
  rewrite (bind_lift _ _ _ (JArr (ps ++ [queue_item rid (reading w 1) x]))) by reflexivity.
  rewrite (bind_lift _ _ _ (JObj (<["pending_requests" := JArr (ps ++ [queue_item rid (reading w 1) x])]> d))) by reflexivity.
  unfold bind at 1.
  rewrite (_save_queue_at _ _ md); cycle 1.
  { rewrite lookup_insert_ne by done. exact Hmd. }
  { simpl. rewrite length_app, Nat.add_1_r. exact Hf1. }
  change (dump_faults _ (length (log (tick (tick (opened OpenRead w))))))
    with (dump_faults w (length (log w ++ [OpenRead]))).
  rewrite length_app, Nat.add_1_r.
  destruct (dump_faults w (S (length (log w)))); [reflexivity|].
  erewrite bind_lift; cycle 1.
  { apply py_getitem_ok. rewrite lookup_insert_ne by done. apply lookup_insert_eq. }
  rewrite (bind_lift _ _ _ (S (length ps))); cycle 1.
  { unfold py_len. rewrite length_app. simpl. f_equal. lia. }
  reflexivity.
Qed.

(** ** The loop of [_mark_completed] *)

Lemma other_request_inv rid e :
  other_request rid e ->
  exists r v, e = JObj r /\ r !! "request_id" = Some v /\ py_eq_str v rid = false.
Proof.
  unfold other_request, request_id_is. destruct e as [| | | | |?|r]; try done.
  destruct (r !! "request_id") as [v|] eqn:Hv; simpl; [|done].
  intros [= Hne]. eauto.
Qed.

Lemma matching_request_inv rid e :
  matching_request rid e ->
  exists r, e = JObj r /\ r !! "request_id" = Some (JStr rid).
Proof.
  unfold matching_request, request_id_is. destruct e as [| | | | |?|r]; try done.
  destruct (r !! "request_id") as [v|] eqn:Hv; simpl; [|done].
  intros [= Heq]. exists r. split; [done|].
  destruct v; simpl in Heq; try done.
  apply String.eqb_eq in Heq. by subst.
Qed.

Lemma matching_request_intro rid r :
  r !! "request_id" = Some (JStr rid) -> matching_request rid (JObj r).
Proof.
  intros Hr. unfold matching_request, request_id_is. rewrite Hr. simpl.
  by rewrite String.eqb_refl.
Qed.

(** Every entry that carries an identifier either matches or does not. *)
Lemma is_request_cases rid e :
  is_request e -> matching_request rid e \/ other_request rid e.
Proof.
  unfold is_request, matching_request, other_request, request_id_is.
  destruct e as [| | | | |?|r]; try done.
  intros [v ->]. simpl. destruct (py_eq_str v rid); auto.
Qed.

(** The first matching entry splits the list. *)
Lemma first_match_split rid ps :
  Forall is_request ps -> Exists (matching_request rid) ps ->
  exists (pre : list json) r post,
    ps = pre ++ JObj r :: post /\
    Forall (other_request rid) pre /\
    r !! "request_id" = Some (JStr rid).
Proof.
  induction 1 as [|e ps He Hps IH]; intros Hex.
  - by apply Exists_nil in Hex.
  - destruct (is_request_cases rid e He) as [Hm|Ho].
    + destruct (matching_request_inv _ _ Hm) as (r & -> & Hr).
      exists [], r, ps. auto.
    + apply Exists_cons in Hex as [Hm|Hex].
      * unfold matching_request in Hm. unfold other_request in Ho. congruence.
      * destruct (IH Hex) as (pre & r & post & -> & Hpre & Hr).
        exists (e :: pre), r, post. auto.
Qed.

Lemma no_match_all_other rid ps :
  Forall is_request ps -> ~ Exists (matching_request rid) ps ->
  Forall (other_request rid) ps.
Proof.
  induction 1 as [|e ps He Hps IH]; intros Hno; constructor.
  - destruct (is_request_cases rid e He) as [Hm|Ho]; [|done].
    exfalso. apply Hno. by left.
  - apply IH. intros Hex. apply Hno. by right.
Qed.

Lemma mark_loop_skip rid qd pr cr (pre : list json) : forall i rest w,
  Forall (other_request rid) pre ->
  mark_loop rid qd pr cr i (pre ++ rest) w =
  mark_loop rid qd pr cr (length pre + i) rest w.
Proof.
  induction pre as [|e pre IH]; intros i rest w Hpre; [done|].
  apply Forall_cons in Hpre as [He Hpre].
  destruct (other_request_inv _ _ He) as (r & v & -> & Hr & Hv).
  cbn [app mark_loop].
  rewrite (bind_lift _ _ _ _ (py_getitem_ok _ _ _ Hr)). rewrite Hv.
  rewrite IH by done. f_equal. simpl. lia.
Qed.

Lemma mark_loop_not_found rid qd pr cr ps i w :
  Forall (other_request rid) ps ->
  mark_loop rid qd pr cr i ps w = (Ok (msg_not_found rid), w).
Proof.
  intros Hps. rewrite <- (app_nil_r ps). by rewrite mark_loop_skip.
Qed.

Lemma mark_loop_hit rid d ps cs md r i rest w n :
  r !! "request_id" = Some (JStr rid) ->
  d !! "metadata" = Some (JObj md) ->
  (i < length ps)%nat ->
  calm (S n) w ->
  let d' := <["metadata" := touched (reading w 1) md]>
              (<["completed_requests" := JArr (cs ++ [completed_entry (reading w 0) r])]>
                 (<["pending_requests" := JArr (delete i ps)]> d)) in
  mark_loop rid (JObj d) (JArr ps) (JArr cs) i (JObj r :: rest) w =
    (Ok (msg_completed rid (length (delete i ps))),
     stored (JObj d') (opened OpenWrite (tick (tick w)))).
Proof.
  intros Hr Hmd Hi Hc d'. cbn [mark_loop].
  rewrite (bind_lift _ _ _ _ (py_getitem_ok _ _ _ Hr)).
  cbn [py_eq_str]. rewrite String.eqb_refl.
  rewrite (bind_lift _ _ _ (JObj (<["status" := JStr "completed"]> r))) by reflexivity.
  rewrite bind_now.
  erewrite bind_lift by reflexivity.
  erewrite bind_lift by reflexivity.
  erewrite bind_lift by reflexivity.
  rewrite (bind_lift _ _ _ (JArr (delete i ps))); cycle 1.
  { unfold py_pop. by rewrite bool_decide_eq_true_2. }
  erewrite bind_lift by reflexivity.
  erewrite bind_lift by reflexivity.
  erewrite bind_run; cycle 1.
  { eapply (_save_queue_run _ _ md n).
    - by apply calm_tick.
    - rewrite !lookup_insert_ne by done. exact Hmd. }
  cbv zeta.
  erewrite bind_lift by reflexivity.
  reflexivity.
Qed.

Lemma _mark_completed_found w d (pre : list json) r post cs md rid n :
  rid <> "" ->
  disk w = Json (JObj d) ->
  queue_doc d (pre ++ JObj r :: post) cs md ->
  Forall (other_request rid) pre ->
  r !! "request_id" = Some (JStr rid) ->
  calm (S (S n)) w ->
  let d' := <["metadata" := touched (reading w 1) md]>
              (<["completed_requests" := JArr (cs ++ [completed_entry (reading w 0) r])]>
                 (<["pending_requests" := JArr (pre ++ post)]> d)) in
  _mark_completed (Some rid) w =
    (Ok (msg_completed rid (length (pre ++ post))),
     stored (JObj d') (opened OpenWrite (tick (tick (opened OpenRead w))))).
Proof.
  intros Hrid Hd (Hps & Hcs & Hmd) Hpre Hr Hc d'.
  unfold _mark_completed. destruct rid as [|a rid]; [done|].
  rewrite (bind_run _ _ _ _ _ (_load_queue_run _ _ _ Hc Hd)).
  rewrite (bind_lift _ _ _ (JArr (pre ++ JObj r :: post))); cycle 1.
  { unfold py_get. by rewrite Hps. }
  rewrite (bind_lift _ _ _ (JArr cs)); cycle 1.
  { unfold py_get. by rewrite Hcs. }
  rewrite (bind_lift _ _ _ (pre ++ JObj r :: post)) by reflexivity.
  rewrite mark_loop_skip by done. rewrite Nat.add_0_r.
  rewrite (mark_loop_hit _ _ _ _ md _ _ _ _ n); try done.
  - by rewrite delete_middle.
  - rewrite length_app. simpl. lia.
  - by apply (calm_S _ _ _ Hc).
Qed.

Lemma _mark_completed_not_found w d ps rid n :
  rid <> "" ->
  disk w = Json (JObj d) ->
  d !! "pending_requests" = Some (JArr ps) ->
  Forall (other_request rid) ps ->
  calm (S n) w ->
  _mark_completed (Some rid) w = (Ok (msg_not_found rid), opened OpenRead w).
Proof.
  intros Hrid Hd Hps Hall Hc.
  unfold _mark_completed. destruct rid as [|a rid]; [done|].
  rewrite (bind_run _ _ _ _ _ (_load_queue_run _ _ _ Hc Hd)).
  rewrite (bind_lift _ _ _ (JArr ps)); cycle 1.
  { unfold py_get. by rewrite Hps. }
  erewrite bind_lift by reflexivity.
  rewrite (bind_lift _ _ _ ps) by reflexivity.
  by rewrite mark_loop_not_found.
Qed.

(** ** Admission *)

Lemma same_second_strftime t1 t2 : same_second t1 t2 -> strftime t1 = strftime t2.
Proof.
  intros (Hy & Hm & Hd & Hh & Hmi & Hs). unfold strftime.
  by rewrite Hy, Hm, Hd, Hh, Hmi, Hs.
Qed.

Lemma request_id_at_nonempty t : request_id_at t <> "".
Proof. done. Qed.

Lemma queue_item_request_id rid t x :
  field "request_id" (queue_item rid t x) = Some (JStr rid).
Proof. reflexivity. Qed.

Lemma queue_item_status rid t x :
  field "status" (queue_item rid t x) = Some (JStr "pending").
Proof. reflexivity. Qed.

Lemma queue_item_validation_data rid t x :
  field "validation_data" (queue_item rid t x) = Some x.
Proof. reflexivity. Qed.

Lemma queue_item_completed_at rid t x :
  field "completed_at" (queue_item rid t x) = None.
Proof. reflexivity. Qed.

(** C5.  [_add_to_queue] on empty request data (any value Python finds
    false) returns "Error: No request data provided" and touches
    nothing, not even the file.  On any other data, for a document with
    a pending list and a metadata dict and a file that opens for the
    read and for the write, it makes the identifier [PQ_] followed by
    the clock's next reading down to the second, builds an entry with
    that identifier, the next reading as [timestamp], status "pending",
    the data as [validation_data] and [created_by], and appends it at
    the end of [pending_requests].  When the dump goes through, the
    document is written with [last_updated] set and the answer is the
    line "added to queue successfully" with the identifier and the new
    length of the pending list.  When the dump breaks off, its
    exception leaves the method and the file is left torn.  The
    identifier is not fresh: it is the identifier of every instant of
    the same second, so a pending entry made within that second carries
    the identifier of the new one. *)
Theorem add_to_queue_admits x w :
  (truthy x = false ->
   _add_to_queue x w = (Ok "Error: No request data provided", w)) /\
  (truthy x = true ->
   forall d ps md,
     disk w = Json (JObj d) ->
     d !! "pending_requests" = Some (JArr ps) ->
     d !! "metadata" = Some (JObj md) ->
     faults w (length (log w)) = None ->
     faults w (S (length (log w))) = None ->
     let rid := ("PQ_" ++ strftime (reading w 0))%string in
     let item := JObj {[ "request_id" := JStr rid;
                         "timestamp" := JStr (isoformat (reading w 1));
                         "status" := JStr "pending";
                         "validation_data" := x;
                         "created_by" := JStr "purchase_validation_agent" ]} in
     (dump_faults w (S (length (log w))) = None ->
      exists w',
        _add_to_queue x w
          = (Ok ("✅ Purchase request " ++ rid ++
                 " added to queue successfully. Total pending requests: " ++
                 pretty (length (ps ++ [item])))%string, w') /\
        disk w' =
          Json (JObj (<["metadata" :=
                          JObj (<["last_updated" := JStr (isoformat (reading w 2))]> md)]>
                        (<["pending_requests" := JArr (ps ++ [item])]> d))) /\
        log w' = log w ++ [OpenRead; OpenWrite]) /\
     (forall e,
        dump_faults w (S (length (log w))) = Some e ->
        exists w',
          _add_to_queue x w = (Raise e, w') /\
          disk w' = Garbled /\
          log w' = log w ++ [OpenRead; OpenWrite]) /\
     (forall t, same_second t (reading w 0) ->
        rid = ("PQ_" ++ strftime t)%string) /\
     (forall e t,
        e ∈ ps ->
        field "request_id" e = Some (JStr ("PQ_" ++ strftime t)) ->
        same_second t (reading w 0) ->
        field "request_id" e = field "request_id" item)).
Proof.
  split.
  - intros Hx. unfold _add_to_queue. by rewrite Hx.
  - intros Hx d ps md Hd Hps Hmd Hf0 Hf1 rid item.
    pose proof (_add_to_queue_at _ _ _ _ _ Hx Hd Hps Hmd Hf0 Hf1) as Hrun.
    cbv zeta in Hrun.
    split; [|split; [|split]].
    + intros Hdump. rewrite Hdump in Hrun. eexists. split.
      { rewrite length_app, Nat.add_comm. exact Hrun. }
      split; [reflexivity|]. simpl. by rewrite <- app_assoc.
    + intros e Hdump. rewrite Hdump in Hrun. eexists. split; [exact Hrun|].
      split; [reflexivity|]. simpl. by rewrite <- app_assoc.
    + intros t Hsame. unfold rid. by rewrite (same_second_strftime _ _ Hsame).
    + intros e t _ -> Hsame. simpl. unfold rid.
      by rewrite (same_second_strftime _ _ Hsame).
Qed.

(** ** Identifiers and completion *)

(** The world an admission leaves behind is as calm as the one it
    started in, two [open]s later. *)
Lemma calm_after_admit n v w :
  calm (2 + n) w ->
  calm n (stored v (opened OpenWrite (tick (tick (tick (opened OpenRead w)))))).
Proof.
  intros Hc. apply calm_stored, calm_S. do 3 apply calm_tick. by apply calm_S.
Qed.

Lemma calm_after_complete n v w :
  calm (2 + n) w ->
  calm n (stored v (opened OpenWrite (tick (tick (opened OpenRead w))))).
Proof.
  intros Hc. apply calm_stored, calm_S. do 2 apply calm_tick. by apply calm_S.
Qed.

(** C1, at the failing input.  Two admissions whose identifiers are made
    of clock readings within the same second return the same
    identifier: the identifier keeps the reading only down to the
    second. *)
Theorem admit_twice_same_second_same_id x y w d ps md :
  truthy x = true -> truthy y = true ->
  disk w = Json (JObj d) ->
  d !! "pending_requests" = Some (JArr ps) ->
  d !! "metadata" = Some (JObj md) ->
  calm 4 w ->
  same_second (reading w 0) (reading w 3) ->
  exists rid w1 w2,
    _add_to_queue x w = (Ok (msg_added rid (1 + length ps)), w1) /\
    _add_to_queue y w1 = (Ok (msg_added rid (2 + length ps)), w2).
Proof.
  intros Hx Hy Hd Hps Hmd Hc Hsame.
  pose proof (_add_to_queue_run _ _ _ _ _ 2 Hx Hd Hps Hmd Hc) as H1.
  cbv zeta in H1.
  set (rid := request_id_at (reading w 0)) in *.
  set (item := queue_item rid (reading w 1) x) in *.
  set (d1 := <["metadata" := _]> _) in H1.
  set (w1 := stored _ _) in H1.
  assert (Hps1 : d1 !! "pending_requests" = Some (JArr (ps ++ [item]))).
  { unfold d1. rewrite lookup_insert_ne by done. apply lookup_insert_eq. }
  assert (Hmd1 : d1 !! "metadata" = Some (touched (reading w 2) md)).
  { unfold d1. apply lookup_insert_eq. }
  assert (Hc1 : calm 2 w1) by apply (calm_after_admit 2 _ _ Hc).
  pose proof (_add_to_queue_run w1 d1 _ _ y 0 Hy eq_refl Hps1 Hmd1 Hc1) as H2.
  cbv zeta in H2.
  exists rid, w1. eexists. split; [exact H1|].
  rewrite H2. f_equal. f_equal.
  change (reading w1 0) with (reading w 3).
  unfold rid, request_id_at. rewrite <- (same_second_strftime _ _ Hsame).
  f_equal. rewrite length_app. simpl. lia.
Qed.

(** C2, at the failing input.  From the initialised empty document, two
    admissions within the same second reach a document whose
    [pending_requests] holds two entries with one and the same
    [request_id]. *)
Theorem same_second_admits_duplicate_request_id x y w c u :
  truthy x = true -> truthy y = true ->
  disk w = Json (initial_data c u) ->
  calm 4 w ->
  same_second (reading w 0) (reading w 3) ->
  exists s1 w1 s2 w2 d r1 r2 rid,
    _add_to_queue x w = (Ok s1, w1) /\
    _add_to_queue y w1 = (Ok s2, w2) /\
    disk w2 = Json (JObj d) /\
    d !! "pending_requests" = Some (JArr [JObj r1; JObj r2]) /\
    r1 !! "request_id" = Some (JStr rid) /\
    r2 !! "request_id" = Some (JStr rid).
Proof.
  intros Hx Hy Hd Hc Hsame.
  pose proof (_add_to_queue_run w _ [] _ x 2 Hx Hd eq_refl eq_refl Hc) as H1.
  cbv zeta in H1.
  set (rid := request_id_at (reading w 0)) in *.
  set (item := queue_item rid (reading w 1) x) in *.
  set (d1 := <["metadata" := _]> _) in H1.
  set (w1 := stored _ _) in H1.
  assert (Hps1 : d1 !! "pending_requests" = Some (JArr ([] ++ [item]))).
  { unfold d1. rewrite lookup_insert_ne by done. apply lookup_insert_eq. }
  assert (Hmd1 : d1 !! "metadata" = Some (touched (reading w 2)
            {[ "created_at" := JStr (isoformat c);
               "last_updated" := JStr (isoformat u) ]})).
  { unfold d1. apply lookup_insert_eq. }
  assert (Hc1 : calm 2 w1) by apply (calm_after_admit 2 _ _ Hc).
  pose proof (_add_to_queue_run w1 d1 _ _ y 0 Hy eq_refl Hps1 Hmd1 Hc1) as H2.
  cbv zeta in H2.
  change (reading w1 0) with (reading w 3) in H2.
  eexists _, w1, _, _, _, _, _, rid.
  split; [exact H1|]. split; [exact H2|].
  split; [reflexivity|]. split.
  { rewrite lookup_insert_ne by done. rewrite lookup_insert_eq. reflexivity. }
  split; [reflexivity|].
  unfold rid, request_id_at. rewrite (same_second_strftime _ _ Hsame).
  reflexivity.
Qed.

Lemma completed_entry_status t r :
  field "status" (completed_entry t r) = Some (JStr "completed").
Proof.
  unfold completed_entry, field.
  rewrite !lookup_insert_ne by done. apply lookup_insert_eq.
Qed.

Lemma completed_entry_completed_at t r :
  field "completed_at" (completed_entry t r) = Some (JStr (isoformat t)).
Proof.
  unfold completed_entry, field.
  rewrite lookup_insert_ne by done. apply lookup_insert_eq.
Qed.

Lemma completed_entry_processed_by t r :
  field "processed_by" (completed_entry t r) = Some (JStr "purchase_order_agent").
Proof. unfold completed_entry, field. apply lookup_insert_eq. Qed.

(** Every other field of the moved entry is what it was. *)
Lemma completed_entry_frame t r k :
  k <> "status" -> k <> "completed_at" -> k <> "processed_by" ->
  field k (completed_entry t r) = r !! k.
Proof.
  intros H1 H2 H3. unfold completed_entry, field.
  by rewrite !lookup_insert_ne.
Qed.

(** C3.  For a queue document whose pending entries all carry an
    identifier, and a non-empty [rid] that occurs among them,
    [_mark_completed] stops at the first entry whose identifier is
    [rid] (every entry before it is another request), sets its status
    to "completed", stamps [completed_at] with the clock's reading,
    appends it at the end of [completed_requests], removes it from
    [pending_requests] and writes the document (one read, one write). *)
Theorem mark_completed_moves_first_match w d ps cs md rid :
  rid <> "" ->
  disk w = Json (JObj d) ->
  queue_doc d ps cs md ->
  Forall is_request ps ->
  Exists (matching_request rid) ps ->
  calm 2 w ->
  exists (pre : list json) r post w',
    ps = pre ++ JObj r :: post /\
    Forall (other_request rid) pre /\
    r !! "request_id" = Some (JStr rid) /\
    _mark_completed (Some rid) w = (Ok (msg_completed rid (length (pre ++ post))), w') /\
    disk w' = Json (JObj (<["metadata" := touched (reading w 1) md]>
                (<["completed_requests" := JArr (cs ++ [completed_entry (reading w 0) r])]>
                   (<["pending_requests" := JArr (pre ++ post)]> d)))) /\
    log w' = log w ++ [OpenRead; OpenWrite] /\
    field "status" (completed_entry (reading w 0) r) = Some (JStr "completed") /\
    field "completed_at" (completed_entry (reading w 0) r)
      = Some (JStr (isoformat (reading w 0))).
Proof.
  intros Hrid Hd Hdoc Hreq Hex Hc.
  destruct (first_match_split _ _ Hreq Hex) as (pre & r & post & -> & Hpre & Hr).
  eexists pre, r, post, _. do 3 (split; [done|]). split.
  { by apply (_mark_completed_found _ _ _ _ _ _ _ _ 0 Hrid Hd Hdoc Hpre Hr Hc). }
  split; [reflexivity|]. split; [simpl; by rewrite <- app_assoc|].
  split; [apply completed_entry_status|apply completed_entry_completed_at].
Qed.

(** X17.  For a non-empty [rid] that no pending entry carries,
    [_mark_completed] returns the "not found" result and leaves the
    file as it was: it reads and never writes.  When [rid] occurs
    exactly once among the pending entries and the write goes through,
    a first call completes it and a second call with the same [rid]
    returns "not found" and leaves the document the first call
    wrote. *)
Theorem mark_completed_not_found_leaves_document rid :
  rid <> "" ->
  (forall w d ps,
     disk w = Json (JObj d) ->
     d !! "pending_requests" = Some (JArr ps) ->
     Forall (other_request rid) ps ->
     calm 1 w ->
     exists w',
       _mark_completed (Some rid) w = (Ok (msg_not_found rid), w') /\
       disk w' = disk w /\ log w' = log w ++ [OpenRead]) /\
  (forall w d (pre : list json) r post cs md,
     disk w = Json (JObj d) ->
     queue_doc d (pre ++ JObj r :: post) cs md ->
     Forall (other_request rid) pre ->
     r !! "request_id" = Some (JStr rid) ->
     Forall (other_request rid) post ->
     calm 3 w ->
     exists w1 w2,
       _mark_completed (Some rid) w
         = (Ok (msg_completed rid (length (pre ++ post))), w1) /\
       _mark_completed (Some rid) w1 = (Ok (msg_not_found rid), w2) /\
       disk w2 = disk w1).
Proof.
  intros Hrid. split.
  - intros w d ps Hd Hps Hall Hc. eexists. split.
    { by apply (_mark_completed_not_found _ _ _ _ 0 Hrid Hd Hps Hall Hc). }
    done.
  - intros w d pre r post cs md Hd Hdoc Hpre Hr Hpost Hc.
    pose proof (_mark_completed_found _ _ _ _ _ _ _ _ 1 Hrid Hd Hdoc Hpre Hr Hc) as H1.
    cbv zeta in H1.
    match type of H1 with _ = (_, ?w1) => set (w1' := w1) in * end.
    exists w1'. eexists. split; [exact H1|]. split.
    { eapply (_mark_completed_not_found w1' _ (pre ++ post) _ 0 Hrid eq_refl).
      - rewrite !lookup_insert_ne by done. apply lookup_insert_eq.
      - apply Forall_app. done.
      - apply (calm_after_complete 1 _ _ Hc). }
    done.
Qed.

(** ** Loading and the entry point *)

Lemma read_json_absent w :
  faults w (length (log w)) = None ->
  disk w = Missing \/ disk w = Garbled ->
  exists e, read_json w = (Raise e, opened OpenRead w) /\
            is_FileNotFoundError e || is_JSONDecodeError e = true.
Proof.
  intros Hf Hd. unfold read_json, bind, open_file. rewrite Hf.
  change (disk (opened OpenRead w)) with (disk w).
  destruct Hd as [-> | ->]; eexists; split; reflexivity.
Qed.


Lemma _initialize_queue_run w n :
  calm (S n) w ->
  _initialize_queue w =
    (Ok tt, stored (initial_data (reading w 0) (reading w 1))
              (opened OpenWrite (tick (tick w)))).
Proof.
  intros Hc. unfold _initialize_queue. rewrite !bind_now.
  by rewrite (write_json_run _ _ n) by done.
Qed.

(** When the first read fails with one of the two exceptions the handler
    names, the load is the reinitialisation followed by one more read. *)
Lemma _load_queue_handler w e w1 :
  read_json w = (Raise e, w1) ->
  is_FileNotFoundError e || is_JSONDecodeError e = true ->
  _load_queue w = (_initialize_queue ;; read_json) w1.
Proof. intros Hr He. unfold _load_queue, try_except. by rewrite Hr, He. Qed.

(** Any other exception of the first read leaves [_load_queue] at once. *)
Lemma _load_queue_propagates w e w1 :
  read_json w = (Raise e, w1) ->
  is_FileNotFoundError e || is_JSONDecodeError e = false ->
  _load_queue w = (Raise e, w1).
Proof. intros Hr He. unfold _load_queue, try_except. by rewrite Hr, He. Qed.

Lemma _load_queue_recovers_when w :
  disk w = Missing \/ disk w = Garbled ->
  calm 2 w ->
  faults w (2 + length (log w)) = None ->
  let skeleton := initial_data (reading w 0) (reading w 1) in
  _load_queue w =
    (Ok skeleton,
     opened OpenRead (stored skeleton (opened OpenWrite (tick (tick (opened OpenRead w)))))).
Proof.
  intros Hd Hc Hf skeleton.
  destruct (read_json_absent w (calm_head _ _ Hc) Hd) as (e & Hr & He).
  rewrite (_load_queue_handler _ _ _ Hr He).
  erewrite bind_run; cycle 1.
  { apply (_initialize_queue_run _ 0). by apply calm_S. }
  apply read_json_ok; [|done].
  simpl. rewrite !length_app. simpl.
  rewrite <- Hf. f_equal. lia.
Qed.

Lemma _load_queue_recovers w :
  disk w = Missing \/ disk w = Garbled ->
  calm 3 w ->
  let skeleton := initial_data (reading w 0) (reading w 1) in
  _load_queue w =
    (Ok skeleton,
     opened OpenRead (stored skeleton (opened OpenWrite (tick (tick (opened OpenRead w)))))).
Proof.
  intros Hd Hc. apply (_load_queue_recovers_when _ Hd).
  - apply (calm_le 3 2 w); [lia|done].
  - rewrite Nat.add_comm. apply (Hc 2%nat). lia.
Qed.

(** A file [json.load] refuses with another exception is left as it
    is. *)
Lemma _load_queue_refused w why :
  disk w = Unloadable why ->
  faults w (length (log w)) = None ->
  _load_queue w = (Raise (load_exn why), opened OpenRead w).
Proof.
  intros Hd Hf. apply _load_queue_propagates; [|by destruct why].
  unfold read_json, bind, open_file. rewrite Hf.
  change (disk (opened OpenRead w)) with (disk w). by rewrite Hd.
Qed.



Section Surface.
Context `{PyRuntime}.

(** [manage_queue] hands on what a method returns. *)
Lemma manage_queue_returns action data rid w s w' :
  dispatch action data rid w = (Ok s, w') ->
  manage_queue action data rid w = (Ok s, w').
Proof. intros Hb. unfold manage_queue, try_except. by rewrite Hb. Qed.

(** [manage_queue] turns what a method raises into an error string. *)
Lemma manage_queue_catches action data rid w e w' :
  dispatch action data rid w = (Raise e, w') ->
  manage_queue action data rid w = (Ok (msg_error e), w').
Proof. intros Hb. unfold manage_queue, try_except. by rewrite Hb. Qed.



Lemma load_failure_surfaces_add w e w' data rid :
  truthy data = true ->
  _load_queue w = (Raise e, w') ->
  manage_queue "add_to_queue" data rid w = (Ok (msg_error e), w').
Proof.
  intros Hx Hl. apply manage_queue_catches.
  unfold dispatch. cbn [String.eqb Ascii.eqb Bool.eqb].
  unfold _add_to_queue. rewrite Hx. by apply bind_fail.
Qed.




Lemma dispatch_unknown action data rid :
  action ∉ actions -> dispatch action data rid = ret (msg_unknown_action action).
Proof.
  unfold actions. rewrite !not_elem_of_cons.
  intros (H1 & H2 & H3 & H4 & _). unfold dispatch.
  by rewrite (proj2 (String.eqb_neq _ _) H1), (proj2 (String.eqb_neq _ _) H2),
    (proj2 (String.eqb_neq _ _) H3), (proj2 (String.eqb_neq _ _) H4).
Qed.

(** C7.  [manage_queue] returns a string for every action, every
    request data, every request id and every world.  For each of the
    four action names it runs the method of that name on the arguments
    the method takes, hands on the string the method returns, and turns
    an exception of the method into "Error in PurchaseQueueTool: "
    followed by the text of the exception.  For an action that is none
    of the four it returns "Error: Unknown action", the action between
    quotes, and the list of the four names, and leaves the world
    untouched. *)
Theorem manage_queue_never_raises action data rid w :
  let answer := fun r : result string =>
    match r with
    | Ok s => s
    | Raise e => ("Error in PurchaseQueueTool: " ++ exn_str e)%string
    end in
  (exists s w', manage_queue action data rid w = (Ok s, w')) /\
  (action = "add_to_queue" ->
   forall r w', _add_to_queue data w = (r, w') ->
                manage_queue action data rid w = (Ok (answer r), w')) /\
  (action = "get_pending" ->
   forall r w', _get_pending_requests w = (r, w') ->
                manage_queue action data rid w = (Ok (answer r), w')) /\
  (action = "mark_completed" ->
   forall r w', _mark_completed rid w = (r, w') ->
                manage_queue action data rid w = (Ok (answer r), w')) /\
  (action = "get_status" ->
   forall r w', _get_queue_status w = (r, w') ->
                manage_queue action data rid w = (Ok (answer r), w')) /\
  (action ∉ ["add_to_queue"; "get_pending"; "mark_completed"; "get_status"] ->
   manage_queue action data rid w
     = (Ok ("Error: Unknown action '" ++ action ++
            "'. Available actions: add_to_queue, get_pending, mark_completed, get_status")%string,
        w)).
Proof.
  intros answer.
  assert (Hvia : forall r w', dispatch action data rid w = (r, w') ->
                   manage_queue action data rid w = (Ok (answer r), w')).
  { intros [s|e] w' Hb;
      [by apply manage_queue_returns|by apply manage_queue_catches]. }
  split; [|split; [|split; [|split; [|split]]]].
  - unfold manage_queue, try_except.
    destruct (dispatch action data rid w) as [[s|e] w']; eauto.
  - intros -> r w' Hr. by apply Hvia.
  - intros -> r w' Hr. by apply Hvia.
  - intros -> r w' Hr. by apply Hvia.
  - intros -> r w' Hr. by apply Hvia.
  - intros Hunknown. apply manage_queue_returns.
    by rewrite (dispatch_unknown _ _ _ Hunknown).
Qed.
End Surface.

(** ** Listing *)

Lemma truthy_dict (x : gmap string json) : x <> ∅ -> truthy (JObj x) = true.
Proof.
  intros Hx. unfold truthy. rewrite bool_decide_eq_false_2; [done|].
  by rewrite map_size_empty_iff.
Qed.

Lemma py_get_ok d k x dflt : d !! k = Some x -> py_get (JObj d) k dflt = Ok x.
Proof. intros Hk. unfold py_get. by rewrite Hk. Qed.

Lemma is_request_queue_item rid t x : is_request (queue_item rid t x).
Proof. by exists (JStr rid). Qed.

Section Listing.
Context `{PyRuntime}.

Lemma summary_line_dict x key label fld result w :
  (forall v, x !! key = Some v -> fld = Ok v) ->
  summary_line (JObj x) key label fld result w
    = (Ok (add_line x key label result), w).
Proof.
  intros Hfld. unfold summary_line, add_line.
  rewrite (bind_lift _ _ _ (bool_decide (is_Some (x !! key)))) by reflexivity.
  destruct (x !! key) as [v|] eqn:Hkey.
  - rewrite bool_decide_eq_true_2 by eauto.
    by rewrite (bind_lift _ _ _ v) by auto.
  - rewrite bool_decide_eq_false_2; [done|]. by intros [? ?].
Qed.

Lemma pending_loop_one rid ts (x : gmap string json) result w :
  x <> ∅ ->
  pending_loop result [queue_item rid ts (JObj x)] w =
    (Ok (let result := (result ++ "🔹 Request ID: " ++ rid ++ nl)%string in
         let result := (result ++ "   Timestamp: " ++ isoformat ts ++ nl)%string in
         let result := (result ++ "   Status: " ++ "pending" ++ nl)%string in
         let result := (result ++ "   Validation Summary:" ++ nl)%string in
         let result := add_line x "budget_status" "Budget Status: " result in
         let result := add_line x "total_cost" "Total Cost: $" result in
         let result := add_line x "supplier_count" "Suppliers: " result in
         let result := add_line x "priority_items" "Critical Items: " result in
         (result ++ nl)%string), w).
Proof.
  intros Hx. cbn [pending_loop].
  rewrite (bind_lift _ _ _ (JStr rid)) by reflexivity.
  rewrite (bind_lift _ _ _ (JStr (isoformat ts))) by reflexivity.
  rewrite (bind_lift _ _ _ (JStr "pending")) by reflexivity.
  rewrite (bind_lift _ _ _ (JObj x)) by reflexivity.
  rewrite (truthy_dict _ Hx). cbv zeta.
  erewrite bind_run; cycle 1.
  { erewrite bind_run; cycle 1.
    { apply summary_line_dict. intros v Hv. by apply py_getitem_ok. }
    erewrite bind_run; cycle 1.
    { apply summary_line_dict. intros v Hv. by apply py_get_ok. }
    erewrite bind_run; cycle 1.
    { apply summary_line_dict. intros v Hv. by apply py_getitem_ok. }
    apply summary_line_dict. intros v Hv. by apply py_getitem_ok. }
  reflexivity.
Qed.

Lemma _get_pending_requests_one w d rid ts (x : gmap string json) n :
  x <> ∅ ->
  disk w = Json (JObj d) ->
  d !! "pending_requests" = Some (JArr [queue_item rid ts (JObj x)]) ->
  calm (S n) w ->
  _get_pending_requests w
    = (Ok (listing_of_one rid (isoformat ts) x), opened OpenRead w).
Proof.
  intros Hx Hd Hps Hc. unfold _get_pending_requests.
  rewrite (bind_run _ _ _ _ _ (_load_queue_run _ _ _ Hc Hd)).
  rewrite (bind_lift _ _ _ _ (py_get_ok _ _ _ _ Hps)).
  change (truthy (JArr [queue_item rid ts (JObj x)])) with true. cbn [negb].
  rewrite (bind_lift _ _ _ 1%nat) by reflexivity.
  rewrite (bind_lift _ _ _ [queue_item rid ts (JObj x)]) by reflexivity.
  by rewrite pending_loop_one.
Qed.

Lemma _get_queue_status_run w d ps cs md n :
  disk w = Json (JObj d) ->
  queue_doc d ps cs md ->
  calm (S n) w ->
  _get_queue_status w =
    (Ok (status_text (length ps) (length cs)
           (py_str (default (JStr "N/A") (md !! "last_updated")))),
     opened OpenRead w).
Proof.
  intros Hd (Hps & Hcs & Hmd) Hc. unfold _get_queue_status.
  rewrite (bind_run _ _ _ _ _ (_load_queue_run _ _ _ Hc Hd)).
  rewrite (bind_lift _ _ _ _ (py_get_ok _ _ _ _ Hps)).
  rewrite (bind_lift _ _ _ (length ps)) by reflexivity.
  rewrite (bind_lift _ _ _ _ (py_get_ok _ _ _ _ Hcs)).
  rewrite (bind_lift _ _ _ (length cs)) by reflexivity.
  rewrite (bind_lift _ _ _ _ (py_get_ok _ _ _ _ Hmd)).
  by rewrite (bind_lift _ _ _ (default (JStr "N/A") (md !! "last_updated")))
    by reflexivity.
Qed.

Lemma listing_of_one_keys rid ts (x y : gmap string json) :
  (forall k, k ∈ ["budget_status"; "total_cost"; "supplier_count"; "priority_items"] ->
             y !! k = x !! k) ->
  listing_of_one rid ts y = listing_of_one rid ts x.
Proof.
  intros Hk. unfold listing_of_one, add_line.
  rewrite (Hk "budget_status"), (Hk "total_cost"), (Hk "supplier_count"),
    (Hk "priority_items") by set_solver.
  reflexivity.
Qed.

(** C8, as amended.  On a freshly initialised store, when the file
    opens and the write goes through, admitting a non-empty dict [x]
    leaves a document with exactly one pending entry, which carries the
    identifier returned and [x] itself as [validation_data].
    [get_pending] then returns a text, not the entry: the heading for
    one request, the identifier, the timestamp, the status "pending"
    and, of [x], one line for each of the keys [budget_status],
    [total_cost], [supplier_count] and [priority_items] that [x] has;
    it does not change the file.  The text is the same for every
    payload that agrees with [x] on these four keys. *)
Theorem admit_then_get_pending_round_trip (x : gmap string json) w c u :
  x <> ∅ ->
  disk w = Json (initial_data c u) ->
  calm 3 w ->
  let rid := ("PQ_" ++ strftime (reading w 0))%string in
  let ts := isoformat (reading w 1) in
  exists w1 d1 e w2,
    manage_queue "add_to_queue" (JObj x) None w
      = (Ok ("✅ Purchase request " ++ rid ++
             " added to queue successfully. Total pending requests: 1")%string,
         w1) /\
    disk w1 = Json (JObj d1) /\
    d1 !! "pending_requests" = Some (JArr [e]) /\
    field "request_id" e = Some (JStr rid) /\
    field "validation_data" e = Some (JObj x) /\
    manage_queue "get_pending" JNull None w1
      = (Ok (listing_of_one rid ts x), w2) /\
    disk w2 = disk w1 /\
    (forall y : gmap string json,
       (forall k, k ∈ ["budget_status"; "total_cost"; "supplier_count";
                       "priority_items"] -> y !! k = x !! k) ->
       listing_of_one rid ts y = listing_of_one rid ts x).
Proof.
  intros Hx Hd Hc rid ts.
  pose proof (_add_to_queue_run w _ [] _ (JObj x) 1 (truthy_dict _ Hx) Hd
                eq_refl eq_refl Hc) as H1.
  cbv zeta in H1. fold rid in H1.
  set (item := queue_item rid (reading w 1) (JObj x)) in *.
  set (d1 := <["metadata" := _]> _) in H1.
  set (w1 := stored _ _) in H1.
  assert (Hps1 : d1 !! "pending_requests" = Some (JArr [item])).
  { unfold d1. rewrite lookup_insert_ne by done. apply lookup_insert_eq. }
  assert (Hc1 : calm 1 w1) by apply (calm_after_admit 1 _ _ Hc).
  exists w1, d1, item, (opened OpenRead w1).
  split; [by apply manage_queue_returns|].
  split; [reflexivity|]. split; [exact Hps1|]. split; [reflexivity|].
  split; [reflexivity|].
  split; [|split; [reflexivity|apply listing_of_one_keys]].
  apply manage_queue_returns.
  by apply (_get_pending_requests_one w1 d1 _ _ _ 0 Hx eq_refl Hps1 Hc1).
Qed.
End Listing.

(** ** Status and frames *)

(** An admission seen from the document: one more pending entry, a new
    [last_updated], and the clock three readings further. *)
Lemma _add_to_queue_next w d ps cs md x n :
  truthy x = true ->
  disk w = Json (JObj d) ->
  queue_doc d ps cs md ->
  calm (2 + n) w ->
  exists w' d',
    _add_to_queue x w
      = (Ok (msg_added (request_id_at (reading w 0)) (S (length ps))), w') /\
    disk w' = Json (JObj d') /\
    queue_doc d'
      (ps ++ [queue_item (request_id_at (reading w 0)) (reading w 1) x]) cs
      (<["last_updated" := JStr (isoformat (reading w 2))]> md) /\
    calm n w' /\
    (forall k, reading w' k = reading w (3 + k)).
Proof.
  intros Hx Hd (Hps & Hcs & Hmd) Hc.
  eexists _, _. split.
  { by apply (_add_to_queue_run _ _ _ _ _ n Hx Hd Hps Hmd Hc). }
  split; [reflexivity|]. split.
  { repeat split.
    - rewrite lookup_insert_ne by done. apply lookup_insert_eq.
    - by rewrite !lookup_insert_ne.
    - apply lookup_insert_eq. }
  split; [by apply calm_after_admit|].
  intros k. unfold reading. simpl. f_equal. lia.
Qed.

(** A completion seen from the document. *)
Lemma _mark_completed_next w d (pre : list json) r post cs md rid n :
  rid <> "" ->
  disk w = Json (JObj d) ->
  queue_doc d (pre ++ JObj r :: post) cs md ->
  Forall (other_request rid) pre ->
  r !! "request_id" = Some (JStr rid) ->
  calm (2 + n) w ->
  exists w' d',
    _mark_completed (Some rid) w
      = (Ok (msg_completed rid (length (pre ++ post))), w') /\
    disk w' = Json (JObj d') /\
    queue_doc d' (pre ++ post) (cs ++ [completed_entry (reading w 0) r])
      (<["last_updated" := JStr (isoformat (reading w 1))]> md) /\
    (forall k, k ∉ ["pending_requests"; "completed_requests"; "metadata"] ->
               d' !! k = d !! k) /\
    calm n w' /\
    (forall k, reading w' k = reading w (2 + k)).
Proof.
  intros Hrid Hd Hdoc Hpre Hr Hc.
  eexists _, _. split.
  { by apply (_mark_completed_found _ _ _ _ _ _ _ _ n Hrid Hd Hdoc Hpre Hr Hc). }
  split; [reflexivity|]. split.
  { repeat split.
    - rewrite !lookup_insert_ne by done. apply lookup_insert_eq.
    - rewrite lookup_insert_ne by done. apply lookup_insert_eq.
    - apply lookup_insert_eq. }
  split.
  { intros k. rewrite !not_elem_of_cons. intros (H1 & H2 & H3 & _).
    by rewrite !lookup_insert_ne. }
  split; [by apply calm_after_complete|].
  intros k. unfold reading. simpl. f_equal. lia.
Qed.

Lemma initial_data_queue_doc c u :
  exists d md, initial_data c u = JObj d /\ queue_doc d [] [] md.
Proof. eexists _, _. split; [reflexivity|]. by repeat split. Qed.

Section Status.
Context `{PyRuntime}.

(** C9.  [_get_queue_status] reports the lengths of [pending_requests]
    and of [completed_requests].  In particular, from the initial
    document, three admissions followed by the completion of any one of
    the three identifiers returned are followed by a status of 2
    pending and 1 completed. *)
Theorem get_queue_status_counts :
  (forall w d ps cs md,
     disk w = Json (JObj d) ->
     queue_doc d ps cs md ->
     calm 1 w ->
     exists w',
       _get_queue_status w =
         (Ok (status_text (length ps) (length cs)
                (py_str (default (JStr "N/A") (md !! "last_updated")))), w') /\
       disk w' = disk w) /\
  (forall w c u x1 x2 x3 k,
     disk w = Json (initial_data c u) ->
     truthy x1 = true -> truthy x2 = true -> truthy x3 = true ->
     calm 9 w ->
     (k < 3)%nat ->
     let rid := request_id_at (reading w (3 * k)) in
     exists w1 w2 w3 w4 w5,
       manage_queue "add_to_queue" x1 None w
         = (Ok (msg_added (request_id_at (reading w 0)) 1), w1) /\
       manage_queue "add_to_queue" x2 None w1
         = (Ok (msg_added (request_id_at (reading w 3)) 2), w2) /\
       manage_queue "add_to_queue" x3 None w2
         = (Ok (msg_added (request_id_at (reading w 6)) 3), w3) /\
       manage_queue "mark_completed" JNull (Some rid) w3
         = (Ok (msg_completed rid 2), w4) /\
       manage_queue "get_status" JNull None w4
         = (Ok (status_text 2 1 (isoformat (reading w 10))), w5)).
Proof.
  split.
  - intros w d ps cs md Hd Hdoc Hc. eexists. split.
    { by apply (_get_queue_status_run _ _ _ _ _ 0 Hd Hdoc Hc). }
    reflexivity.
  - intros w c u x1 x2 x3 k Hd Hx1 Hx2 Hx3 Hc Hk rid.
    destruct (initial_data_queue_doc c u) as (d0 & md0 & Hd0 & Hdoc0).
    rewrite Hd0 in Hd.
    destruct (_add_to_queue_next w _ _ _ _ x1 7 Hx1 Hd Hdoc0 Hc)
      as (w1 & d1 & Hrun1 & Hd1 & Hdoc1 & Hc1 & Hclk1).
    destruct (_add_to_queue_next w1 _ _ _ _ x2 5 Hx2 Hd1 Hdoc1 Hc1)
      as (w2 & d2 & Hrun2 & Hd2 & Hdoc2 & Hc2 & Hclk2).
    assert (E1 : reading w1 0 = reading w 3) by apply (Hclk1 0%nat).
    assert (E2 : reading w2 0 = reading w 6).
    { etrans; [apply (Hclk2 0%nat)|apply (Hclk1 3%nat)]. }
    rewrite E1 in Hrun2, Hdoc2.
    destruct (_add_to_queue_next w2 _ _ _ _ x3 3 Hx3 Hd2 Hdoc2 Hc2)
      as (w3 & d3 & Hrun3 & Hd3 & Hdoc3 & Hc3 & Hclk3).
    assert (E3 : reading w3 1 = reading w 10).
    { etrans; [apply (Hclk3 1%nat)|]. etrans; [apply (Hclk2 4%nat)|apply (Hclk1 7%nat)]. }
    rewrite E2 in Hrun3, Hdoc3.
    cbn [app length] in Hrun2, Hrun3, Hdoc3.
    match type of Hdoc3 with
    | queue_doc _ [?a; ?b; ?c] _ _ =>
        set (i1 := a) in *; set (i2 := b) in *; set (i3 := c) in *
    end.
    assert (Hreq : Forall is_request [i1; i2; i3]).
    { repeat constructor; apply is_request_queue_item. }
    assert (Hex : Exists (matching_request rid) [i1; i2; i3]).
    { unfold rid.
      destruct k as [|[|[|k]]]; [| | |lia].
      - apply Exists_cons_hd. by apply matching_request_intro.
      - apply Exists_cons_tl, Exists_cons_hd. by apply matching_request_intro.
      - do 2 apply Exists_cons_tl. apply Exists_cons_hd.
        by apply matching_request_intro. }
    destruct (first_match_split _ _ Hreq Hex) as (pre & r & post & Hsplit & Hpre & Hr).
    rewrite Hsplit in Hdoc3.
    destruct (_mark_completed_next w3 _ _ _ _ _ _ rid 1 (request_id_at_nonempty _)
                Hd3 Hdoc3 Hpre Hr Hc3)
      as (w4 & d4 & Hrun4 & Hd4 & Hdoc4 & _ & Hc4 & Hclk4).
    assert (Hlen : length (pre ++ post) = 2%nat).
    { apply (f_equal length) in Hsplit. rewrite length_app in *. simpl in Hsplit. lia. }
    rewrite Hlen in Hrun4.
    pose proof (_get_queue_status_run w4 _ _ _ _ 0 Hd4 Hdoc4 Hc4) as Hrun5.
    rewrite Hlen, lookup_insert_eq in Hrun5. cbn [default py_str length app] in Hrun5.
    rewrite E3 in Hrun5.
    exists w1, w2, w3, w4, (opened OpenRead w4).
    repeat split; by apply manage_queue_returns.
Qed.
End Status.

(** C10.  A successful [_mark_completed] keeps every field of the moved
    entry other than [status], [completed_at] and [processed_by], keeps
    the other pending entries in their order, keeps the completed
    entries it found and appends the moved one after them, keeps every
    metadata field other than [last_updated], and every other key of
    the document.  A successful [_add_to_queue] keeps the pending
    entries it found and appends the new one after them; apart from
    [pending_requests] and [metadata.last_updated] the document is what
    it was, [completed_requests] and [metadata.created_at] included. *)
Theorem operations_change_only_their_fields :
  (forall w d (pre : list json) r post cs md rid,
     rid <> "" ->
     disk w = Json (JObj d) ->
     queue_doc d (pre ++ JObj r :: post) cs md ->
     Forall (other_request rid) pre ->
     r !! "request_id" = Some (JStr rid) ->
     calm 2 w ->
     exists w' d' e md',
       _mark_completed (Some rid) w
         = (Ok (msg_completed rid (length (pre ++ post))), w') /\
       disk w' = Json (JObj d') /\
       queue_doc d' (pre ++ post) (cs ++ [e]) md' /\
       (forall k, k ∉ ["status"; "completed_at"; "processed_by"] ->
                  field k e = r !! k) /\
       (forall k, k <> "last_updated" -> md' !! k = md !! k) /\
       (forall k, k ∉ ["pending_requests"; "completed_requests"; "metadata"] ->
                  d' !! k = d !! k)) /\
  (forall w d ps md x,
     truthy x = true ->
     disk w = Json (JObj d) ->
     d !! "pending_requests" = Some (JArr ps) ->
     d !! "metadata" = Some (JObj md) ->
     calm 2 w ->
     exists w' d' e md',
       _add_to_queue x w
         = (Ok (msg_added (request_id_at (reading w 0)) (S (length ps))), w') /\
       disk w' = Json (JObj d') /\
       d' !! "pending_requests" = Some (JArr (ps ++ [e])) /\
       d' !! "metadata" = Some (JObj md') /\
       (forall k, k <> "last_updated" -> md' !! k = md !! k) /\
       (forall k, k ∉ ["pending_requests"; "metadata"] -> d' !! k = d !! k)).
Proof.
  split.
  - intros w d pre r post cs md rid Hrid Hd Hdoc Hpre Hr Hc.
    destruct (_mark_completed_next _ _ _ _ _ _ _ _ 0 Hrid Hd Hdoc Hpre Hr Hc)
      as (w' & d' & Hrun & Hd' & Hdoc' & Hframe & _).
    exists w', d', (completed_entry (reading w 0) r),
      (<["last_updated" := JStr (isoformat (reading w 1))]> md).
    do 3 (split; [done|]). split.
    { intros k. rewrite !not_elem_of_cons. intros (H1 & H2 & H3 & _).
      by apply completed_entry_frame. }
    split; [|done].
    intros k Hk. by rewrite lookup_insert_ne.
  - intros w d ps md x Hx Hd Hps Hmd Hc.
    eexists _, _, _, _. split.
    { by apply (_add_to_queue_run _ _ _ _ _ 0 Hx Hd Hps Hmd Hc). }
    split; [reflexivity|]. split.
    { rewrite lookup_insert_ne by done. apply lookup_insert_eq. }
    split; [apply lookup_insert_eq|]. split.
    { intros k Hk. by rewrite lookup_insert_ne. }
    intros k. rewrite !not_elem_of_cons. intros (H1 & H2 & _).
    by rewrite !lookup_insert_ne.
Qed.

(** ** Formatting numbers *)

Lemma string_app_length (s t : string) :
  String.length (s ++ t)%string = (String.length s + String.length t)%nat.
Proof.
  induction s as [|a s IH]; [done|].
  change (String a s ++ t)%string with (String a (s ++ t)).
  simpl. by rewrite IH.
Qed.

Lemma string_app_assoc (s t u : string) :
  ((s ++ t) ++ u = s ++ (t ++ u))%string.
Proof.
  induction s as [|a s IH]; [done|].
  change (String a s ++ t)%string with (String a (s ++ t)).
  change (String a (s ++ t) ++ u)%string with (String a ((s ++ t) ++ u)).
  change (String a s ++ (t ++ u))%string with (String a (s ++ (t ++ u))).
  by rewrite IH.
Qed.

(** Two concatenations with left parts of equal length agree part by
    part. *)
Lemma string_app_inj (s1 t1 s2 t2 : string) :
  String.length s1 = String.length t1 ->
  (s1 ++ s2 = t1 ++ t2)%string -> s1 = t1 /\ s2 = t2.
Proof.
  revert t1. induction s1 as [|a s1 IH]; intros [|b t1] Hlen Heq; try done.
  change (String a (s1 ++ s2) = String b (t1 ++ t2))%string in Heq.
  injection Heq as -> Heq. injection Hlen as Hlen.
  destruct (IH _ Hlen Heq) as [-> ->]. done.
Qed.

Lemma string_app_inj_r (s1 t1 s2 t2 : string) :
  String.length s2 = String.length t2 ->
  (s1 ++ s2 = t1 ++ t2)%string -> s1 = t1 /\ s2 = t2.
Proof.
  intros Hlen Heq. apply string_app_inj; [|done].
  apply (f_equal String.length) in Heq. rewrite !string_app_length in Heq. lia.
Qed.

Lemma number_of_app acc (s t : string) :
  number_of acc (s ++ t)%string = number_of (number_of acc s) t.
Proof.
  revert acc. induction s as [|a s IH]; intros acc; [done|].
  change (String a s ++ t)%string with (String a (s ++ t)).
  cbn [number_of]. by rewrite IH.
Qed.

Lemma digit_value_pretty d : (d < 10)%N -> digit_value (pretty_N_char d) = d.
Proof.
  intros Hd.
  assert (d = 0 \/ d = 1 \/ d = 2 \/ d = 3 \/ d = 4 \/ d = 5 \/ d = 6 \/ d = 7
          \/ d = 8 \/ d = 9)%N as Hcases by lia.
  repeat (destruct Hcases as [->|Hcases]; [reflexivity|]). by subst.
Qed.

Lemma pretty_N_go_app x (s : string) :
  pretty_N_go x s = (pretty_N_go x "" ++ s)%string.
Proof.
  revert s. induction (N.lt_wf_0 x) as [x _ IH]; intros s.
  destruct (decide (x = 0)%N) as [->|Hx]; [by rewrite !pretty_N_go_0|].
  rewrite !(pretty_N_go_step x) by lia.
  rewrite (IH (x `div` 10)%N) by (apply N.div_lt; lia).
  rewrite (IH (x `div` 10)%N ltac:(apply N.div_lt; lia) (String _ "")).
  by rewrite string_app_assoc.
Qed.

Lemma number_of_pretty_N_go x : number_of 0 (pretty_N_go x "") = x.
Proof.
  induction (N.lt_wf_0 x) as [x _ IH].
  destruct (decide (x = 0)%N) as [->|Hx]; [done|].
  rewrite pretty_N_go_step by lia. rewrite pretty_N_go_app, number_of_app.
  rewrite IH by (apply N.div_lt; lia). cbn [number_of].
  rewrite digit_value_pretty by (apply N.mod_lt; lia).
  symmetry. rewrite (N.div_mod x 10) at 1 by lia. done.
Qed.

Lemma number_of_pretty (n : nat) : number_of 0 (pretty n) = N.of_nat n.
Proof.
  unfold pretty, pretty_nat, pretty, pretty_N.
  destruct (decide (N.of_nat n = 0)%N) as [->|Hn]; [done|].
  apply number_of_pretty_N_go.
Qed.

Lemma number_of_zeros k (s : string) :
  number_of 0 (String.concat "" (replicate k "0") ++ s)%string = number_of 0 s.
Proof.
  induction k as [|k IH]; [done|].
  destruct k as [|k]; [exact IH|exact IH].
Qed.

Lemma number_of_zfill width n : number_of 0 (zfill width n) = N.of_nat n.
Proof. unfold zfill. by rewrite number_of_zeros, number_of_pretty. Qed.

(** Padding never merges two numbers. *)
Lemma zfill_inj width n m : zfill width n = zfill width m -> n = m.
Proof.
  intros Heq. apply (f_equal (number_of 0)) in Heq.
  rewrite !number_of_zfill in Heq. lia.
Qed.

Lemma zfill_2_length n : (n < 100)%nat -> String.length (zfill 2 n) = 2%nat.
Proof.
  intros Hn.
  assert (Hall : forallb (fun k => String.length (zfill 2 k) =? 2)%nat (seq 0 100) = true)
    by (vm_compute; reflexivity).
  rewrite forallb_forall in Hall.
  apply Nat.eqb_eq, Hall, in_seq. lia.
Qed.

Lemma strftime_inj t1 t2 :
  valid_datetime t1 -> valid_datetime t2 ->
  strftime t1 = strftime t2 -> same_second t1 t2.
Proof.
  intros (_ & Hm1 & Hd1 & Hh1 & Hmi1 & Hs1 & _) (_ & Hm2 & Hd2 & Hh2 & Hmi2 & Hs2 & _).
  unfold strftime. intros Heq.
  apply string_app_inj_r in Heq as [Hy Heq]; cycle 1.
  { rewrite !string_app_length, !zfill_2_length by lia. done. }
  apply string_app_inj in Heq as [Hm Heq]; [|by rewrite !zfill_2_length by lia].
  apply string_app_inj in Heq as [Hd Heq]; [|by rewrite !zfill_2_length by lia].
  apply string_app_inj in Heq as [_ Heq]; [|done].
  apply string_app_inj in Heq as [Hh Heq]; [|by rewrite !zfill_2_length by lia].
  apply string_app_inj in Heq as [Hmi Hs]; [|by rewrite !zfill_2_length by lia].
  repeat split; by eapply zfill_inj.
Qed.

Lemma request_id_at_inj t1 t2 :
  valid_datetime t1 -> valid_datetime t2 ->
  request_id_at t1 = request_id_at t2 -> same_second t1 t2.
Proof.
  intros Hv1 Hv2. unfold request_id_at. intros [= Heq]. by apply strftime_inj.
Qed.

(** X2.  The identifiers of two valid readings are equal exactly when
    the readings fall into the same second. *)
Theorem request_id_at_collides_iff t1 t2 :
  valid_datetime t1 -> valid_datetime t2 ->
  request_id_at t1 = request_id_at t2 <-> same_second t1 t2.
Proof.
  intros Hv1 Hv2. split.
  - by apply request_id_at_inj.
  - intros Hsame. unfold request_id_at. by rewrite (same_second_strftime _ _ Hsame).
Qed.

(** ** What any run does to the file, whatever the clock and the faults *)

Lemma bind_inv {A B} (m : M A) (k : A -> M B) w r w' :
  bind m k w = (r, w') ->
  (exists a w1, m w = (Ok a, w1) /\ k a w1 = (r, w')) \/
  (exists e, m w = (Raise e, w') /\ r = Raise e).
Proof.
  unfold bind. destruct (m w) as [[a|e] w1]; intros Hk.
  - left. eauto.
  - right. injection Hk as <- <-. eauto.
Qed.

Lemma later_refl w : later w w.
Proof. by split. Qed.

Lemma later_trans w1 w2 w3 : later w1 w2 -> later w2 w3 -> later w1 w3.
Proof. intros [Hc1 Ht1] [Hc2 Ht2]. split; [congruence|lia]. Qed.

Lemma forward_ret {A} (a : A) : forward (ret a).
Proof. intros w r w' [= _ <-]. apply later_refl. Qed.

Lemma forward_lift {A} (r : result A) : forward (lift r).
Proof. intros w r' w' [= _ <-]. apply later_refl. Qed.

Lemma forward_bind {A B} (m : M A) (k : A -> M B) :
  forward m -> (forall a, forward (k a)) -> forward (bind m k).
Proof.
  intros Hm Hk w r w' Hb.
  apply bind_inv in Hb as [(a & w1 & Hrun & Hrest)|(e & Hrun & _)].
  - eapply later_trans; [by eapply Hm|by eapply Hk].
  - by eapply Hm.
Qed.

Lemma forward_now : forward now.
Proof. intros w r w' [= _ <-]. split; [done|]. simpl. lia. Qed.

Lemma forward_open_file mode : forward (open_file mode).
Proof.
  intros w r w'. unfold open_file.
  destruct (faults w (length (log w))); intros [= _ <-]; by split.
Qed.

Lemma forward_read_json : forward read_json.
Proof.
  apply forward_bind; [apply forward_open_file|].
  intros [] w r w'. destruct (disk w); intros [= _ <-]; apply later_refl.
Qed.

Lemma forward_write_json v : forward (write_json v).
Proof.
  apply forward_bind; [apply forward_open_file|].
  intros [] w r w'.
  destruct (dump_faults w (pred (length (log w)))); intros [= _ <-]; by split.
Qed.

Lemma forward__initialize_queue : forward _initialize_queue.
Proof.
  apply forward_bind; [apply forward_now|]. intros c.
  apply forward_bind; [apply forward_now|]. intros u.
  apply forward_write_json.
Qed.

Lemma forward__load_queue : forward _load_queue.
Proof.
  intros w r w'. unfold _load_queue, try_except.
  destruct (read_json w) as [[v|e] w1] eqn:Hread.
  - intros [= _ <-]. by eapply forward_read_json.
  - destruct (is_FileNotFoundError e || is_JSONDecodeError e).
    + intros Hb. eapply later_trans; [by eapply forward_read_json|].
      revert Hb. apply forward_bind; [apply forward__initialize_queue|].
      intros []. apply forward_read_json.
    + intros [= _ <-]. by eapply forward_read_json.
Qed.

Lemma forward__save_queue data : forward (_save_queue data).
Proof.
  apply forward_bind; [apply forward_now|]. intros t.
  apply forward_bind; [apply forward_lift|]. intros md.
  apply forward_bind; [apply forward_lift|]. intros md'.
  apply forward_bind; [apply forward_lift|]. intros data'.
  apply forward_bind; [apply forward_write_json|]. intros [].
  apply forward_ret.
Qed.

Lemma open_file_disk mode w r w' :
  open_file mode w = (r, w') -> disk w' = disk w.
Proof.
  unfold open_file. destruct (faults w (length (log w))); by intros [= <- <-].
Qed.

Lemma read_json_disk w r w' :
  read_json w = (r, w') ->
  disk w' = disk w /\ (forall v, r = Ok v -> disk w = Json v).
Proof.
  unfold read_json. intros Hb.
  apply bind_inv in Hb as [([] & w1 & Ho & Hk)|(e & Ho & ->)].
  - apply open_file_disk in Ho. rewrite <- Ho.
    destruct (disk w1) eqn:Hd; injection Hk as <- <-; split; try done.
    intros ? [= <-]. done.
  - apply open_file_disk in Ho. split; [done|]. intros ? [=].
Qed.

(** A write stores the value, or fails to open the file and leaves it,
    or breaks off and leaves it torn. *)
Lemma write_json_disk v w r w' :
  write_json v w = (r, w') ->
  disk w' = Json v \/ disk w' = disk w \/ disk w' = Garbled.
Proof.
  unfold write_json. intros Hb.
  apply bind_inv in Hb as [([] & w1 & Ho & Hk)|(e & Ho & ->)].
  - destruct (dump_faults w1 (pred (length (log w1)))); injection Hk as <- <-.
    + right. by right.
    + by left.
  - right. left. by apply open_file_disk in Ho.
Qed.

Lemma _initialize_queue_disk w r w' :
  _initialize_queue w = (r, w') ->
  (exists c u, disk w' = Json (initial_data c u)) \/ disk w' = disk w \/
  disk w' = Garbled.
Proof.
  unfold _initialize_queue. rewrite !bind_now. intros Hw.
  apply write_json_disk in Hw as [Hw|Hw]; [left; eauto|right; done].
Qed.

(** A load leaves the file as it was, torn or holding the skeleton, and
    what it returns is what the file then holds. *)
Lemma _load_queue_disk w r w' :
  _load_queue w = (r, w') ->
  (disk w' = disk w \/ disk w' = Garbled \/
   exists c u, disk w' = Json (initial_data c u)) /\
  (forall v, r = Ok v -> disk w' = Json v).
Proof.
  unfold _load_queue, try_except.
  destruct (read_json w) as [[v|e] w1] eqn:Hread.
  - intros [= <- <-]. apply read_json_disk in Hread as [Hd Hv].
    split; [by left|]. intros ? [= <-]. rewrite Hd. by apply Hv.
  - apply read_json_disk in Hread as [Hd _].
    destruct (is_FileNotFoundError e || is_JSONDecodeError e).
    + intros Hb.
      apply bind_inv in Hb as [([] & w2 & Hinit & Hretry)|(e' & Hinit & ->)].
      * apply read_json_disk in Hretry as [Hd2 Hv].
        split; [|intros v Hr; rewrite Hd2; by apply Hv].
        apply _initialize_queue_disk in Hinit as [(c & u & Hinit)|[Hinit|Hinit]].
        -- right. right. exists c, u. congruence.
        -- left. congruence.
        -- right. left. congruence.
      * split; [|intros ? [=]].
        apply _initialize_queue_disk in Hinit as [(c & u & Hinit)|[Hinit|Hinit]].
        -- right. right. eauto.
        -- left. congruence.
        -- right. by left.
    + intros [= <- <-]. split; [by left|]. intros ? [=].
Qed.

Lemma _save_queue_disk d w r w' :
  _save_queue (JObj d) w = (r, w') ->
  disk w' = disk w \/ disk w' = Garbled \/
  exists md t, d !! "metadata" = Some (JObj md) /\
               disk w' = Json (JObj (<["metadata" := touched t md]> d)).
Proof.
  unfold _save_queue. rewrite bind_now. intros Hb.
  apply bind_inv in Hb as [(mdv & w1 & Hget & Hb)|(e & [= _ <-] & ->)]; [|by left].
  injection Hget as Hget <-.
  apply bind_inv in Hb as [(mdv' & w1 & Hset & Hb)|(e & [= _ <-] & ->)]; [|by left].
  injection Hset as Hset <-.
  unfold py_getitem in Hget. destruct (d !! "metadata") as [x|] eqn:Hmd; [|done].
  injection Hget as ->.
  destruct mdv as [| | | | | |md]; try done. injection Hset as <-.
  apply bind_inv in Hb as [(data & w1 & [= <- <-] & Hb)|(e & [=] & _)].
  apply bind_inv in Hb as [([] & w1 & Hw & [= _ <-])|(e & Hw & ->)].
  - apply write_json_disk in Hw as [Hw|[Hw|Hw]]; [|by left|by right; left].
    right. right. exists md, (clock w (ticks w)). done.
  - apply write_json_disk in Hw as [Hw|[Hw|Hw]]; [|by left|by right; left].
    right. right. exists md, (clock w (ticks w)). done.
Qed.

(** ** The invariant of the document *)

Lemma kept_initial clk n c u : kept clk n (Json (initial_data c u)).
Proof.
  eexists _, [], [], _, []. split; [reflexivity|].
  split; [by repeat split|]. split; [constructor|]. split; [constructor|].
  split; [done|]. split; constructor.
Qed.

Lemma write_json_ticks v w r w' : write_json v w = (r, w') -> ticks w' = ticks w.
Proof.
  unfold write_json, bind, open_file.
  destruct (faults w (length (log w))); [by intros [= _ <-]|].
  destruct (dump_faults _ _); by intros [= _ <-].
Qed.

Lemma _save_queue_ticks data w r w' :
  _save_queue data w = (r, w') -> ticks w' = S (ticks w).
Proof.
  unfold _save_queue. rewrite bind_now. intros Hb.
  apply bind_inv in Hb as [(md & w1 & [= _ <-] & Hb)|(e & [= _ <-] & _)]; [|done].
  apply bind_inv in Hb as [(md' & w1 & [= _ <-] & Hb)|(e & [= _ <-] & _)]; [|done].
  apply bind_inv in Hb as [(data' & w1 & [= _ <-] & Hb)|(e & [= _ <-] & _)]; [|done].
  apply bind_inv in Hb as [([] & w1 & Hw & [= _ <-])|(e & Hw & _)];
    by apply write_json_ticks in Hw.
Qed.

Lemma keeps_later w w' :
  later w w' -> disk w' = disk w -> keeps w -> keeps w'.
Proof.
  intros [Hclk Hticks] Hdisk
    [Hg|(d & ps & cs & md & ks & Hd & Hdoc & Hp & Hc & Hids & Hnd & Hks)].
  { left. congruence. }
  right. exists d, ps, cs, md, ks. rewrite Hdisk, Hclk. do 6 (split; [done|]).
  eapply Forall_impl; [exact Hks|]. simpl. intros k Hk. lia.
Qed.

Lemma keeps_after_load w r w' :
  keeps w -> _load_queue w = (r, w') ->
  keeps w' /\ (forall v, r = Ok v -> disk w' = Json v).
Proof.
  intros Hk Hload. pose proof (forward__load_queue _ _ _ Hload) as Hlater.
  apply _load_queue_disk in Hload as [[Hd|[Hd|(c & u & Hd)]] Hv]; split; try done.
  - by apply (keeps_later w).
  - by left.
  - right. rewrite Hd. apply kept_initial.
Qed.

Lemma pending_shape_inv e :
  pending_shape e -> exists r v, e = JObj r /\ r !! "request_id" = Some v.
Proof.
  intros (Hreq & _). destruct e as [| | | | | |r]; try done.
  destruct Hreq as [v Hv]. eauto.
Qed.

Lemma pending_shape_queue_item rid t x : pending_shape (queue_item rid t x).
Proof. split; [apply is_request_queue_item|]. by split. Qed.

Lemma completed_shape_completed_entry t r :
  pending_shape (JObj r) -> completed_shape (completed_entry t r).
Proof.
  intros ([v Hv] & _ & _). split; [|split].
  - exists v. rewrite <- Hv.
    apply (completed_entry_frame t r "request_id"); done.
  - apply completed_entry_status.
  - rewrite completed_entry_completed_at. by eexists.
Qed.

Lemma queue_doc_touched d ps cs md t :
  queue_doc d ps cs md ->
  queue_doc (<["metadata" := touched t md]> d) ps cs
    (<["last_updated" := JStr (isoformat t)]> md).
Proof.
  intros (Hps & Hcs & Hmd). repeat split.
  - by rewrite lookup_insert_ne.
  - by rewrite lookup_insert_ne.
  - apply lookup_insert_eq.
Qed.

(** Admission keeps the invariant: the new identifier is made of a
    reading no entry was made of. *)
Lemma _add_to_queue_keeps x w r w' :
  keeps w -> _add_to_queue x w = (r, w') -> keeps w'.
Proof.
  intros Hk. unfold _add_to_queue.
  destruct (truthy x); cbn [negb]; [|by intros [= _ <-]].
  intros Hb.
  apply bind_inv in Hb as [(v & w1 & Hload & Hb)|(e & Hload & ->)];
    [|by apply (keeps_after_load _ _ _ Hk Hload)].
  apply (keeps_after_load _ _ _ Hk) in Hload as [Hk1 Hv].
  specialize (Hv v eq_refl).
  pose proof Hk1 as [Hg|(d & ps & cs & md & ks & Hd & Hdoc & Hp & Hc & Hids & Hnd & Hks)];
    [congruence|].
  assert (v = JObj d) as -> by congruence.
  apply bind_inv in Hb as [(rid & w2 & [= <- <-] & Hb)|(e & [=] & _)].
  rewrite bind_now in Hb.
  destruct Hdoc as (Hps & Hcs & Hmd).
  rewrite (bind_lift _ _ _ _ (py_getitem_ok _ _ _ Hps)) in Hb.
  erewrite bind_lift in Hb by reflexivity.
  erewrite bind_lift in Hb by reflexivity.
  set (item := queue_item _ _ x) in Hb.
  set (d2 := <["pending_requests" := _]> d) in Hb.
  assert (Hsaved : exists r3 w3,
             _save_queue (JObj d2) (tick (tick w1)) = (r3, w3) /\ w' = w3).
  { apply bind_inv in Hb as [(qd & w3 & Hsave & Hb)|(e & Hsave & _)]; [|eauto].
    exists (Ok qd), w3. split; [done|].
    apply bind_inv in Hb as [(p & w4 & [= _ <-] & Hb)|(e & [= _ <-] & _)]; [|done].
    apply bind_inv in Hb as [(n & w4 & [= _ <-] & Hb)|(e & [= _ <-] & _)]; [|done].
    by injection Hb as _ <-. }
  destruct Hsaved as (r3 & w3 & Hsave & ->).
  pose proof (forward__save_queue _ _ _ _ Hsave) as [Hclk Hticks].
  pose proof (_save_queue_ticks _ _ _ _ Hsave) as Hnow.
  simpl in Hclk, Hticks, Hnow.
  apply _save_queue_disk in Hsave as [Hsave|[Hsave|(md' & t & Hmd' & Hsave)]].
  - apply (keeps_later w1); [split; [done|lia]|done|done].
  - by left.
  - unfold d2 in Hmd'. rewrite lookup_insert_ne in Hmd' by done.
    assert (md' = md) as -> by congruence.
    right.
    exists (<["metadata" := touched t md]> d2), (ps ++ [item]), cs,
      (<["last_updated" := JStr (isoformat t)]> md), (ticks w1 :: ks).
    split; [done|]. split.
    { apply queue_doc_touched. unfold d2. repeat split.
      - apply lookup_insert_eq.
      - by rewrite lookup_insert_ne.
      - by rewrite lookup_insert_ne. }
    split.
    { apply Forall_app. split; [done|].
      constructor; [apply pending_shape_queue_item|constructor]. }
    split; [done|]. split.
    { rewrite Hclk. unfold identifiers in *.
      rewrite !fmap_app, fmap_cons, <- app_assoc. simpl.
      rewrite <- Permutation_middle. apply Permutation_skip.
      by rewrite <- Hids, fmap_app. }
    split; [by split|].
    constructor; [lia|].
    eapply Forall_impl; [exact Hks|]. simpl. intros k Hlt. lia.
Qed.

Lemma Permutation_move_last {A} (l1 l2 : list A) x :
  l1 ++ l2 ++ [x] ≡ₚ x :: l1 ++ l2.
Proof. rewrite app_assoc. symmetry. apply Permutation_cons_append. Qed.

(** Completion keeps the invariant: the moved entry takes its
    identifier along. *)
Lemma mark_loop_keeps rid d ps cs md ks clk :
  queue_doc d ps cs md ->
  Forall pending_shape ps -> Forall completed_shape cs ->
  identifiers (ps ++ cs) ≡ₚ minted clk <$> ks ->
  spaced ks ->
  forall rest (pre : list json) w r w',
    ps = pre ++ rest ->
    disk w = Json (JObj d) -> clock w = clk ->
    Forall (fun k => k + 3 <= ticks w)%nat ks ->
    mark_loop rid (JObj d) (JArr ps) (JArr cs) (length pre) rest w = (r, w') ->
    keeps w'.
Proof.
  intros Hdoc Hp Hc Hids Hnd rest.
  induction rest as [|request rest IH]; intros pre w r w' Hsplit Hd Hclk Hks.
  - intros [= _ <-]. right. exists d, ps, cs, md, ks. by rewrite Hclk.
  - assert (Hreq : pending_shape request).
    { rewrite Forall_forall in Hp. apply Hp. rewrite Hsplit.
      apply elem_of_app. right. by left. }
    destruct (pending_shape_inv _ Hreq) as (r0 & v & -> & Hv).
    cbn [mark_loop].
    rewrite (bind_lift _ _ _ _ (py_getitem_ok _ _ _ Hv)).
    destruct (py_eq_str v rid).
    + erewrite bind_lift by reflexivity. rewrite bind_now.
      erewrite bind_lift by reflexivity.
      erewrite bind_lift by reflexivity.
      erewrite bind_lift by reflexivity.
      rewrite (bind_lift _ _ _ (JArr (pre ++ rest))); cycle 1.
      { unfold py_pop. rewrite bool_decide_eq_true_2.
        - by rewrite Hsplit, delete_middle.
        - rewrite Hsplit, length_app. simpl. lia. }
      erewrite bind_lift by reflexivity.
      erewrite bind_lift by reflexivity.
      set (moved := JObj (<["processed_by" := _]> _)).
      set (d2 := <["completed_requests" := _]> _).
      intros Hb.
      assert (Hsaved : exists r1 w1,
                 _save_queue (JObj d2) (tick w) = (r1, w1) /\ w' = w1).
      { apply bind_inv in Hb as [(qd & w1 & Hsave & Hb)|(e & Hsave & _)]; [|eauto].
        exists (Ok qd), w1. split; [done|].
        apply bind_inv in Hb as [(n & w2 & [= _ <-] & Hb)|(e & [=] & _)].
        by injection Hb as _ <-. }
      destruct Hsaved as (r1 & w1 & Hsave & ->).
      pose proof (forward__save_queue _ _ _ _ Hsave) as [Hclk1 Hticks1].
      simpl in Hclk1, Hticks1.
      destruct Hdoc as (Hps & Hcs & Hmd).
      apply _save_queue_disk in Hsave as [Hsave|[Hsave|(md' & t & Hmd' & Hsave)]].
      * right. exists d, ps, cs, md, ks. rewrite Hsave, Hclk1, Hclk. simpl.
        split; [done|]. split; [by repeat split|]. do 4 (split; [done|]).
        eapply Forall_impl; [exact Hks|]. simpl. intros k Hlt. lia.
      * by left.
      * unfold d2 in Hmd'. rewrite !lookup_insert_ne in Hmd' by done.
        assert (md' = md) as -> by congruence.
        right. exists (<["metadata" := touched t md]> d2), (pre ++ rest), (cs ++ [moved]),
          (<["last_updated" := JStr (isoformat t)]> md), ks.
        split; [done|]. split.
        { apply queue_doc_touched. unfold d2. repeat split.
          - rewrite lookup_insert_ne by done. apply lookup_insert_eq.
          - apply lookup_insert_eq.
          - by rewrite !lookup_insert_ne. }
        split.
        { rewrite Hsplit in Hp. apply Forall_app in Hp as [Hpre Hrest].
          apply Forall_cons in Hrest as [_ Hrest]. by apply Forall_app. }
        split.
        { apply Forall_app. split; [done|].
          constructor; [by apply completed_shape_completed_entry|constructor]. }
        split.
        { rewrite Hclk1, Hclk, <- Hids, Hsplit. unfold identifiers.
          assert (Hmoved : field "request_id" moved = field "request_id" (JObj r0)).
          { apply (completed_entry_frame (clock w (ticks w)) r0 "request_id"); done. }
          rewrite !fmap_app, !fmap_cons, fmap_nil, Hmoved.
          rewrite <- !app_assoc. apply Permutation_app_head.
          apply Permutation_move_last. }
        split; [done|].
        eapply Forall_impl; [exact Hks|]. simpl. intros k Hlt. lia.
    + intros Hb.
      apply (IH (pre ++ [JObj r0]) w r w'); try done.
      * by rewrite <- app_assoc.
      * rewrite length_app. simpl. by rewrite Nat.add_1_r.
Qed.

Lemma _mark_completed_keeps rid w r w' :
  keeps w -> _mark_completed rid w = (r, w') -> keeps w'.
Proof.
  intros Hk. unfold _mark_completed.
  destruct rid as [[|a rid]|]; try by intros [= _ <-].
  intros Hb.
  apply bind_inv in Hb as [(v & w1 & Hload & Hb)|(e & Hload & ->)];
    [|by apply (keeps_after_load _ _ _ Hk Hload)].
  apply (keeps_after_load _ _ _ Hk) in Hload as [Hk1 Hv].
  specialize (Hv v eq_refl).
  destruct Hk1 as [Hg|(d & ps & cs & md & ks & Hd & Hdoc & Hp & Hc & Hids & Hnd & Hks)];
    [congruence|].
  assert (v = JObj d) as -> by congruence.
  pose proof Hdoc as (Hps & Hcs & Hmd).
  rewrite (bind_lift _ _ _ _ (py_get_ok _ _ _ _ Hps)) in Hb.
  rewrite (bind_lift _ _ _ _ (py_get_ok _ _ _ _ Hcs)) in Hb.
  rewrite (bind_lift _ _ _ ps) in Hb by reflexivity.
  by apply (mark_loop_keeps (String a rid) _ _ _ _ _ _ Hdoc Hp Hc Hids Hnd
              ps [] w1 r w').
Qed.

Lemma reaches_keeps w0 w c u :
  disk w0 = Json (initial_data c u) -> reaches w0 w -> keeps w.
Proof.
  intros Hinit Hreach. induction Hreach as [|w op r w' _ IH Hstep].
  - right. rewrite Hinit. apply kept_initial.
  - destruct op as [x|rid]; cbn [perform] in Hstep.
    + by apply (_add_to_queue_keeps _ _ _ _ IH Hstep).
    + by apply (_mark_completed_keeps _ _ _ _ IH Hstep).
Qed.

Lemma forward__add_to_queue x : forward (_add_to_queue x).
Proof.
  unfold _add_to_queue. destruct (truthy x); cbn [negb]; [|apply forward_ret].
  apply forward_bind; [apply forward__load_queue|]. intros queue_data.
  apply forward_bind.
  { apply forward_bind; [apply forward_now|]. intros t. apply forward_ret. }
  intros rid.
  apply forward_bind; [apply forward_now|]. intros t.
  apply forward_bind; [apply forward_lift|]. intros pending.
  apply forward_bind; [apply forward_lift|]. intros pending'.
  apply forward_bind; [apply forward_lift|]. intros queue_data'.
  apply forward_bind; [apply forward__save_queue|]. intros saved.
  apply forward_bind; [apply forward_lift|]. intros pending''.
  apply forward_bind; [apply forward_lift|]. intros n.
  apply forward_ret.
Qed.

Lemma forward_mark_loop rid qd pr cr rest :
  forall i, forward (mark_loop rid qd pr cr i rest).
Proof.
  induction rest as [|request rest IH]; intros i; cbn [mark_loop].
  - apply forward_ret.
  - apply forward_bind; [apply forward_lift|]. intros found.
    destruct (py_eq_str found rid); [|apply IH].
    apply forward_bind; [apply forward_lift|]. intros r1.
    apply forward_bind; [apply forward_now|]. intros t.
    apply forward_bind; [apply forward_lift|]. intros r2.
    apply forward_bind; [apply forward_lift|]. intros r3.
    apply forward_bind; [apply forward_lift|]. intros cr'.
    apply forward_bind; [apply forward_lift|]. intros pr'.
    apply forward_bind; [apply forward_lift|]. intros qd1.
    apply forward_bind; [apply forward_lift|]. intros qd2.
    apply forward_bind; [apply forward__save_queue|]. intros saved.
    apply forward_bind; [apply forward_lift|]. intros n.
    apply forward_ret.
Qed.

Lemma forward__mark_completed rid : forward (_mark_completed rid).
Proof.
  unfold _mark_completed. destruct rid as [[|a rid]|]; try apply forward_ret.
  apply forward_bind; [apply forward__load_queue|]. intros queue_data.
  apply forward_bind; [apply forward_lift|]. intros pr.
  apply forward_bind; [apply forward_lift|]. intros cr.
  apply forward_bind; [apply forward_lift|]. intros items.
  apply forward_mark_loop.
Qed.

Lemma reaches_later w0 w : reaches w0 w -> later w0 w.
Proof.
  induction 1 as [|w op r w' _ IH Hstep]; [apply later_refl|].
  eapply later_trans; [exact IH|].
  destruct op as [x|rid]; cbn [perform] in Hstep.
  - by eapply forward__add_to_queue.
  - by eapply forward__mark_completed.
Qed.

Lemma minted_fresh clk k ks :
  (forall m, (m + 3 <= k)%nat -> request_id_at (clk m) <> request_id_at (clk k)) ->
  Forall (fun k' => k' + 3 <= k)%nat ks ->
  minted clk k ∉ minted clk <$> ks.
Proof.
  intros Hfresh Hks Hin. apply list_elem_of_fmap in Hin as (k' & Heq & Hin).
  rewrite Forall_forall in Hks. apply (Hfresh k' (Hks _ Hin)).
  unfold minted in Heq. congruence.
Qed.

(** X1.  The half of the document invariant that does not depend on
    the identifiers: whatever the payloads, the clock, the failures of
    [open] and the dumps that break off, in every state reached from
    the initial document by admissions and completions the file is
    either torn by a dump that broke off, or a queue document whose
    pending entries are pending, without [completed_at], and whose
    completed entries are completed, with [completed_at]. *)
Theorem reachable_entries_keep_their_shape w0 w c u :
  disk w0 = Json (initial_data c u) ->
  reaches w0 w ->
  disk w = Garbled \/
  exists d ps cs md,
    disk w = Json (JObj d) /\ queue_doc d ps cs md /\
    Forall pending_shape ps /\ Forall completed_shape cs.
Proof.
  intros Hinit Hreach.
  destruct (reaches_keeps _ _ _ _ Hinit Hreach)
    as [Hg|(d & ps & cs & md & ks & Hd & Hdoc & Hp & Hc & _)]; [by left|].
  right. by exists d, ps, cs, md.
Qed.

(** X3.  The other half holds as long as readings of the clock that
    lie three or more apart fall into different seconds (the three
    readings of one admission may share a second; two admissions may
    not): in every state reached from the initial document, whatever
    the payloads, the failures of [open] and the dumps that break off,
    the file is torn or holds a queue document in which no identifier
    occurs twice in [pending_requests], twice in [completed_requests],
    or in both. *)
Theorem reachable_identifiers_distinct w0 w c u :
  disk w0 = Json (initial_data c u) ->
  reaches w0 w ->
  (forall n, (n < ticks w)%nat -> valid_datetime (clock w0 n)) ->
  (forall n m, (n + 3 <= m)%nat -> (m < ticks w)%nat ->
               ~ same_second (clock w0 n) (clock w0 m)) ->
  disk w = Garbled \/
  exists d ps cs md,
    disk w = Json (JObj d) /\ queue_doc d ps cs md /\
    NoDup (identifiers ps ++ identifiers cs).
Proof.
  intros Hinit Hreach Hvalid Hapart.
  destruct (reaches_keeps _ _ _ _ Hinit Hreach)
    as [Hg|(d & ps & cs & md & ks & Hd & Hdoc & _ & _ & Hids & Hsp & Hks)];
    [by left|].
  destruct (reaches_later _ _ Hreach) as [Hclk _].
  right. exists d, ps, cs, md. do 2 (split; [done|]).
  unfold identifiers in *. rewrite <- fmap_app, Hids, Hclk. clear Hids.
  induction ks as [|k ks IH]; [constructor|].
  apply Forall_cons in Hks as [Hk Hks]. destruct Hsp as [Hlow Hsp].
  rewrite fmap_cons. constructor; [|by apply IH].
  apply minted_fresh; [|done].
  intros m Hm Heq. apply (Hapart m k); [done|lia|].
  apply request_id_at_inj; [apply Hvalid; lia|apply Hvalid; lia|done].
Qed.

(** ** What an operation can do to the file *)

Lemma pure_ret {A} (a : A) : pure (ret a).
Proof. by intros w r w' [= _ <-]. Qed.

Lemma pure_lift {A} (r : result A) : pure (lift r).
Proof. by intros w r' w' [= _ <-]. Qed.

Lemma pure_bind {A B} (m : M A) (k : A -> M B) :
  pure m -> (forall a, pure (k a)) -> pure (bind m k).
Proof.
  intros Hm Hk w r w' Hb.
  apply bind_inv in Hb as [(a & w1 & H1 & H2)|(e & H1 & _)].
  - apply Hm in H1 as ->. by apply Hk in H2.
  - by apply Hm in H1.
Qed.

Lemma lift_inv {A} (r : result A) w r' w' :
  lift r w = (r', w') -> r' = r /\ w' = w.
Proof. by intros [= <- <-]. Qed.

Lemma _load_queue_present w v r w' :
  disk w = Json v -> present w ->
  _load_queue w = (r, w') ->
  w' = opened OpenRead w /\ (r = Ok v \/ exists code, r = Raise (OSError code)).
Proof.
  intros Hd Hp. unfold present in Hp.
  unfold _load_queue, try_except, read_json, bind, open_file.
  destruct (faults w (length (log w))) as [code|] eqn:Hf.
  - destruct code; simpl; try (intros [= <- <-]; split; [done|right; eauto]).
    done.
  - simpl. rewrite Hd. intros [= <- <-]. split; [done|by left].
Qed.

Lemma _save_queue_outcome data w r w' :
  _save_queue data w = (r, w') ->
  (disk w' = disk w /\ exists e, r = Raise e) \/
  (exists d md,
     data = JObj d /\ d !! "metadata" = Some (JObj md) /\
     let d' := <["metadata" := touched (clock w (ticks w)) md]> d in
     r = Ok (JObj d') /\ disk w' = Json (JObj d')) \/
  (disk w' = Garbled /\ exists n e, dump_faults w n = Some e /\ r = Raise e).
Proof.
  unfold _save_queue. rewrite bind_now.
  intros Hs.
  apply bind_inv in Hs as [(metadata & w1 & H1 & Hs)|(e & H1 & ->)]; last first.
  { apply lift_inv in H1 as [_ ->]. left. split; [done|eauto]. }
  apply lift_inv in H1 as [H1 ->].
  apply bind_inv in Hs as [(metadata' & w1 & H2 & Hs)|(e & H2 & ->)]; last first.
  { apply lift_inv in H2 as [_ ->]. left. split; [done|eauto]. }
  apply lift_inv in H2 as [H2 ->].
  apply bind_inv in Hs as [(data' & w1 & H3 & Hs)|(e & H3 & ->)]; last first.
  { apply lift_inv in H3 as [_ ->]. left. split; [done|eauto]. }
  apply lift_inv in H3 as [H3 ->].
  destruct data as [| | | | | |d]; try done.
  destruct metadata as [| | | | | |md]; try done.
  simpl in H1, H2, H3.
  destruct (d !! "metadata") as [m|] eqn:Hm; [|done].
  simplify_eq.
  unfold write_json, bind, open_file in Hs. simpl in Hs.
  destruct (faults w (length (log w))) as [code|].
  - injection Hs as <- <-. left. split; [done|eauto].
  - simpl in Hs.
    destruct (dump_faults w _) as [e|] eqn:Hdf; injection Hs as <- <-.
    + right; right. split; [done|eauto].
    + right; left. exists d, md. by repeat split.
Qed.

(** One step of a [bind]: either its first computation answers and the
    rest runs, or it raises and that is the outcome. *)
Ltac bind_step H a w1 H1 e :=
  apply bind_inv in H as [(a & w1 & H1 & H)|(e & H1 & ->)].

Lemma now_inv w r w' :
  now w = (r, w') -> r = Ok (clock w (ticks w)) /\ w' = tick w.
Proof. by intros [= <- <-]. Qed.

Lemma _add_to_queue_outcome x w v r w' :
  disk w = Json v -> present w ->
  _add_to_queue x w = (r, w') ->
  (disk w' = disk w /\ (r = Ok msg_no_request_data \/ exists e, r = Raise e)) \/
  (exists d ps md,
     v = JObj d /\ d !! "pending_requests" = Some (JArr ps) /\
     d !! "metadata" = Some (JObj md) /\ truthy x = true /\
     let rid := request_id_at (reading w 0) in
     r = Ok (msg_added rid (S (length ps))) /\
     disk w' = Json (JObj (<["metadata" := touched (reading w 2) md]>
                 (<["pending_requests" :=
                      JArr (ps ++ [queue_item rid (reading w 1) x])]> d)))) \/
  (truthy x = true /\ disk w' = Garbled /\
   exists n e, dump_faults w n = Some e /\ r = Raise e).
Proof.
  intros Hd Hp. unfold _add_to_queue.
  destruct (truthy x) eqn:Hx; simpl.
  2:{ intros [= <- <-]. left. split; [done|by left]. }
  intros Ha.
  bind_step Ha qd w1 Hl e.
  2:{ apply (_load_queue_present _ _ _ _ Hd Hp) in Hl as [-> _].
      left. split; [done|eauto]. }
  apply (_load_queue_present _ _ _ _ Hd Hp) in Hl as [-> [[= ->]|[code [=]]]].
  cbv beta in Ha. unfold _generate_request_id in Ha.
  rewrite (bind_run _ _ _ (request_id_at (reading w 0))
             (tick (opened OpenRead w))) in Ha by reflexivity.
  rewrite bind_now in Ha.
  bind_step Ha pending w1 H1 e.
  2:{ apply lift_inv in H1 as [_ ->]. left. split; [done|eauto]. }
  apply lift_inv in H1 as [H1 ->].
  bind_step Ha pending' w1 H2 e.
  2:{ apply lift_inv in H2 as [_ ->]. left. split; [done|eauto]. }
  apply lift_inv in H2 as [H2 ->].
  bind_step Ha qd' w1 H3 e.
  2:{ apply lift_inv in H3 as [_ ->]. left. split; [done|eauto]. }
  apply lift_inv in H3 as [H3 ->].
  destruct v as [| | | | | |d]; try done. simpl in H1, H3.
  destruct (d !! "pending_requests") as [p|] eqn:Hps; [|done].
  injection H1 as ->.
  destruct p as [| | | | |ps|]; try done. simpl in H2.
  injection H2 as ->. injection H3 as ->.
  bind_step Ha qd'' w1 H4 e.
  2:{ apply _save_queue_outcome in H4
        as [[Hd' _]|[(? & ? & _ & _ & [=] & _)|[Hd' (n & e' & Hdf & [= <-])]]].
      - left. split; [by rewrite Hd'|eauto].
      - right; right. split; [done|]. split; [done|]. by exists n, e. }
  apply _save_queue_outcome in H4
    as [[_ [? [=]]]|[(d0 & md & [= <-] & Hmd & [= ->] & Hd')|[_ (? & ? & _ & [=])]]].
  rewrite lookup_insert_ne in Hmd by done.
  simpl in Ha.
  rewrite lookup_insert_ne, lookup_insert_eq in Ha by done.
  simpl in Ha. injection Ha as <- <-.
  right; left. exists d, ps, md. split; [done|]. split; [done|]. split; [done|].
  split; [done|]. split.
  - by rewrite length_app, Nat.add_1_r.
  - exact Hd'.
Qed.

Lemma py_eq_str_true v s : py_eq_str v s = true -> v = JStr s.
Proof.
  destruct v; try done. simpl. by intros ->%String.eqb_eq.
Qed.

Lemma mark_loop_outcome rid d pr cr : forall rest i w r w',
  mark_loop rid (JObj d) pr cr i rest w = (r, w') ->
  (disk w' = disk w /\ (r = Ok (msg_not_found rid) \/ exists e, r = Raise e)) \/
  (exists ps cs md k r0,
     pr = JArr ps /\ cr = JArr cs /\ d !! "metadata" = Some (JObj md) /\
     rest !! k = Some (JObj r0) /\ (i + k < length ps)%nat /\
     r0 !! "request_id" = Some (JStr rid) /\
     r = Ok (msg_completed rid (length (delete (i + k)%nat ps))) /\
     disk w' =
       Json (JObj (<["metadata" := touched (clock w (S (ticks w))) md]>
         (<["completed_requests" :=
              JArr (cs ++ [completed_entry (clock w (ticks w)) r0])]>
            (<["pending_requests" := JArr (delete (i + k)%nat ps)]> d))))) \/
  (disk w' = Garbled /\ exists n e, dump_faults w n = Some e /\ r = Raise e).
Proof.
  induction rest as [|request rest IH]; intros i w r w' Hm; simpl in Hm.
  { injection Hm as <- <-. left. split; [done|by left]. }
  bind_step Hm found w1 H1 e.
  2:{ apply lift_inv in H1 as [_ ->]. left. split; [done|eauto]. }
  apply lift_inv in H1 as [H1 ->]. cbv beta in Hm.
  destruct (py_eq_str found rid) eqn:Heq.
  2:{ apply IH in Hm
        as [Hm|[(ps & cs & md & k & r0 & -> & -> & Hmd & Hk & Hlt & Hr0 & -> & Hd')|Hm]].
      - by left.
      - right; left. exists ps, cs, md, (S k), r0.
        rewrite Nat.add_succ_r. by repeat (split; [done|]).
      - by right; right. }
  apply py_eq_str_true in Heq as ->.
  destruct request as [| | | | | |r0]; try done. simpl in H1.
  destruct (r0 !! "request_id") as [f|] eqn:Hr0; [|done].
  injection H1 as ->.
  rewrite (bind_lift _ _ _ (JObj (<["status" := JStr "completed"]> r0))) in Hm
    by reflexivity.
  rewrite bind_now in Hm.
  rewrite (bind_lift _ _ _
             (JObj (<["completed_at" := JStr (isoformat (clock w (ticks w)))]>
                      (<["status" := JStr "completed"]> r0)))) in Hm
    by reflexivity.
  rewrite (bind_lift _ _ _ (completed_entry (clock w (ticks w)) r0)) in Hm
    by reflexivity.
  bind_step Hm cr' w1 H2 e.
  2:{ apply lift_inv in H2 as [_ ->]. left. split; [done|eauto]. }
  apply lift_inv in H2 as [H2 ->].
  bind_step Hm pr' w1 H3 e.
  2:{ apply lift_inv in H3 as [_ ->]. left. split; [done|eauto]. }
  apply lift_inv in H3 as [H3 ->].
  destruct cr as [| | | | |cs|]; try done. injection H2 as ->.
  destruct pr as [| | | | |ps|]; try done. simpl in H3.
  case_bool_decide as Hlt; [|done]. injection H3 as ->.
  rewrite (bind_lift _ _ _
             (JObj (<["pending_requests" := JArr (delete i ps)]> d))) in Hm
    by reflexivity.
  rewrite (bind_lift _ _ _
             (JObj (<["completed_requests" :=
                        JArr (cs ++ [completed_entry (clock w (ticks w)) r0])]>
                      (<["pending_requests" := JArr (delete i ps)]> d)))) in Hm
    by reflexivity.
  bind_step Hm qd' w1 H4 e.
  2:{ apply _save_queue_outcome in H4
        as [[Hd' _]|[(? & ? & _ & _ & [=] & _)|[Hd' (n & e' & Hdf & [= <-])]]].
      - left. split; [exact Hd'|eauto].
      - right; right. split; [done|]. by exists n, e. }
  apply _save_queue_outcome in H4
    as [[_ [? [=]]]|[(d0 & md & [= <-] & Hmd & [= ->] & Hd')|[_ (? & ? & _ & [=])]]].
  rewrite !lookup_insert_ne in Hmd by done.
  simpl in Hm. injection Hm as <- <-.
  right; left. exists ps, cs, md, 0%nat, r0. rewrite Nat.add_0_r.
  by repeat (split; [done|]).
Qed.

Lemma _mark_completed_outcome rid w v r w' :
  disk w = Json v -> present w ->
  _mark_completed rid w = (r, w') ->
  (disk w' = disk w /\
   (r = Ok msg_no_request_id \/
    (exists id, rid = Some id /\ r = Ok (msg_not_found id)) \/
    exists e, r = Raise e)) \/
  (exists id d (pre : list json) r0 post cs md,
     rid = Some id /\ v = JObj d /\
     default (JArr []) (d !! "pending_requests") = JArr (pre ++ JObj r0 :: post) /\
     default (JArr []) (d !! "completed_requests") = JArr cs /\
     d !! "metadata" = Some (JObj md) /\
     r0 !! "request_id" = Some (JStr id) /\
     r = Ok (msg_completed id (length (pre ++ post))) /\
     disk w' =
       Json (JObj (<["metadata" := touched (reading w 1) md]>
         (<["completed_requests" :=
              JArr (cs ++ [completed_entry (reading w 0) r0])]>
            (<["pending_requests" := JArr (pre ++ post)]> d))))) \/
  (disk w' = Garbled /\ exists n e, dump_faults w n = Some e /\ r = Raise e).
Proof.
  intros Hd Hp. unfold _mark_completed.
  destruct rid as [id|].
  2:{ intros [= <- <-]. left. split; [done|by left]. }
  destruct id as [|a id'].
  { intros [= <- <-]. left. split; [done|by left]. }
  set (id := String a id'). intros Hm.
  bind_step Hm qd w1 Hl e.
  2:{ apply (_load_queue_present _ _ _ _ Hd Hp) in Hl as [-> _].
      left. split; [done|eauto]. }
  apply (_load_queue_present _ _ _ _ Hd Hp) in Hl as [-> [[= ->]|[code [=]]]].
  bind_step Hm pr w1 H1 e.
  2:{ apply lift_inv in H1 as [_ ->]. left. split; [done|eauto]. }
  apply lift_inv in H1 as [H1 ->].
  bind_step Hm cr w1 H2 e.
  2:{ apply lift_inv in H2 as [_ ->]. left. split; [done|eauto]. }
  apply lift_inv in H2 as [H2 ->].
  bind_step Hm items w1 H3 e.
  2:{ apply lift_inv in H3 as [_ ->]. left. split; [done|eauto]. }
  apply lift_inv in H3 as [H3 ->].
  destruct v as [| | | | | |d]; try done. simpl in H1, H2.
  injection H1 as ->. injection H2 as ->.
  apply mark_loop_outcome in Hm
    as [[Hd' Hr]|[(ps & cs & md & k & r0 & Hps & Hcs & Hmd & Hk & Hlt & Hr0 & -> & Hd')|Ht]].
  3:{ by right; right. }
  - left. split; [exact Hd'|].
    destruct Hr as [->|Hr]; [right; left; eauto|by right; right].
  - right; left. rewrite Hps in H3. injection H3 as ->.
    simpl in Hlt, Hd'. simpl.
    exists id, d, (take k ps), r0, (drop (S k) ps), cs, md.
    rewrite <- delete_take_drop.
    split; [done|]. split; [done|]. split.
    { rewrite Hps. f_equal. symmetry. by apply take_drop_middle. }
    by repeat (split; [done|]).
Qed.

Lemma steady_ret {A} (a : A) : steady (ret a).
Proof. by intros w r w' [= _ <-]. Qed.

Lemma steady_lift {A} (r : result A) : steady (lift r).
Proof. by intros w r' w' [= _ <-]. Qed.

Lemma steady_bind {A B} (m : M A) (k : A -> M B) :
  steady m -> (forall a, steady (k a)) -> steady (bind m k).
Proof.
  intros Hm Hk w r w' Hb.
  apply bind_inv in Hb as [(a & w1 & H1 & H2)|(e & H1 & _)].
  - destruct (Hm _ _ _ H1) as [<- <-]. by apply Hk in H2.
  - by apply Hm in H1.
Qed.

Lemma steady_now : steady now.
Proof. by intros w r w' [= _ <-]. Qed.

Lemma steady_open_file mode : steady (open_file mode).
Proof.
  intros w r w'. unfold open_file.
  by destruct (faults w (length (log w))); intros [= _ <-].
Qed.

Lemma steady_read_json : steady read_json.
Proof.
  apply steady_bind; [apply steady_open_file|].
  intros _ w r w'. by destruct (disk w); intros [= _ <-].
Qed.

Lemma steady_write_json v : steady (write_json v).
Proof.
  apply steady_bind; [apply steady_open_file|].
  intros _ w r w'.
  by destruct (dump_faults w (pred (length (log w)))); intros [= _ <-].
Qed.

Lemma steady_try_except {A} (body : M A) catches handler :
  steady body -> (forall e, steady (handler e)) ->
  steady (try_except body catches handler).
Proof.
  intros Hb Hh w r w'. unfold try_except.
  destruct (body w) as [[a|e] w1] eqn:Hbody.
  - intros [= <- <-]. by apply Hb in Hbody.
  - destruct (Hb _ _ _ Hbody) as [<- <-]. destruct (catches e).
    + apply Hh.
    + by intros [= _ <-].
Qed.

Lemma steady__initialize_queue : steady _initialize_queue.
Proof.
  repeat (apply steady_bind; [apply steady_now|intros ?]).
  apply steady_write_json.
Qed.

Lemma steady__load_queue : steady _load_queue.
Proof.
  apply steady_try_except; [apply steady_read_json|].
  intros _. apply steady_bind; [apply steady__initialize_queue|].
  intros _. apply steady_read_json.
Qed.

Lemma steady__save_queue data : steady (_save_queue data).
Proof.
  unfold _save_queue.
  apply steady_bind; [apply steady_now|intros ?].
  do 3 (apply steady_bind; [apply steady_lift|intros ?]).
  apply steady_bind; [apply steady_write_json|intros ?].
  apply steady_ret.
Qed.

Lemma steady__add_to_queue x : steady (_add_to_queue x).
Proof.
  unfold _add_to_queue. destruct (negb (truthy x)); [apply steady_ret|].
  apply steady_bind; [apply steady__load_queue|intros ?].
  apply steady_bind.
  { apply steady_bind; [apply steady_now|intros ?]. apply steady_ret. }
  intros ?. apply steady_bind; [apply steady_now|intros ?].
  do 3 (apply steady_bind; [apply steady_lift|intros ?]).
  apply steady_bind; [apply steady__save_queue|intros ?].
  do 2 (apply steady_bind; [apply steady_lift|intros ?]).
  apply steady_ret.
Qed.

Lemma steady_mark_loop rid qd pr cr rest :
  forall i, steady (mark_loop rid qd pr cr i rest).
Proof.
  induction rest as [|request rest IH]; intros i; simpl; [apply steady_ret|].
  apply steady_bind; [apply steady_lift|intros found].
  destruct (py_eq_str found rid); [|apply IH].
  apply steady_bind; [apply steady_lift|intros ?].
  apply steady_bind; [apply steady_now|intros ?].
  do 6 (apply steady_bind; [apply steady_lift|intros ?]).
  apply steady_bind; [apply steady__save_queue|intros ?].
  apply steady_bind; [apply steady_lift|intros ?].
  apply steady_ret.
Qed.

Lemma steady__mark_completed rid : steady (_mark_completed rid).
Proof.
  unfold _mark_completed. destruct rid as [[|a id]|]; try apply steady_ret.
  apply steady_bind; [apply steady__load_queue|intros ?].
  do 3 (apply steady_bind; [apply steady_lift|intros ?]).
  apply steady_mark_loop.
Qed.

Lemma pure_run {A} (m : M A) w r w' : pure m -> m w = (r, w') -> w' = w.
Proof. intros Hm. apply Hm. Qed.

Section Frames.
Context `{PyRuntime}.

Lemma pure_summary_line vd key label fld result :
  pure (summary_line vd key label fld result).
Proof.
  unfold summary_line. apply pure_bind; [apply pure_lift|intros present].
  destruct present; [|apply pure_ret].
  apply pure_bind; [apply pure_lift|intros ?]. apply pure_ret.
Qed.

Lemma pure_pending_loop items : forall result, pure (pending_loop result items).
Proof.
  induction items as [|request rest IH]; intros result; simpl; [apply pure_ret|].
  do 4 (apply pure_bind; [apply pure_lift|intros ?]).
  apply pure_bind; [|intros ?; apply IH].
  destruct (truthy _); [|apply pure_ret].
  do 3 (apply pure_bind; [apply pure_summary_line|intros ?]).
  apply pure_summary_line.
Qed.

(** Past [_load_queue], [_get_pending_requests] and [_get_queue_status]
    only compute. *)
Lemma _get_pending_requests_frame w v r w' :
  disk w = Json v -> present w ->
  _get_pending_requests w = (r, w') -> w' = opened OpenRead w.
Proof.
  intros Hd Hp Hg. unfold _get_pending_requests in Hg.
  bind_step Hg qd w1 Hl e.
  2:{ by apply (_load_queue_present _ _ _ _ Hd Hp) in Hl as [-> _]. }
  apply (_load_queue_present _ _ _ _ Hd Hp) in Hl as [-> _].
  cbv beta in Hg. apply pure_run in Hg; [done|].
  apply pure_bind; [apply pure_lift|intros pending].
  destruct (negb (truthy pending)); [apply pure_ret|].
  do 2 (apply pure_bind; [apply pure_lift|intros ?]).
  apply pure_pending_loop.
Qed.

Lemma _get_queue_status_frame w v r w' :
  disk w = Json v -> present w ->
  _get_queue_status w = (r, w') -> w' = opened OpenRead w.
Proof.
  intros Hd Hp Hg. unfold _get_queue_status in Hg.
  bind_step Hg qd w1 Hl e.
  2:{ by apply (_load_queue_present _ _ _ _ Hd Hp) in Hl as [-> _]. }
  apply (_load_queue_present _ _ _ _ Hd Hp) in Hl as [-> _].
  cbv beta in Hg. apply pure_run in Hg; [done|].
  do 6 (apply pure_bind; [apply pure_lift|intros ?]).
  apply pure_ret.
Qed.

Lemma manage_queue_inv action data rid w s w' :
  manage_queue action data rid w = (s, w') ->
  exists r, dispatch action data rid w = (r, w') /\
            s = Ok (match r with Ok a => a | Raise e => msg_error e end).
Proof.
  unfold manage_queue, try_except.
  destruct (dispatch action data rid w) as [[a|e] w1].
  - intros [= <- <-]. by eexists.
  - intros [= <- <-]. by eexists.
Qed.

Lemma steady_pure {A} (m : M A) : pure m -> steady m.
Proof. intros Hm w r w' Hr. by apply Hm in Hr as ->. Qed.

Lemma steady__get_pending_requests : steady _get_pending_requests.
Proof.
  unfold _get_pending_requests.
  apply steady_bind; [apply steady__load_queue|intros ?].
  apply steady_bind; [apply steady_lift|intros pending].
  destruct (negb (truthy pending)); [apply steady_ret|].
  do 2 (apply steady_bind; [apply steady_lift|intros ?]).
  apply steady_pure, pure_pending_loop.
Qed.

Lemma steady__get_queue_status : steady _get_queue_status.
Proof.
  unfold _get_queue_status.
  apply steady_bind; [apply steady__load_queue|intros ?].
  do 6 (apply steady_bind; [apply steady_lift|intros ?]).
  apply steady_ret.
Qed.

Lemma steady_dispatch action data rid : steady (dispatch action data rid).
Proof.
  unfold dispatch.
  destruct (String.eqb action "add_to_queue"); [apply steady__add_to_queue|].
  destruct (String.eqb action "get_pending"); [apply steady__get_pending_requests|].
  destruct (String.eqb action "mark_completed"); [apply steady__mark_completed|].
  destruct (String.eqb action "get_status"); [apply steady__get_queue_status|].
  apply steady_ret.
Qed.

Lemma steady_manage_queue action data rid : steady (manage_queue action data rid).
Proof.
  apply steady_try_except; [apply steady_dispatch|].
  intros e. apply steady_ret.
Qed.

(** X4.  [get_pending] and [get_status] only read.  When the queue
    file holds JSON of any kind, a queue document or not, and [open]
    does not report it absent, the whole effect of either action is one
    [open] for reading: the file is not written, the clock is not read,
    whatever the answer is, a listing, a status or an error string. *)
Theorem reading_actions_open_once action data rid w v s w' :
  action ∈ ["get_pending"; "get_status"] ->
  disk w = Json v ->
  present w ->
  manage_queue action data rid w = (s, w') ->
  w' = opened OpenRead w.
Proof.
  intros Ha Hd Hp Hm.
  apply manage_queue_inv in Hm as (r & Hr & _).
  rewrite !elem_of_cons in Ha.
  destruct Ha as [->|[->|Ha]].
  - exact (_get_pending_requests_frame _ _ _ _ Hd Hp Hr).
  - exact (_get_queue_status_frame _ _ _ _ Hd Hp Hr).
  - by apply elem_of_nil in Ha.
Qed.

(** X5.  The queue file changes only under an answer of success or
    under a write that broke off.  When the file holds JSON of any kind
    and [open] does not report it absent, then for every action,
    request data and request id the file after the call is the file
    before it, unless the action is [add_to_queue] and its answer is
    "added to queue successfully", or the action is [mark_completed]
    and its answer is "marked as completed", or one of these two
    actions got as far as its write, the dump raised, and the file is
    left torn: the document is lost and the answer is the error string
    of that exception.  Any other exception, whether of the document or
    of [open], leaves the file as it was; [manage_queue] adds no effect
    of its own to those of its [try] block. *)
Theorem file_unchanged_unless_written action data rid w v r w' :
  disk w = Json v ->
  present w ->
  dispatch action data rid w = (r, w') ->
  snd (manage_queue action data rid w) = w' /\
  (disk w' = disk w \/
   (action = "add_to_queue" /\ exists id n, r = Ok (msg_added id n)) \/
   (action = "mark_completed" /\ exists id n, r = Ok (msg_completed id n)) \/
   (action ∈ ["add_to_queue"; "mark_completed"] /\ disk w' = Garbled /\
    exists e, r = Raise e /\
              manage_queue action data rid w = (Ok (msg_error e), w'))).
Proof.
  intros Hd Hp Hr. split.
  { unfold manage_queue, try_except. rewrite Hr. by destruct r. }
  pose proof Hr as Hr0.
  unfold dispatch in Hr.
  destruct (String.eqb action "add_to_queue") eqn:E1.
  { apply String.eqb_eq in E1 as ->.
    apply (_add_to_queue_outcome _ _ _ _ _ Hd Hp) in Hr
      as [[Hd' _]|[(d & ps & md & _ & _ & _ & _ & -> & _)|(_ & Ht & n & e & _ & ->)]];
      [by left| |].
    - right; left. split; [done|]. by eexists _, _.
    - right; right; right. split; [set_solver|]. split; [done|].
      exists e. split; [done|]. by apply manage_queue_catches. }
  destruct (String.eqb action "get_pending") eqn:E2.
  { apply (_get_pending_requests_frame _ _ _ _ Hd Hp) in Hr as ->. by left. }
  destruct (String.eqb action "mark_completed") eqn:E3.
  { apply String.eqb_eq in E3 as ->.
    apply (_mark_completed_outcome _ _ _ _ _ Hd Hp) in Hr
      as [[Hd' _]|[(id & d & pre & r0 & post & cs & md & _ & _ & _ & _ & _ & _ & -> & _)
                  |(Ht & n & e & _ & ->)]];
      [by left| |].
    - right; right; left. split; [done|]. by eexists _, _.
    - right; right; right. split; [set_solver|]. split; [done|].
      exists e. split; [done|]. by apply manage_queue_catches. }
  destruct (String.eqb action "get_status") eqn:E4.
  { apply (_get_queue_status_frame _ _ _ _ Hd Hp) in Hr as ->. by left. }
  injection Hr as <- <-. by left.
Qed.

End Frames.

(** ** Listing every entry *)

Lemma string_app_nil_r (s : string) : (s ++ "")%string = s.
Proof.
  induction s as [|a s IH]; [done|].
  change (String a (s ++ "")%string = String a s). by rewrite IH.
Qed.

Lemma string_concat_cons (s : string) (l : list string) :
  String.concat "" (s :: l) = (s ++ String.concat "" l)%string.
Proof.
  destruct l as [|t l]; simpl; [by rewrite string_app_nil_r|done].
Qed.

Section ListingAll.
Context `{PyRuntime}.

Lemma add_line_line_of x key label result :
  add_line x key label result = (result ++ line_of x key label)%string.
Proof.
  unfold add_line, line_of. destruct (x !! key); [done|].
  by rewrite string_app_nil_r.
Qed.

Lemma summary_lines x result w :
  (result <- summary_line (JObj x) "budget_status" "Budget Status: "
               (py_getitem (JObj x) "budget_status") result ;;
   result <- summary_line (JObj x) "total_cost" "Total Cost: $"
               (py_get (JObj x) "total_cost" (JStr "N/A")) result ;;
   result <- summary_line (JObj x) "supplier_count" "Suppliers: "
               (py_getitem (JObj x) "supplier_count") result ;;
   summary_line (JObj x) "priority_items" "Critical Items: "
     (py_getitem (JObj x) "priority_items") result) w
  = (Ok (result ++
         line_of x "budget_status" "Budget Status: " ++
         line_of x "total_cost" "Total Cost: $" ++
         line_of x "supplier_count" "Suppliers: " ++
         line_of x "priority_items" "Critical Items: ")%string, w).
Proof.
  erewrite bind_run; cycle 1.
  { apply summary_line_dict. intros v Hv. by apply py_getitem_ok. }
  erewrite bind_run; cycle 1.
  { apply summary_line_dict. intros v Hv. by apply py_get_ok. }
  erewrite bind_run; cycle 1.
  { apply summary_line_dict. intros v Hv. by apply py_getitem_ok. }
  erewrite summary_line_dict; cycle 1.
  { intros v Hv. by apply py_getitem_ok. }
  by rewrite !add_line_line_of, !string_app_assoc.
Qed.

Lemma pending_loop_listable items : forall result w,
  Forall listable items ->
  pending_loop result items w =
    (Ok (result ++ String.concat "" (block_of <$> items))%string, w).
Proof.
  induction items as [|e rest IH]; intros result w Hall.
  { simpl. by rewrite string_app_nil_r. }
  apply Forall_cons in Hall as [(Hid & Hts & Hst & Hvd) Hall].
  destruct e as [| | | | | |r]; try by destruct Hid.
  simpl in Hid, Hts, Hst, Hvd.
  destruct Hid as [rid Hid], Hts as [ts Hts], Hst as [st Hst].
  cbn [pending_loop].
  rewrite (bind_lift _ _ _ _ (py_getitem_ok _ _ _ Hid)).
  rewrite (bind_lift _ _ _ _ (py_getitem_ok _ _ _ Hts)).
  rewrite (bind_lift _ _ _ _ (py_getitem_ok _ _ _ Hst)).
  rewrite (bind_lift _ _ _ (default (JObj ∅) (r !! "validation_data")))
    by reflexivity.
  rewrite fmap_cons, string_concat_cons. unfold block_of at 1. simpl field.
  rewrite Hid, Hts, Hst. cbn [default].
  set (vd := default (JObj ∅) (r !! "validation_data")) in *.
  destruct (truthy vd) eqn:Htr.
  - destruct vd as [| | | | | |x]; try (simpl in Htr; congruence).
    cbv zeta. erewrite bind_run; [|apply summary_lines].
    rewrite (IH _ _ Hall). unfold summary_of. rewrite Htr.
    by rewrite !string_app_assoc.
  - rewrite (bind_run (ret _) _ _ _ _ eq_refl).
    rewrite (IH _ _ Hall).
    assert (summary_of vd = "") as ->.
    { unfold summary_of. destruct vd; try done. by rewrite Htr. }
    by rewrite !string_app_assoc.
Qed.

Lemma _get_pending_requests_all w d ps :
  disk w = Json (JObj d) ->
  d !! "pending_requests" = Some (JArr ps) ->
  Forall listable ps ->
  calm 1 w ->
  _get_pending_requests w =
    (Ok (if bool_decide (ps = []) then msg_no_pending else listing_of ps),
     opened OpenRead w).
Proof.
  intros Hd Hps Hall Hc. unfold _get_pending_requests.
  rewrite (bind_run _ _ _ _ _ (_load_queue_run _ _ _ Hc Hd)).
  rewrite (bind_lift _ _ _ _ (py_get_ok _ _ _ _ Hps)).
  destruct ps as [|e ps]; [done|].
  rewrite bool_decide_eq_false_2 by done.
  change (truthy (JArr (e :: ps))) with true. cbn [negb].
  rewrite (bind_lift _ _ _ (length (e :: ps))) by reflexivity.
  rewrite (bind_lift _ _ _ (e :: ps)) by reflexivity.
  rewrite (pending_loop_listable _ _ _ Hall).
  unfold listing_of. by rewrite !string_app_assoc.
Qed.

(** X6.  [get_pending] lists every pending entry once, in the order of
    the list.  For a document whose pending entries all can be listed
    (a dict with an identifier, a timestamp and a status, the payload a
    dict or a value Python finds false) the answer is the "no pending
    requests" line when there is none, and otherwise the header with
    their number followed by the block of each entry in turn; the file
    is read and not written. *)
Theorem get_pending_lists_every_entry_in_order w d ps :
  disk w = Json (JObj d) ->
  d !! "pending_requests" = Some (JArr ps) ->
  Forall listable ps ->
  calm 1 w ->
  manage_queue "get_pending" JNull None w =
    (Ok (if bool_decide (ps = []) then msg_no_pending else listing_of ps),
     opened OpenRead w).
Proof.
  intros Hd Hps Hall Hc.
  apply manage_queue_returns. by apply (_get_pending_requests_all w d).
Qed.

End ListingAll.

(** ** Calls of the tool *)

Lemma string_prefix_app (p s : string) : String.prefix p (p ++ s) = true.
Proof.
  induction p as [|a p IH]; [by destruct s|].
  change (String.prefix (String a p) (String a (p ++ s)) = true). simpl.
  by destruct (Ascii.ascii_dec a a).
Qed.

(** A [bind] that answers: its first computation answered. *)
Ltac bind_ok H a w1 H1 :=
  apply bind_inv in H as [(a & w1 & H1 & H)|(? & _ & [=])].

Section Serving.
Context `{PyRuntime}.

Lemma pending_loop_extends items : forall result w s w',
  pending_loop result items w = (Ok s, w') ->
  exists t, s = (result ++ t)%string.
Proof.
  induction items as [|e rest IH]; intros result w s w' Hl; simpl in Hl.
  { unfold ret in Hl. simplify_eq. exists "". by rewrite string_app_nil_r. }
  bind_ok Hl rid w1 H1. apply lift_inv in H1 as [_ ->].
  bind_ok Hl ts w1 H2. apply lift_inv in H2 as [_ ->].
  bind_ok Hl st w1 H3. apply lift_inv in H3 as [_ ->].
  bind_ok Hl vd w1 H4. apply lift_inv in H4 as [_ ->].
  bind_ok Hl res w1 H5.
  apply IH in Hl as [t ->].
  assert (exists t0, res = (result ++ t0)%string) as [t0 ->]; last first.
  { eexists. by rewrite !string_app_assoc. }
  clear IH t. cbv beta zeta in H5.
  assert (Hline : forall vd key label fld result w s w',
             summary_line vd key label fld result w = (Ok s, w') ->
             exists t, s = (result ++ t)%string).
  { clear. intros vd key label fld result w s w' Hs. unfold summary_line in Hs.
    bind_ok Hs p w1 H1. destruct p.
    - bind_ok Hs v w2 H2. unfold ret in Hs. simplify_eq. by eexists.
    - unfold ret in Hs. simplify_eq. exists "". by rewrite string_app_nil_r. }
  destruct (truthy vd).
  - bind_ok H5 s1 wa Ha. apply Hline in Ha as [t1 ->].
    bind_ok H5 s2 w2 Hb. apply Hline in Hb as [t2 ->].
    bind_ok H5 s3 w3 Hc. apply Hline in Hc as [t3 ->].
    apply Hline in H5 as [t4 ->].
    eexists. by rewrite !string_app_assoc.
  - unfold ret in H5. simplify_eq. eexists. by rewrite !string_app_assoc.
Qed.

Lemma _get_pending_requests_answer w s w' :
  _get_pending_requests w = (Ok s, w') ->
  is_added s = false /\ is_completed s = false.
Proof.
  unfold _get_pending_requests. intros Hg.
  bind_ok Hg qd w1 H1.
  bind_ok Hg pending w2 H2.
  destruct (negb (truthy pending)).
  { unfold ret in Hg. by simplify_eq. }
  bind_ok Hg n w3 H3.
  bind_ok Hg items w4 H4.
  apply pending_loop_extends in Hg as [t ->]. done.
Qed.

Lemma _get_queue_status_answer w s w' :
  _get_queue_status w = (Ok s, w') ->
  is_added s = false /\ is_completed s = false.
Proof.
  unfold _get_queue_status. intros Hg.
  bind_ok Hg qd w1 H1.
  bind_ok Hg pending w2 H2.
  bind_ok Hg pc w3 H3.
  bind_ok Hg completed w4 H4.
  bind_ok Hg cc w5 H5.
  bind_ok Hg md w6 H6.
  bind_ok Hg lu w7 H7.
  unfold ret in Hg. by simplify_eq.
Qed.

Lemma msg_error_answer e :
  is_added (msg_error e) = false /\ is_completed (msg_error e) = false.
Proof. split; reflexivity. Qed.

Lemma msg_added_answer id n :
  is_added (msg_added id n) = true /\ is_completed (msg_added id n) = false.
Proof. split; [apply string_prefix_app|reflexivity]. Qed.

Lemma msg_completed_answer id n :
  is_added (msg_completed id n) = false /\ is_completed (msg_completed id n) = true.
Proof. split; [reflexivity|apply string_prefix_app]. Qed.

Lemma msg_not_found_answer id :
  is_added (msg_not_found id) = false /\ is_completed (msg_not_found id) = false.
Proof. split; reflexivity. Qed.

Lemma msg_unknown_action_answer action :
  is_added (msg_unknown_action action) = false /\
  is_completed (msg_unknown_action action) = false.
Proof. split; reflexivity. Qed.

End Serving.

Lemma queue_doc_pending d ps cs md ps' :
  queue_doc d ps cs md ->
  queue_doc (<["pending_requests" := JArr ps']> d) ps' cs md.
Proof.
  intros (Hps & Hcs & Hmd). split; [apply lookup_insert_eq|].
  by rewrite !lookup_insert_ne by done.
Qed.

Lemma queue_doc_completed d ps cs md cs' :
  queue_doc d ps cs md ->
  queue_doc (<["completed_requests" := JArr cs']> d) ps cs' md.
Proof.
  intros (Hps & Hcs & Hmd). split; [by rewrite lookup_insert_ne by done|].
  split; [apply lookup_insert_eq|by rewrite lookup_insert_ne by done].
Qed.

Lemma never_absent_present w : never_absent w -> present w.
Proof. intros Hn. apply Hn. Qed.

Lemma never_absent_faults w w' :
  faults w' = faults w -> never_absent w -> never_absent w'.
Proof. intros Hf Hn n. rewrite Hf. apply Hn. Qed.

Lemma never_torn_faults w w' :
  dump_faults w' = dump_faults w -> never_torn w -> never_torn w'.
Proof. intros Hf Hn n. rewrite Hf. apply Hn. Qed.

Section Sessions.
Context `{PyRuntime}.

(** What one call does to a queue document. *)
Lemma manage_queue_step action data rid w d ps cs md a w' :
  disk w = Json (JObj d) -> queue_doc d ps cs md -> present w ->
  never_torn w ->
  manage_queue action data rid w = (a, w') ->
  exists s, a = Ok s /\
    ((is_added s = true /\ is_completed s = false /\ truthy data = true /\
      exists id t d' md',
        disk w' = Json (JObj d') /\
        queue_doc d' (ps ++ [queue_item id t data]) cs md') \/
     (is_added s = false /\ is_completed s = true /\
      exists (pre : list json) r0 post t d' md',
        ps = pre ++ JObj r0 :: post /\
        disk w' = Json (JObj d') /\
        queue_doc d' (pre ++ post) (cs ++ [completed_entry t r0]) md') \/
     (is_added s = false /\ is_completed s = false /\ disk w' = disk w)).
Proof.
  intros Hd Hq Hp Ht Hm.
  apply manage_queue_inv in Hm as (r & Hr & ->). eexists. split; [done|].
  unfold dispatch in Hr.
  destruct (String.eqb action "add_to_queue").
  { apply (_add_to_queue_outcome _ _ _ _ _ Hd Hp) in Hr
      as [[Hd' [->| [e ->]]]
         |[(d0 & ps0 & md0 & [= <-] & Hps & Hmd & Hx & -> & Hd')
          |(_ & _ & n & e & Hdf & _)]];
      [| | |by rewrite Ht in Hdf].
    - right; right. by repeat split.
    - right; right. by repeat split.
    - left. destruct (msg_added_answer (request_id_at (reading w 0)) (S (length ps0))).
      do 3 (split; [done|]).
      pose proof Hq as (Hps' & Hcs & Hmd').
      rewrite Hps in Hps'. injection Hps' as ->.
      rewrite Hmd in Hmd'. injection Hmd' as ->.
      eexists _, _, _, _. split; [exact Hd'|].
      apply queue_doc_touched. eapply queue_doc_pending. exact Hq. }
  destruct (String.eqb action "get_pending").
  { pose proof (_get_pending_requests_frame _ _ _ _ Hd Hp Hr) as ->.
    right; right. destruct r as [s|e].
    - destruct (_get_pending_requests_answer _ _ _ Hr). by repeat split.
    - by repeat split. }
  destruct (String.eqb action "mark_completed").
  { apply (_mark_completed_outcome _ _ _ _ _ Hd Hp) in Hr
      as [[Hd' [->|[(id & _ & ->)|[e ->]]]]
         |[(id & d0 & pre & r0 & post & cs0 & md0 & _ & [= <-] & Hps & Hcs & Hmd & _ & -> & Hd')
          |(_ & n & e & Hdf & _)]];
      [| | | |by rewrite Ht in Hdf].
    - right; right. by repeat split.
    - right; right. by repeat split.
    - right; right. by repeat split.
    - right; left. destruct (msg_completed_answer id (length (pre ++ post))).
      do 2 (split; [done|]).
      pose proof Hq as (Hps' & Hcs' & Hmd').
      rewrite Hps' in Hps. rewrite Hcs' in Hcs. simpl in Hps, Hcs.
      injection Hps as ->. injection Hcs as <-.
      rewrite Hmd in Hmd'. injection Hmd' as ->.
      eexists pre, r0, post, _, _, _. split; [done|]. split; [exact Hd'|].
      apply queue_doc_touched. eapply queue_doc_completed.
      eapply queue_doc_pending. exact Hq. }
  destruct (String.eqb action "get_status").
  { pose proof (_get_queue_status_frame _ _ _ _ Hd Hp Hr) as ->.
    right; right. destruct r as [s|e].
    - destruct (_get_queue_status_answer _ _ _ Hr). by repeat split.
    - by repeat split. }
  unfold ret in Hr. injection Hr as <- <-. right; right. by repeat split.
Qed.

Lemma payloads_added (ps cs : list json) id t x :
  payloads ((ps ++ [queue_item id t x]) ++ cs) ≡ₚ payloads (ps ++ cs) ++ [Some x].
Proof.
  unfold payloads. rewrite !fmap_app. simpl.
  rewrite <- !app_assoc. f_equiv. apply Permutation_app_comm.
Qed.

Lemma payloads_completed (pre post cs : list json) r0 t :
  payloads ((pre ++ post) ++ cs ++ [completed_entry t r0])
  ≡ₚ payloads ((pre ++ JObj r0 :: post) ++ cs).
Proof.
  unfold payloads. rewrite !fmap_app, !fmap_cons, fmap_nil.
  rewrite (completed_entry_frame t r0 "validation_data") by done.
  change (field "validation_data" (JObj r0)) with (r0 !! "validation_data").
  rewrite <- !app_assoc. f_equiv.
  rewrite (app_assoc _ (field "validation_data" <$> cs)).
  by rewrite <- Permutation_cons_append.
Qed.

Lemma serve_conserves calls : forall w d ps cs md,
  disk w = Json (JObj d) -> queue_doc d ps cs md -> never_absent w ->
  never_torn w ->
  exists answers w' d' ps' cs' md',
    serve calls w = (Ok answers, w') /\
    length answers = length calls /\
    disk w' = Json (JObj d') /\ queue_doc d' ps' cs' md' /\
    payloads (ps' ++ cs') ≡ₚ payloads (ps ++ cs) ++ (Some <$> admitted calls answers) /\
    length cs' = (length cs + length (filter is_completed answers))%nat.
Proof.
  induction calls as [|c calls IH]; intros w d ps cs md Hd Hq Hn Ht.
  { exists [], w, d, ps, cs, md. simpl. rewrite app_nil_r.
    do 5 (split; [done|]). lia. }
  simpl.
  destruct (manage_queue (call_action c) (call_data c) (call_id c) w)
    as [a w1] eqn:Hm.
  pose proof (steady_manage_queue _ _ _ _ _ _ Hm) as [Hf Hdf].
  pose proof (never_absent_faults _ _ Hf Hn) as Hn1.
  pose proof (never_torn_faults _ _ Hdf Ht) as Ht1.
  apply (manage_queue_step _ _ _ _ _ _ _ _ _ _ Hd Hq (never_absent_present _ Hn) Ht)
    in Hm as Hstep.
  destruct Hstep as (s & -> & Hstep).
  rewrite (bind_run _ _ _ _ _ Hm).
  destruct Hstep as [(Ha & Hc & Hx & id & t & d1 & md1 & Hd1 & Hq1)
                    |[(Ha & Hc & pre & r0 & post & t & d1 & md1 & -> & Hd1 & Hq1)
                     |(Ha & Hc & Hd1)]].
  - destruct (IH _ _ _ _ _ Hd1 Hq1 Hn1 Ht1)
      as (answers & w' & d' & ps' & cs' & md' & Hs & Hlen & Hd' & Hq' & Hperm & Hcs).
    exists (s :: answers), w', d', ps', cs', md'.
    rewrite (bind_run _ _ _ _ _ Hs). simpl. rewrite Ha.
    rewrite filter_cons_False by (rewrite Hc; intros []).
    split; [done|]. split; [by rewrite Hlen|]. split; [done|]. split; [done|].
    split; [|done].
    rewrite Hperm, payloads_added, fmap_cons. by rewrite <- app_assoc.
  - destruct (IH _ _ _ _ _ Hd1 Hq1 Hn1 Ht1)
      as (answers & w' & d' & ps' & cs' & md' & Hs & Hlen & Hd' & Hq' & Hperm & Hcs).
    exists (s :: answers), w', d', ps', cs', md'.
    rewrite (bind_run _ _ _ _ _ Hs). simpl. rewrite Ha.
    rewrite filter_cons_True by (by rewrite Hc).
    split; [done|]. split; [by rewrite Hlen|]. split; [done|]. split; [done|].
    split.
    + by rewrite Hperm, payloads_completed.
    + rewrite Hcs, length_app. simpl. lia.
  - rewrite Hd in Hd1.
    destruct (IH _ _ _ _ _ Hd1 Hq Hn1 Ht1)
      as (answers & w' & d' & ps' & cs' & md' & Hs & Hlen & Hd' & Hq' & Hperm & Hcs).
    exists (s :: answers), w', d', ps', cs', md'.
    rewrite (bind_run _ _ _ _ _ Hs). simpl. rewrite Ha.
    rewrite filter_cons_False by (rewrite Hc; intros []).
    split; [done|]. split; [by rewrite Hlen|]. by do 3 (split; [done|]).
Qed.

(** X12.  Nothing is lost and nothing is invented, as long as no write
    breaks off.  From the initial document, whatever the calls of
    [manage_queue] made one after the other (any action names, any
    payloads, any identifiers) and whatever failures of [open] short of
    reporting the file absent, when no dump into the file breaks off,
    every call is answered with a string, the file holds a queue
    document at the end, the payloads of its pending and completed
    entries together are, up to their order, exactly the payloads of
    the calls answered with "added to queue successfully", and the
    completed entries are as many as the answers "marked as
    completed". *)
Theorem served_payloads_are_conserved calls w c u :
  disk w = Json (initial_data c u) ->
  never_absent w ->
  never_torn w ->
  exists answers w' d ps cs md,
    serve calls w = (Ok answers, w') /\
    length answers = length calls /\
    disk w' = Json (JObj d) /\ queue_doc d ps cs md /\
    payloads (ps ++ cs) ≡ₚ Some <$> admitted calls answers /\
    length cs = length (filter is_completed answers).
Proof.
  intros Hd Hn Ht.
  destruct (initial_data_queue_doc c u) as (d0 & md0 & Hi & Hq0).
  rewrite Hi in Hd.
  destruct (serve_conserves calls _ _ _ _ _ Hd Hq0 Hn Ht)
    as (answers & w' & d & ps & cs & md & Hs & Hlen & Hd' & Hq & Hperm & Hcs).
  exists answers, w', d, ps, cs, md. by repeat (split; [done|]).
Qed.

Lemma listable_queue_item id t x :
  dict_or_none x -> truthy x = true -> listable (queue_item id t x).
Proof.
  intros Hx Ht. unfold listable. simpl.
  do 3 (split; [by eexists|]).
  destruct x; try done.
Qed.

Lemma serve_listable calls : forall w d ps cs md,
  disk w = Json (JObj d) -> queue_doc d ps cs md -> never_absent w ->
  never_torn w ->
  Forall (fun c => dict_or_none (call_data c)) calls ->
  Forall listable ps ->
  exists answers w' d' ps' cs' md',
    serve calls w = (Ok answers, w') /\
    disk w' = Json (JObj d') /\ queue_doc d' ps' cs' md' /\
    Forall listable ps'.
Proof.
  induction calls as [|c calls IH]; intros w d ps cs md Hd Hq Hn Ht Hcalls Hps.
  { by exists [], w, d, ps, cs, md. }
  apply Forall_cons in Hcalls as [Hc Hcalls].
  simpl.
  destruct (manage_queue (call_action c) (call_data c) (call_id c) w)
    as [a w1] eqn:Hm.
  pose proof (steady_manage_queue _ _ _ _ _ _ Hm) as [Hf Hdf].
  pose proof (never_absent_faults _ _ Hf Hn) as Hn1.
  pose proof (never_torn_faults _ _ Hdf Ht) as Ht1.
  apply (manage_queue_step _ _ _ _ _ _ _ _ _ _ Hd Hq (never_absent_present _ Hn) Ht)
    in Hm as Hstep.
  destruct Hstep as (s & -> & Hstep).
  rewrite (bind_run _ _ _ _ _ Hm).
  assert (exists d1 ps1 cs1 md1,
             disk w1 = Json (JObj d1) /\ queue_doc d1 ps1 cs1 md1 /\
             Forall listable ps1) as (d1 & ps1 & cs1 & md1 & Hd1 & Hq1 & Hps1).
  { destruct Hstep as [(_ & _ & Hx & rid & t & d1 & md1 & Hd1 & Hq1)
                      |[(_ & _ & pre & r0 & post & t & d1 & md1 & -> & Hd1 & Hq1)
                       |(_ & _ & Hd1)]].
    - eexists _, _, _, _. split; [exact Hd1|]. split; [exact Hq1|].
      apply Forall_app. split; [done|].
      apply Forall_singleton. by apply listable_queue_item.
    - eexists _, _, _, _. split; [exact Hd1|]. split; [exact Hq1|].
      apply Forall_app in Hps as [Hpre Hpost].
      apply Forall_cons in Hpost as [_ Hpost].
      apply Forall_app. by split.
    - exists d, ps, cs, md. by rewrite Hd1. }
  destruct (IH _ _ _ _ _ Hd1 Hq1 Hn1 Ht1 Hcalls Hps1)
    as (answers & w' & d' & ps' & cs' & md' & Hs & Hd' & Hq' & Hps').
  exists (s :: answers), w', d', ps', cs', md'.
  by rewrite (bind_run _ _ _ _ _ Hs).
Qed.

(** X13.  The store can always read back what it wrote.  From the
    initial document, after any sequence of calls of [manage_queue]
    whose [request_data] is a dict or [None], as the annotation of the
    parameter says, whatever the action names, the identifiers and the
    failures of [open] in between (short of reporting the file absent),
    when no dump into the file breaks off, the file holds a queue
    document all of whose pending entries can be listed: as soon as the
    file opens, [get_pending] answers with the listing of exactly these
    entries, in their order, and [get_status] with their number and the
    number of completed entries, and neither answers with an error. *)
Theorem served_queue_stays_listable calls w c u :
  disk w = Json (initial_data c u) ->
  never_absent w ->
  never_torn w ->
  Forall (fun c => dict_or_none (call_data c)) calls ->
  exists answers w' d ps cs md,
    serve calls w = (Ok answers, w') /\
    disk w' = Json (JObj d) /\
    queue_doc d ps cs md /\
    Forall listable ps /\
    (calm 1 w' ->
     manage_queue "get_pending" JNull None w' =
       (Ok (if bool_decide (ps = []) then msg_no_pending else listing_of ps),
        opened OpenRead w') /\
     manage_queue "get_status" JNull None w' =
       (Ok (status_text (length ps) (length cs)
              (py_str (default (JStr "N/A") (md !! "last_updated")))),
        opened OpenRead w')).
Proof.
  intros Hd Hn Ht Hcalls.
  destruct (initial_data_queue_doc c u) as (d0 & md0 & Hi & Hq0).
  rewrite Hi in Hd.
  destruct (serve_listable calls _ _ _ _ _ Hd Hq0 Hn Ht Hcalls (Forall_nil_2 _))
    as (answers & w' & d & ps & cs & md & Hs & Hd' & Hq & Hps).
  exists answers, w', d, ps, cs, md.
  split; [done|]. split; [done|]. split; [done|]. split; [done|].
  intros Hc. split; apply manage_queue_returns.
  - exact (_get_pending_requests_all _ _ _ Hd' (proj1 Hq) Hps Hc).
  - exact (_get_queue_status_run _ _ _ _ _ 0 Hd' Hq Hc).
Qed.

Lemma serve_orders calls : forall w d ps cs md,
  disk w = Json (JObj d) -> queue_doc d ps cs md -> never_absent w ->
  never_torn w ->
  exists answers w' d' ps' cs' md',
    serve calls w = (Ok answers, w') /\
    disk w' = Json (JObj d') /\ queue_doc d' ps' cs' md' /\
    payloads ps' `sublist_of` payloads ps ++ (Some <$> admitted calls answers).
Proof.
  induction calls as [|c calls IH]; intros w d ps cs md Hd Hq Hn Ht.
  { exists [], w, d, ps, cs, md. simpl. by rewrite app_nil_r. }
  simpl.
  destruct (manage_queue (call_action c) (call_data c) (call_id c) w)
    as [a w1] eqn:Hm.
  pose proof (steady_manage_queue _ _ _ _ _ _ Hm) as [Hf Hdf].
  pose proof (never_absent_faults _ _ Hf Hn) as Hn1.
  pose proof (never_torn_faults _ _ Hdf Ht) as Ht1.
  apply (manage_queue_step _ _ _ _ _ _ _ _ _ _ Hd Hq (never_absent_present _ Hn) Ht)
    in Hm as Hstep.
  destruct Hstep as (s & -> & Hstep).
  rewrite (bind_run _ _ _ _ _ Hm).
  destruct Hstep as [(Ha & _ & Hx & rid & t & d1 & md1 & Hd1 & Hq1)
                    |[(Ha & _ & pre & r0 & post & t & d1 & md1 & -> & Hd1 & Hq1)
                     |(Ha & _ & Hd1)]].
  - destruct (IH _ _ _ _ _ Hd1 Hq1 Hn1 Ht1)
      as (answers & w' & d' & ps' & cs' & md' & Hs & Hd' & Hq' & Hsub).
    exists (s :: answers), w', d', ps', cs', md'.
    rewrite (bind_run _ _ _ _ _ Hs). simpl. rewrite Ha.
    do 3 (split; [done|]).
    unfold payloads in Hsub. rewrite fmap_app, <- app_assoc in Hsub.
    exact Hsub.
  - destruct (IH _ _ _ _ _ Hd1 Hq1 Hn1 Ht1)
      as (answers & w' & d' & ps' & cs' & md' & Hs & Hd' & Hq' & Hsub).
    exists (s :: answers), w', d', ps', cs', md'.
    rewrite (bind_run _ _ _ _ _ Hs). simpl. rewrite Ha.
    do 3 (split; [done|]).
    etrans; [exact Hsub|].
    apply sublist_app; [|done].
    unfold payloads. rewrite !fmap_app, fmap_cons.
    apply sublist_app; [done|]. by apply sublist_cons.
  - rewrite Hd in Hd1.
    destruct (IH _ _ _ _ _ Hd1 Hq Hn1 Ht1)
      as (answers & w' & d' & ps' & cs' & md' & Hs & Hd' & Hq' & Hsub).
    exists (s :: answers), w', d', ps', cs', md'.
    rewrite (bind_run _ _ _ _ _ Hs). simpl. rewrite Ha.
    by do 3 (split; [done|]).
Qed.

(** X14.  The pending list keeps the order of admission.  From the
    initial document, whatever the calls of [manage_queue] and whatever
    failures of [open] short of reporting the file absent, when no dump
    into the file breaks off, the payloads of the pending entries, read
    from the head of the list, are a subsequence of the payloads of the
    admitting calls in the order in which these calls were made. *)
Theorem served_pending_keeps_admission_order calls w c u :
  disk w = Json (initial_data c u) ->
  never_absent w ->
  never_torn w ->
  exists answers w' d ps cs md,
    serve calls w = (Ok answers, w') /\
    disk w' = Json (JObj d) /\ queue_doc d ps cs md /\
    payloads ps `sublist_of` Some <$> admitted calls answers.
Proof.
  intros Hd Hn Ht.
  destruct (initial_data_queue_doc c u) as (d0 & md0 & Hi & Hq0).
  rewrite Hi in Hd.
  exact (serve_orders calls _ _ _ _ _ Hd Hq0 Hn Ht).
Qed.

End Sessions.

(** ** Edges *)

(** [_add_to_queue] past a [_load_queue] that answered with a queue
    document. *)
Lemma _add_to_queue_loaded w w1 d ps md x :
  truthy x = true ->
  _load_queue w = (Ok (JObj d), w1) ->
  d !! "pending_requests" = Some (JArr ps) ->
  d !! "metadata" = Some (JObj md) ->
  calm 1 w1 ->
  let rid := request_id_at (reading w1 0) in
  let d' := <["metadata" := touched (reading w1 2) md]>
              (<["pending_requests" :=
                   JArr (ps ++ [queue_item rid (reading w1 1) x])]> d) in
  _add_to_queue x w =
    (Ok (msg_added rid (S (length ps))),
     stored (JObj d') (opened OpenWrite (tick (tick (tick w1))))).
Proof.
  intros Hx Hl Hps Hmd Hc rid d'. unfold _add_to_queue. rewrite Hx. cbn [negb].
  rewrite (bind_run _ _ _ _ _ Hl).
  unfold _generate_request_id.
  rewrite (bind_run _ _ _ rid (tick w1)) by reflexivity.
  rewrite bind_now.
  rewrite (bind_lift _ _ _ _ (py_getitem_ok _ _ _ Hps)).
  rewrite (bind_lift _ _ _
             (JArr (ps ++ [queue_item rid (reading w1 1) x]))) by reflexivity.
  rewrite (bind_lift _ _ _
             (JObj (<["pending_requests" :=
                        JArr (ps ++ [queue_item rid (reading w1 1) x])]> d)))
    by reflexivity.
  erewrite bind_run; cycle 1.
  { eapply (_save_queue_run _ _ md 0).
    - by do 2 apply calm_tick.
    - rewrite lookup_insert_ne by done. exact Hmd. }
  cbv zeta.
  erewrite bind_lift; cycle 1.
  { apply py_getitem_ok. rewrite lookup_insert_ne by done. apply lookup_insert_eq. }
  rewrite (bind_lift _ _ _ (S (length ps))); cycle 1.
  { unfold py_len. rewrite length_app. simpl. f_equal. lia. }
  reflexivity.
Qed.

Section Edges.
Context `{PyRuntime}.

(** X7.  A store that was just initialised is empty: [get_pending]
    answers "no pending requests", [mark_completed] answers "not found"
    for every identifier that is not empty, [get_status] reports no
    pending and no completed request and the [last_updated] the
    initialisation wrote; each of them opens the file once, for
    reading. *)
Theorem fresh_store_is_empty w c u rid :
  disk w = Json (initial_data c u) ->
  calm 1 w ->
  rid <> "" ->
  manage_queue "get_pending" JNull None w
    = (Ok msg_no_pending, opened OpenRead w) /\
  manage_queue "mark_completed" JNull (Some rid) w
    = (Ok (msg_not_found rid), opened OpenRead w) /\
  manage_queue "get_status" JNull None w
    = (Ok (status_text 0 0 (isoformat u)), opened OpenRead w).
Proof.
  intros Hd Hc Hrid.
  set (md := ({[ "created_at" := JStr (isoformat c);
                 "last_updated" := JStr (isoformat u) ]} : gmap string json)).
  set (d := ({[ "pending_requests" := JArr [];
                "completed_requests" := JArr [];
                "metadata" := JObj md ]} : gmap string json)).
  change (initial_data c u) with (JObj d) in Hd.
  assert (Hq : queue_doc d [] [] md) by (by split).
  assert (Hmd : md !! "last_updated" = Some (JStr (isoformat u))) by reflexivity.
  split; [|split]; apply manage_queue_returns.
  - exact (_get_pending_requests_all _ _ [] Hd (proj1 Hq) (Forall_nil_2 _) Hc).
  - exact (_mark_completed_not_found _ _ [] _ 0 Hrid Hd (proj1 Hq)
             (Forall_nil_2 _) Hc).
  - change (dispatch "get_status" JNull None) with _get_queue_status.
    rewrite (_get_queue_status_run _ _ _ _ _ 0 Hd Hq Hc). by rewrite Hmd.
Qed.

(** X8.  The constructor creates the queue file exactly when there is
    none.  A file that exists is left alone, whatever it holds, not
    even opened, and the clock is not read.  When there is none and it
    can be opened for writing, the skeleton is written with the clock's
    next two readings as [created_at] and [last_updated].  When that
    [open] fails, the exception leaves the constructor and there is
    still no file.  Constructing the tool once more after a
    construction that succeeded changes nothing. *)
Theorem init_creates_the_file_only_when_absent w :
  (disk w <> Missing -> __init__ w = (Ok tt, w)) /\
  (disk w = Missing -> calm 1 w ->
   exists w', __init__ w = (Ok tt, w') /\
     disk w' = Json (initial_data (reading w 0) (reading w 1)) /\
     log w' = log w ++ [OpenWrite]) /\
  (disk w = Missing ->
   forall code, faults w (length (log w)) = Some code ->
   exists w', __init__ w = (Raise (OSError code), w') /\ disk w' = Missing) /\
  (forall w', __init__ w = (Ok tt, w') -> __init__ w' = (Ok tt, w')).
Proof.
  split; [|split; [|split]].
  - intros Hd. unfold __init__. by destruct (disk w).
  - intros Hd Hc. unfold __init__. rewrite Hd.
    rewrite (_initialize_queue_run _ 0 Hc). by eexists.
  - intros Hd code Hf. unfold __init__. rewrite Hd.
    unfold _initialize_queue. rewrite !bind_now.
    unfold write_json, bind, open_file. simpl. rewrite Hf.
    by eexists.
  - intros w' Hi. unfold __init__ in *.
    destruct (disk w) eqn:Hd;
      [|unfold ret in Hi; injection Hi as <-; by rewrite Hd ..].
    apply _initialize_queue_disk in Hi as Hd'.
    destruct Hd' as [(c & u & ->)|[Hd'| ->]]; [done| |done].
    exfalso. revert Hi. unfold _initialize_queue. rewrite !bind_now.
    unfold write_json, bind, open_file. simpl.
    destruct (faults w (length (log w))); [done|]. simpl.
    destruct (dump_faults w _); [done|].
    intros [= <-]. by rewrite Hd in Hd'.
Qed.

(** X9.  An admission on a queue file that is missing, or whose text
    is not JSON, starts a new document when the file opens and the two
    writes go through: the file it found is replaced by the skeleton
    and the new entry is the only pending one.  The clock is read five
    times, in this order: [created_at], the skeleton's [last_updated],
    the identifier, the entry's [timestamp], the final [last_updated];
    the file is opened four times: read, write, read, write.  A file
    that [json.load] refuses with another exception (bytes that are not
    text, a number too long, nesting too deep) is not replaced: the
    admission answers with the error string of that exception after
    one [open], and the file stays as it is. *)
Theorem admit_replaces_a_file_that_is_not_json x w :
  truthy x = true ->
  (disk w = Missing \/ disk w = Garbled ->
   calm 4 w ->
   let rid := request_id_at (reading w 2) in
   exists w' d md,
     manage_queue "add_to_queue" x None w = (Ok (msg_added rid 1), w') /\
     disk w' = Json (JObj d) /\
     queue_doc d [queue_item rid (reading w 3) x] [] md /\
     md !! "created_at" = Some (JStr (isoformat (reading w 0))) /\
     md !! "last_updated" = Some (JStr (isoformat (reading w 4))) /\
     log w' = log w ++ [OpenRead; OpenWrite; OpenRead; OpenWrite]) /\
  (forall why,
     disk w = Unloadable why -> faults w (length (log w)) = None ->
     manage_queue "add_to_queue" x None w
       = (Ok ("Error in PurchaseQueueTool: " ++ exn_str (load_exn why))%string,
          opened OpenRead w)).
Proof.
  intros Hx. split; last first.
  { intros why Hd Hf. apply load_failure_surfaces_add; [done|].
    by apply _load_queue_refused. }
  intros Hd Hc rid.
  pose proof (_load_queue_recovers w Hd (calm_le 4 3 w ltac:(lia) Hc)) as Hl.
  cbv zeta in Hl.
  set (w1 := opened OpenRead _) in Hl.
  assert (Hc1 : calm 1 w1).
  { intros i Hi. unfold w1. simpl. rewrite !length_app. simpl.
    replace (length (log w) + 1 + 1 + 1 + i)%nat
      with (length (log w) + (3 + i))%nat by lia.
    apply Hc. lia. }
  pose proof (_add_to_queue_loaded w w1 _ [] _ x Hx Hl eq_refl eq_refl Hc1) as Ha.
  cbv zeta in Ha.
  eexists _, _, _. split; [apply manage_queue_returns; exact Ha|].
  split; [reflexivity|]. split.
  { split; [|split].
    - rewrite lookup_insert_ne by done. apply lookup_insert_eq.
    - by rewrite !lookup_insert_ne by done.
    - apply lookup_insert_eq. }
  split; [by rewrite lookup_insert_ne by done|].
  split; [apply lookup_insert_eq|].
  simpl. by rewrite <- !app_assoc.
Qed.

(** X10.  Completing what was just admitted.  For a payload Python
    finds true and a queue document none of whose pending entries
    carries the identifier about to be made, when the file opens four
    times and the two writes go through, [add_to_queue] followed by
    [mark_completed] with the identifier it returned leaves the pending
    list as it was and appends one entry to the completed ones: it
    carries that identifier, the payload as it was given, the
    [timestamp] of its admission, status "completed" and the
    [completed_at] of the completion. *)
Theorem admit_then_complete_round_trip x w d ps cs md :
  truthy x = true ->
  disk w = Json (JObj d) ->
  queue_doc d ps cs md ->
  Forall (other_request (request_id_at (reading w 0))) ps ->
  calm 4 w ->
  let rid := request_id_at (reading w 0) in
  exists w1 w2 d2 e md2,
    manage_queue "add_to_queue" x None w
      = (Ok (msg_added rid (S (length ps))), w1) /\
    manage_queue "mark_completed" JNull (Some rid) w1
      = (Ok (msg_completed rid (length ps)), w2) /\
    disk w2 = Json (JObj d2) /\
    queue_doc d2 ps (cs ++ [e]) md2 /\
    field "request_id" e = Some (JStr rid) /\
    field "validation_data" e = Some x /\
    field "timestamp" e = Some (JStr (isoformat (reading w 1))) /\
    field "status" e = Some (JStr "completed") /\
    field "completed_at" e = Some (JStr (isoformat (reading w 3))).
Proof.
  intros Hx Hd Hq Hother Hc rid.
  destruct (_add_to_queue_next w d ps cs md x 2 Hx Hd Hq Hc)
    as (w1 & d1 & Ha & Hd1 & Hq1 & Hc1 & Hr1).
  fold rid in Ha, Hq1.
  set (r := ({[ "request_id" := JStr rid;
                "timestamp" := JStr (isoformat (reading w 1));
                "status" := JStr "pending";
                "validation_data" := x;
                "created_by" := JStr "purchase_validation_agent" ]}
             : gmap string json)).
  change (queue_item rid (reading w 1) x) with (JObj r) in Hq1.
  destruct (_mark_completed_next w1 d1 ps r [] cs _ rid 0
              (request_id_at_nonempty _) Hd1 Hq1 Hother eq_refl Hc1)
    as (w2 & d2 & Hm & Hd2 & Hq2 & _ & _ & _).
  rewrite app_nil_r in Hm, Hq2.
  eexists w1, w2, d2, (completed_entry (reading w1 0) r), _.
  split; [by apply manage_queue_returns|].
  split; [by apply manage_queue_returns|].
  split; [done|]. split; [exact Hq2|].
  rewrite !completed_entry_frame by done.
  split; [done|]. split; [done|]. split; [done|].
  split; [apply completed_entry_status|].
  rewrite completed_entry_completed_at. by rewrite Hr1.
Qed.

(** X11.  A JSON object without the three keys.  The actions that read
    with [.get] treat it as an empty queue: [get_pending] answers "no
    pending requests", [mark_completed] "not found", [get_status] zero
    and zero with "N/A" as [last_updated].  [add_to_queue], which
    subscripts, answers with the error string of [KeyError] for
    [pending_requests] after it read the clock twice, and writes
    nothing. *)
Theorem document_without_the_keys w d x rid :
  disk w = Json (JObj d) ->
  d !! "pending_requests" = None ->
  d !! "completed_requests" = None ->
  d !! "metadata" = None ->
  calm 1 w ->
  truthy x = true ->
  rid <> "" ->
  manage_queue "get_pending" JNull None w
    = (Ok msg_no_pending, opened OpenRead w) /\
  manage_queue "mark_completed" JNull (Some rid) w
    = (Ok (msg_not_found rid), opened OpenRead w) /\
  manage_queue "get_status" JNull None w
    = (Ok (status_text 0 0 "N/A"), opened OpenRead w) /\
  manage_queue "add_to_queue" x None w
    = (Ok (msg_error (KeyError "pending_requests")),
       tick (tick (opened OpenRead w))).
Proof.
  intros Hd Hps Hcs Hmd Hc Hx Hrid.
  pose proof (_load_queue_run _ _ 0 Hc Hd) as Hl.
  split; [|split; [|split]].
  - apply manage_queue_returns.
    change (dispatch "get_pending" JNull None) with _get_pending_requests.
    unfold _get_pending_requests. rewrite (bind_run _ _ _ _ _ Hl).
    unfold py_get. by rewrite Hps.
  - apply manage_queue_returns.
    change (dispatch "mark_completed" JNull (Some rid)) with (_mark_completed (Some rid)).
    unfold _mark_completed. destruct rid as [|a rid]; [done|].
    rewrite (bind_run _ _ _ _ _ Hl).
    unfold py_get. by rewrite Hps, Hcs.
  - apply manage_queue_returns.
    change (dispatch "get_status" JNull None) with _get_queue_status.
    unfold _get_queue_status. rewrite (bind_run _ _ _ _ _ Hl).
    unfold py_get. by rewrite Hps, Hcs, Hmd.
  - apply manage_queue_catches.
    change (dispatch "add_to_queue" x None) with (_add_to_queue x).
    unfold _add_to_queue. rewrite Hx. cbn [negb].
    rewrite (bind_run _ _ _ _ _ Hl).
    unfold _generate_request_id.
    rewrite (bind_run _ _ _ (request_id_at (reading w 0))
               (tick (opened OpenRead w))) by reflexivity.
    rewrite bind_now. unfold py_getitem. by rewrite Hps.
Qed.

End Edges.

Lemma truthy_false_value v : truthy v = false <-> false_value v.
Proof.
  unfold false_value. split.
  - destruct v as [|b|z|f|s|l|d]; simpl; intros Hv.
    + by left.
    + destruct b; [done|]. by right; left.
    + apply negb_false_iff, Z.eqb_eq in Hv as ->. by right; right; left.
    + destruct f as [m e| |]; try done. simpl in Hv.
      apply negb_false_iff, Z.eqb_eq in Hv as ->.
      right; right; right; left. by eexists.
    + apply negb_false_iff, String.eqb_eq in Hv as ->.
      by right; right; right; right; left.
    + apply negb_false_iff, bool_decide_eq_true in Hv.
      apply nil_length_inv in Hv as ->.
      by right; right; right; right; right; left.
    + apply negb_false_iff, bool_decide_eq_true in Hv.
      apply map_size_empty_iff in Hv as ->.
      by right; right; right; right; right; right.
  - intros [->|[->|[->|[[e ->]|[->|[->| ->]]]]]]; try done.
Qed.

Section Validation.
Context `{PyRuntime}.

Lemma pending_loop_app (l1 l2 : list json) : forall result w,
  Forall listable l1 ->
  pending_loop result (l1 ++ l2) w =
  pending_loop (result ++ String.concat "" (block_of <$> l1))%string l2 w.
Proof.
  induction l1 as [|e l1 IH]; intros result w Hall.
  { simpl. by rewrite string_app_nil_r. }
  apply Forall_cons in Hall as [(Hid & Hts & Hst & Hvd) Hall].
  destruct e as [| | | | | |r]; try by destruct Hid.
  simpl in Hid, Hts, Hst, Hvd.
  destruct Hid as [rid Hid], Hts as [ts Hts], Hst as [st Hst].
  rewrite <- app_comm_cons. cbn [pending_loop].
  rewrite (bind_lift _ _ _ _ (py_getitem_ok _ _ _ Hid)).
  rewrite (bind_lift _ _ _ _ (py_getitem_ok _ _ _ Hts)).
  rewrite (bind_lift _ _ _ _ (py_getitem_ok _ _ _ Hst)).
  rewrite (bind_lift _ _ _ (default (JObj ∅) (r !! "validation_data")))
    by reflexivity.
  rewrite fmap_cons, string_concat_cons. unfold block_of at 1. simpl field.
  rewrite Hid, Hts, Hst. cbn [default].
  set (vd := default (JObj ∅) (r !! "validation_data")) in *.
  destruct (truthy vd) eqn:Htr.
  - destruct vd as [| | | | | |x]; try (simpl in Htr; congruence).
    cbv zeta. erewrite bind_run; [|apply summary_lines].
    rewrite (IH _ _ Hall). unfold summary_of. rewrite Htr.
    by rewrite !string_app_assoc.
  - rewrite (bind_run (ret _) _ _ _ _ eq_refl).
    rewrite (IH _ _ Hall).
    assert (summary_of vd = "") as ->.
    { unfold summary_of. destruct vd; try done. by rewrite Htr. }
    by rewrite !string_app_assoc.
Qed.

Lemma pending_loop_scalar id t x result rest w :
  scalar x -> truthy x = true ->
  pending_loop result (queue_item id t x :: rest) w
    = (Raise (TypeError NotContainer (type_of x)), w).
Proof.
  intros Hs Hx. cbn [pending_loop].
  rewrite (bind_lift _ _ _ (JStr id)) by reflexivity.
  rewrite (bind_lift _ _ _ (JStr (isoformat t))) by reflexivity.
  rewrite (bind_lift _ _ _ (JStr "pending")) by reflexivity.
  rewrite (bind_lift _ _ _ x) by reflexivity.
  rewrite Hx. by destruct x.
Qed.

(** X15.  What [manage_queue] rejects as empty input.  The method does
    not check its arguments against their annotations, so this is about
    every value it can be called with.  [add_to_queue] answers "No
    request data provided", and touches neither the file nor the clock,
    exactly for the request data Python finds false: [None] (the
    default of the parameter), [False], a zero, the empty string, list
    or dict.  Every other value, a dict or not, is admitted as the
    payload of a new pending entry of a queue document, when the file
    opens twice and the write goes through.  [mark_completed] answers
    "No request ID provided", again without touching anything, when the
    identifier is [None] or the empty string. *)
Theorem only_false_values_are_rejected x id :
  (forall w,
     false_value x ->
     manage_queue "add_to_queue" x id w = (Ok msg_no_request_data, w)) /\
  (forall w,
     id = None \/ id = Some "" ->
     manage_queue "mark_completed" x id w = (Ok msg_no_request_id, w)) /\
  (forall w d ps cs md,
     ~ false_value x ->
     disk w = Json (JObj d) -> queue_doc d ps cs md -> calm 2 w ->
     exists w' d',
       manage_queue "add_to_queue" x id w
         = (Ok (msg_added (request_id_at (reading w 0)) (S (length ps))), w') /\
       disk w' = Json (JObj d') /\
       d' !! "pending_requests"
         = Some (JArr (ps ++ [queue_item (request_id_at (reading w 0))
                                (reading w 1) x]))).
Proof.
  split; [|split].
  - intros w Hx%truthy_false_value.
    apply manage_queue_returns.
    change (dispatch "add_to_queue" x id) with (_add_to_queue x).
    unfold _add_to_queue. by rewrite Hx.
  - intros w [->| ->]; by apply manage_queue_returns.
  - intros w d ps cs md Hx Hd Hq Hc.
    assert (Ht : truthy x = true).
    { destruct (truthy x) eqn:E; [done|]. by apply truthy_false_value in E. }
    destruct (_add_to_queue_next w d ps cs md x 0 Ht Hd Hq Hc)
      as (w' & d' & Ha & Hd' & Hq' & _).
    exists w', d'. split; [by apply manage_queue_returns|].
    split; [done|apply Hq'].
Qed.

(** X16.  When [manage_queue] is called with a payload that is a
    number or [True], which its annotation does not prevent, the
    payload is admitted (the file opens, the write goes through), and
    the listing that follows fails: [get_pending] reaches the new
    entry, asks whether ["budget_status"] is [in] its payload, and
    answers with the error string of the [TypeError] this raises.  The
    failing listing does not change the file, and [get_status] still
    counts the entry. *)
Theorem scalar_payload_breaks_the_listing x w d ps cs md :
  scalar x -> truthy x = true ->
  disk w = Json (JObj d) -> queue_doc d ps cs md ->
  Forall listable ps ->
  calm 4 w ->
  exists w1 w2 w3,
    manage_queue "add_to_queue" x None w
      = (Ok (msg_added (request_id_at (reading w 0)) (S (length ps))), w1) /\
    manage_queue "get_pending" JNull None w1
      = (Ok (msg_error (TypeError NotContainer (type_of x))), w2) /\
    disk w2 = disk w1 /\
    manage_queue "get_status" JNull None w2
      = (Ok (status_text (S (length ps)) (length cs)
               (isoformat (reading w 2))), w3).
Proof.
  intros Hs Hx Hd Hq Hall Hc.
  destruct (_add_to_queue_next w d ps cs md x 2 Hx Hd Hq Hc)
    as (w1 & d1 & Ha & Hd1 & Hq1 & Hc1 & _).
  exists w1, (opened OpenRead w1), (opened OpenRead (opened OpenRead w1)).
  split; [by apply manage_queue_returns|].
  split; [|split; [done|]].
  - apply manage_queue_catches.
    change (dispatch "get_pending" JNull None) with _get_pending_requests.
    unfold _get_pending_requests.
    rewrite (bind_run _ _ _ _ _ (_load_queue_run _ _ _ Hc1 Hd1)).
    rewrite (bind_lift _ _ _ _ (py_get_ok _ _ _ _ (proj1 Hq1))).
    assert (truthy (JArr (ps ++ [queue_item (request_id_at (reading w 0))
                                   (reading w 1) x])) = true) as ->.
    { simpl. rewrite length_app, Nat.add_1_r. done. }
    cbn [negb].
    erewrite bind_lift by reflexivity.
    erewrite bind_lift by reflexivity.
    rewrite (pending_loop_app _ _ _ _ Hall).
    by apply pending_loop_scalar.
  - apply manage_queue_returns.
    change (dispatch "get_status" JNull None) with _get_queue_status.
    rewrite (_get_queue_status_run (opened OpenRead w1) d1 _ _ _ 0 Hd1 Hq1
               (calm_S _ _ _ Hc1)).
    rewrite length_app, Nat.add_1_r, lookup_insert_eq. done.
Qed.

End Validation.

(** ** Examples *)

(** The formats of the two timestamps. *)
Example strftime_example :
  strftime (DateTime 2025 1 2 3 4 5 678) = "20250102_030405".
Proof. vm_compute. reflexivity. Qed.

Example isoformat_example :
  isoformat (DateTime 2025 1 2 3 4 5 678) = "2025-01-02T03:04:05.000678" /\
  isoformat (DateTime 2025 1 2 3 4 5 0) = "2025-01-02T03:04:05".
Proof. split; vm_compute; reflexivity. Qed.

(** A [str] is counted and visited by character, not by byte. *)
Example code_points_example : code_points "a✅b" = ["a"; "✅"; "b"].
Proof. vm_compute. reflexivity. Qed.

(** The self-test at the end of the source file, on a machine with no
    queue file yet: construct the tool, add the test request, list the
    pending requests, ask for the status. *)
Example self_test :
  fst ((__init__ ;;
        added <- @manage_queue sample_runtime "add_to_queue"
                   (JObj test_request) None ;;
        pending <- @manage_queue sample_runtime "get_pending" JNull None ;;
        status <- @manage_queue sample_runtime "get_status" JNull None ;;
        ret [added; pending; status]) (blank_world slow_clock))
  = Ok ["✅ Purchase request PQ_20250102_120002 added to queue successfully. Total pending requests: 1";
        "📋 Found 1 pending purchase request(s):

🔹 Request ID: PQ_20250102_120002
   Timestamp: 2025-01-02T12:00:03
   Status: pending
   Validation Summary:
     - Budget Status: approved
     - Total Cost: $1000.0
     - Suppliers: 1
     - Critical Items: 2

";
        "📊 Purchase Queue Status:
   Pending Requests: 1
   Completed Requests: 0
   Last Updated: 2025-01-02T12:00:04
"].
Proof. vm_compute. reflexivity. Qed.

Lemma calm_no_faults n w :
  faults w = no_faults -> dump_faults w = no_dump_faults -> calm n w.
Proof. intros Hf Hd i _. by rewrite Hf, Hd. Qed.

Lemma burst_clock_same_second n m : same_second (burst_clock n) (burst_clock m).
Proof. by repeat split. Qed.

Lemma admit_twice_same_second_same_id_witness :
  exists rid w1 w2,
    _add_to_queue (JObj test_request) (fresh_world burst_clock)
      = (Ok (msg_added rid 1), w1) /\
    _add_to_queue (JObj test_request) w1 = (Ok (msg_added rid 2), w2).
Proof.
  apply (admit_twice_same_second_same_id (JObj test_request) (JObj test_request)
           (fresh_world burst_clock) _ [] _ eq_refl eq_refl eq_refl eq_refl eq_refl).
  - by apply calm_no_faults.
  - apply burst_clock_same_second.
Defined.

Lemma same_second_admits_duplicate_request_id_witness :
  exists s1 w1 s2 w2 d r1 r2 rid,
    _add_to_queue (JObj test_request) (fresh_world burst_clock) = (Ok s1, w1) /\
    _add_to_queue (JObj test_request) w1 = (Ok s2, w2) /\
    disk w2 = Json (JObj d) /\
    d !! "pending_requests" = Some (JArr [JObj r1; JObj r2]) /\
    r1 !! "request_id" = Some (JStr rid) /\
    r2 !! "request_id" = Some (JStr rid).
Proof.
  apply (same_second_admits_duplicate_request_id (JObj test_request)
           (JObj test_request) (fresh_world burst_clock)
           (burst_clock 0) (burst_clock 1) eq_refl eq_refl eq_refl).
  - by apply calm_no_faults.
  - apply burst_clock_same_second.
Defined.

Lemma busy_world_doc :
  disk busy_world = Json (JObj (document busy_world)) /\
  queue_doc (document busy_world)
    [queue_item "PQ_20250102_120002" (slow_clock 3) (JObj test_request);
     queue_item "PQ_20250102_120005" (slow_clock 6) (JObj test_request)]
    [] (metadata_of (document busy_world)).
Proof. split; [|split; [|split]]; vm_compute; reflexivity. Qed.

Lemma mark_completed_moves_first_match_witness :
  exists (pre : list json) (r : gmap string json) (post : list json) w',
    pre = [queue_item "PQ_20250102_120002" (slow_clock 3) (JObj test_request)] /\
    post = [] /\
    r !! "request_id" = Some (JStr "PQ_20250102_120005") /\
    _mark_completed (Some "PQ_20250102_120005") busy_world
      = (Ok (msg_completed "PQ_20250102_120005" 1), w').
Proof.
  destruct busy_world_doc as (Hd & Hdoc).
  destruct (mark_completed_moves_first_match busy_world _ _ _ _
              "PQ_20250102_120005" ltac:(done) Hd Hdoc)
    as (pre & r & post & w' & Hsplit & Hpre & Hr & Hrun & _).
  - repeat constructor; eexists; vm_compute; reflexivity.
  - apply Exists_cons_tl, Exists_cons_hd. vm_compute. reflexivity.
  - by apply calm_no_faults.
  - destruct pre as [|e1 [|e2 pre]].
    + exfalso. injection Hsplit as Hr' _.
      assert (Hid : field "request_id" (JObj r) = Some (JStr "PQ_20250102_120002"))
        by (by rewrite <- Hr').
      simpl in Hid. rewrite Hr in Hid. discriminate.
    + injection Hsplit as <- _ <-.
      eexists _, r, [], w'. split; [reflexivity|]. split; [reflexivity|].
      split; [exact Hr|exact Hrun].
    + exfalso. apply (f_equal length) in Hsplit.
      simpl in Hsplit. rewrite length_app in Hsplit. simpl in Hsplit. lia.
Defined.

(** C4, at the failing input.  [collided_world] is the store after two
    admissions within one second on a fresh store: two pending entries
    carry the identifier [PQ_20250102_120000].  The first
    [_mark_completed] with it succeeds, and so does the second, which
    is not the "not found" result, and the document changes once
    more. *)
Theorem complete_twice_with_duplicate_identifier :
  let rid := "PQ_20250102_120000" in
  let w1 := snd (_mark_completed (Some rid) collided_world) in
  let w2 := snd (_mark_completed (Some rid) w1) in
  _mark_completed (Some rid) collided_world = (Ok (msg_completed rid 1), w1) /\
  _mark_completed (Some rid) w1 = (Ok (msg_completed rid 0), w2) /\
  msg_completed rid 0 <> msg_not_found rid /\
  disk w2 <> disk w1.
Proof.
  cbv zeta. split; [vm_compute; reflexivity|]. split; [vm_compute; reflexivity|].
  split.
  - vm_compute. discriminate.
  - intros Heq.
    apply (f_equal (fun f => match f with
                             | Json (JObj d) => d !! "pending_requests"
                             | _ => None
                             end)) in Heq.
    vm_compute in Heq. discriminate.
Qed.

Lemma busy_world_first_is_other :
  other_request "PQ_20250102_120005"
    (queue_item "PQ_20250102_120002" (slow_clock 3) (JObj test_request)).
Proof. vm_compute. reflexivity. Qed.

Lemma mark_completed_not_found_leaves_document_witness :
  let rid := "PQ_20250102_120005" in
  (exists w',
     _mark_completed (Some rid) (fresh_world slow_clock) = (Ok (msg_not_found rid), w') /\
     disk w' = disk (fresh_world slow_clock)) /\
  (exists w1 w2,
     _mark_completed (Some rid) busy_world = (Ok (msg_completed rid 1), w1) /\
     _mark_completed (Some rid) w1 = (Ok (msg_not_found rid), w2) /\
     disk w2 = disk w1).
Proof.
  intros rid.
  destruct (mark_completed_not_found_leaves_document rid ltac:(discriminate))
    as [Hnone Htwice].
  split.
  - destruct (Hnone (fresh_world slow_clock) (document (fresh_world slow_clock)) [])
      as (w' & Hrun & Hdisk & _).
    + vm_compute. reflexivity.
    + vm_compute. reflexivity.
    + constructor.
    + by apply calm_no_faults.
    + exists w'. split; [exact Hrun|exact Hdisk].
  - destruct busy_world_doc as (Hd & Hdoc).
    destruct (Htwice busy_world _
                [queue_item "PQ_20250102_120002" (slow_clock 3) (JObj test_request)]
                _ [] [] _ Hd Hdoc)
      as (w1 & w2 & Hrun1 & Hrun2 & Hdisk).
    + constructor; [apply busy_world_first_is_other|constructor].
    + vm_compute. reflexivity.
    + constructor.
    + by apply calm_no_faults.
    + exists w1, w2. split; [exact Hrun1|]. split; [exact Hrun2|exact Hdisk].
Defined.

Lemma add_to_queue_admits_witness :
  let w1 := snd (_add_to_queue (JObj test_request) (fresh_world burst_clock)) in
  _add_to_queue (JObj ∅) w1 = (Ok "Error: No request data provided", w1) /\
  exists e w',
    document w1 !! "pending_requests" = Some (JArr [e]) /\
    field "request_id" e = Some (JStr "PQ_20250102_120000") /\
    _add_to_queue (JObj test_request) w1
      = (Ok "✅ Purchase request PQ_20250102_120000 added to queue successfully. Total pending requests: 2",
         w') /\
    log w' = [OpenWrite; OpenRead; OpenWrite; OpenRead; OpenWrite].
Proof.
  intros w1. split.
  - apply (proj1 (add_to_queue_admits (JObj ∅) w1)).
    vm_compute. reflexivity.
  - destruct (proj2 (add_to_queue_admits (JObj test_request) w1)
                ltac:(vm_compute; reflexivity)
                (document w1)
                [queue_item "PQ_20250102_120000" (burst_clock 3) (JObj test_request)]
                (metadata_of (document w1)))
      as (Hrun & _ & _ & _).
    + vm_compute. reflexivity.
    + vm_compute. reflexivity.
    + vm_compute. reflexivity.
    + reflexivity.
    + reflexivity.
    + destruct (Hrun eq_refl) as (w' & Hadd & _ & Hlog).
      eexists _, w'. split; [vm_compute; reflexivity|].
      split; [reflexivity|]. split; [|exact Hlog].
      rewrite Hadd. do 2 f_equal.
Defined.

(** The same admission on a disk that is full: the dump breaks off, the
    answer is the error string of the exception and the queue file is
    left torn. *)
Example full_disk_admission :
  let run := @manage_queue sample_runtime "add_to_queue" (JObj test_request) None
               full_disk_world in
  fst run = Ok "Error in PurchaseQueueTool: OSError" /\
  disk (snd run) = Garbled /\
  log (snd run) = [OpenWrite; OpenRead; OpenWrite].
Proof. repeat split; vm_compute; reflexivity. Qed.



Lemma purge_is_unknown :
  "purge" ∉ ["add_to_queue"; "get_pending"; "mark_completed"; "get_status"].
Proof.
  rewrite !not_elem_of_cons.
  repeat split; try discriminate. apply not_elem_of_nil.
Qed.

Lemma manage_queue_never_raises_witness :
  @manage_queue sample_runtime "purge" JNull None busy_world
    = (Ok "Error: Unknown action 'purge'. Available actions: add_to_queue, get_pending, mark_completed, get_status",
       busy_world) /\
  @manage_queue sample_runtime "get_status" JNull None odd_world
    = (Ok "Error in PurchaseQueueTool: AttributeError",
       opened OpenRead odd_world).
Proof.
  split.
  - pose proof (@manage_queue_never_raises sample_runtime "purge" JNull None
                  busy_world) as Hall.
    cbv zeta in Hall. destruct Hall as (_ & _ & _ & _ & _ & Hunknown).
    exact (Hunknown purge_is_unknown).
  - pose proof (@manage_queue_never_raises sample_runtime "get_status" JNull None
                  odd_world) as Hall.
    cbv zeta in Hall. destruct Hall as (_ & _ & _ & _ & Hstatus & _).
    apply (Hstatus eq_refl (Raise (AttributeError PyList "get"))
             (opened OpenRead odd_world)).
    vm_compute. reflexivity.
Defined.

Lemma test_request_nonempty : test_request <> ∅.
Proof.
  intros Heq. apply (f_equal (fun m : gmap string json => m !! "total_cost")) in Heq.
  vm_compute in Heq. discriminate.
Qed.

Lemma fresh_world_disk clk :
  disk (fresh_world clk) = Json (initial_data (clk 0%nat) (clk 1%nat)).
Proof. reflexivity. Qed.

Lemma admit_then_get_pending_round_trip_witness :
  exists w1 d1 e w2,
    @manage_queue sample_runtime "add_to_queue" (JObj test_request) None
      (fresh_world slow_clock)
      = (Ok "✅ Purchase request PQ_20250102_120002 added to queue successfully. Total pending requests: 1",
         w1) /\
    disk w1 = Json (JObj d1) /\
    d1 !! "pending_requests" = Some (JArr [e]) /\
    field "request_id" e = Some (JStr "PQ_20250102_120002") /\
    field "validation_data" e = Some (JObj test_request) /\
    @manage_queue sample_runtime "get_pending" JNull None w1
      = (Ok (@listing_of_one sample_runtime "PQ_20250102_120002"
               "2025-01-02T12:00:03" test_request), w2) /\
    disk w2 = disk w1.
Proof.
  destruct (@admit_then_get_pending_round_trip sample_runtime test_request
              (fresh_world slow_clock) (slow_clock 0) (slow_clock 1)
              test_request_nonempty (fresh_world_disk _))
    as (w1 & d1 & e & w2 & Hadd & Hd1 & Hps & Hid & Hvd & Hlist & Hd2 & _).
  - by apply calm_no_faults.
  - exists w1, d1, e, w2. by repeat (split; [done|]).
Defined.

(** C8, the counterexample.  Two payloads that differ in
    [supplier_name]: after the admission of either on a fresh store
    [get_pending] returns the same text, in which [supplier_name] does
    not occur. *)
Lemma get_pending_does_not_show_the_payload :
  let x := test_request in
  let y := <["supplier_name" := JStr "Another Supplier"]> test_request in
  let listed := fun x : gmap string json =>
    fst ((@manage_queue sample_runtime "add_to_queue" (JObj x) None ;;
          @manage_queue sample_runtime "get_pending" JNull None)
           (fresh_world slow_clock)) in
  x <> y /\
  listed x = listed y /\
  listed x = Ok "📋 Found 1 pending purchase request(s):

🔹 Request ID: PQ_20250102_120002
   Timestamp: 2025-01-02T12:00:03
   Status: pending
   Validation Summary:
     - Budget Status: approved
     - Total Cost: $1000.0
     - Suppliers: 1
     - Critical Items: 2

".
Proof.
  cbv zeta. split; [|split].
  - intros Heq.
    apply (f_equal (fun m : gmap string json => m !! "supplier_name")) in Heq.
    vm_compute in Heq. discriminate.
  - vm_compute. reflexivity.
  - vm_compute. reflexivity.
Qed.

Lemma get_queue_status_counts_witness :
  (exists w',
     @_get_queue_status sample_runtime busy_world
       = (Ok (status_text 2 0 "2025-01-02T12:00:07"), w')) /\
  (exists w1 w2 w3 w4 w5,
     @manage_queue sample_runtime "add_to_queue" (JObj test_request) None
       (fresh_world slow_clock) = (Ok (msg_added "PQ_20250102_120002" 1), w1) /\
     @manage_queue sample_runtime "add_to_queue" (JInt 7) None w1
       = (Ok (msg_added "PQ_20250102_120005" 2), w2) /\
     @manage_queue sample_runtime "add_to_queue" (JStr "rush") None w2
       = (Ok (msg_added "PQ_20250102_120008" 3), w3) /\
     @manage_queue sample_runtime "mark_completed" JNull
       (Some "PQ_20250102_120005") w3
       = (Ok (msg_completed "PQ_20250102_120005" 2), w4) /\
     @manage_queue sample_runtime "get_status" JNull None w4
       = (Ok (status_text 2 1 "2025-01-02T12:00:12"), w5)).
Proof.
  destruct (@get_queue_status_counts sample_runtime) as [Hcount Hscenario].
  split.
  - destruct busy_world_doc as (Hd & Hdoc).
    destruct (Hcount busy_world _ _ _ _ Hd Hdoc) as (w' & Hrun & _).
    + by apply calm_no_faults.
    + exists w'. exact Hrun.
  - apply (Hscenario (fresh_world slow_clock) (slow_clock 0) (slow_clock 1)
             (JObj test_request) (JInt 7) (JStr "rush") 1%nat (fresh_world_disk _)
             eq_refl eq_refl eq_refl).
    + by apply calm_no_faults.
    + lia.
Defined.

Lemma validation_data_kept :
  "validation_data" ∉ ["status"; "completed_at"; "processed_by"].
Proof.
  rewrite !not_elem_of_cons. repeat split; try discriminate. apply not_elem_of_nil.
Qed.

Lemma completed_requests_kept :
  "completed_requests" ∉ ["pending_requests"; "metadata"].
Proof.
  rewrite !not_elem_of_cons. repeat split; try discriminate. apply not_elem_of_nil.
Qed.

Lemma operations_change_only_their_fields_witness :
  (exists w' d' e,
     _mark_completed (Some "PQ_20250102_120005") busy_world
       = (Ok (msg_completed "PQ_20250102_120005" 1), w') /\
     disk w' = Json (JObj d') /\
     d' !! "completed_requests" = Some (JArr [e]) /\
     field "validation_data" e = Some (JObj test_request)) /\
  (exists w' d',
     _add_to_queue (JObj test_request) busy_world
       = (Ok (msg_added "PQ_20250102_120008" 3), w') /\
     disk w' = Json (JObj d') /\
     d' !! "completed_requests" = Some (JArr [])).
Proof.
  destruct operations_change_only_their_fields as [Hcomplete Hadmit].
  destruct busy_world_doc as (Hd & (Hps & Hcs & Hmd)).
  split.
  - destruct (Hcomplete busy_world _
                [queue_item "PQ_20250102_120002" (slow_clock 3) (JObj test_request)]
                _ [] [] _ "PQ_20250102_120005" ltac:(discriminate) Hd
                (conj Hps (conj Hcs Hmd)))
      as (w' & d' & e & md' & Hrun & Hd' & (_ & Hcs' & _) & Hentry & _).
    + constructor; [apply busy_world_first_is_other|constructor].
    + vm_compute. reflexivity.
    + by apply calm_no_faults.
    + exists w', d', e. split; [exact Hrun|]. split; [exact Hd'|].
      split; [exact Hcs'|].
      rewrite (Hentry _ validation_data_kept).
      vm_compute. reflexivity.
  - destruct (Hadmit busy_world _ _ _ (JObj test_request) ltac:(vm_compute; reflexivity)
                Hd Hps Hmd)
      as (w' & d' & e & md' & Hrun & Hd' & _ & _ & _ & Hframe).
    + by apply calm_no_faults.
    + exists w', d'. split; [exact Hrun|]. split; [exact Hd'|].
      rewrite (Hframe _ completed_requests_kept). exact Hcs.
Defined.

Lemma reaches_busy_world : reaches (fresh_world slow_clock) busy_world.
Proof.
  unfold busy_world.
  eapply (reaches_step _ _ (Admit (JObj test_request)));
    [eapply (reaches_step _ _ (Admit (JObj test_request)));
       [apply reaches_start|]|];
    apply surjective_pairing.
Qed.

Lemma ticks_busy_world : ticks busy_world = 8%nat.
Proof. vm_compute. reflexivity. Qed.

Lemma slow_clock_valid n : (n < 3600)%nat -> valid_datetime (slow_clock n).
Proof.
  intros Hn. unfold valid_datetime, slow_clock.
  cbn [year month day hour minute second microsecond].
  assert (n `div` 60 < 60)%nat by (apply Nat.Div0.div_lt_upper_bound; lia).
  assert (n `mod` 60 < 60)%nat by (apply Nat.mod_upper_bound; lia).
  repeat split; lia.
Qed.

Lemma slow_clock_apart n m :
  same_second (slow_clock n) (slow_clock m) -> n = m.
Proof.
  intros (_ & _ & _ & _ & Hmin & Hsec).
  unfold slow_clock in Hmin, Hsec. cbn [minute second] in Hmin, Hsec.
  rewrite (Nat.div_mod_eq n 60), (Nat.div_mod_eq m 60). lia.
Qed.

Lemma reachable_entries_keep_their_shape_witness :
  disk busy_world = Garbled \/
  exists d ps cs md,
    disk busy_world = Json (JObj d) /\ queue_doc d ps cs md /\
    Forall pending_shape ps /\ Forall completed_shape cs.
Proof.
  apply (reachable_entries_keep_their_shape (fresh_world slow_clock) busy_world
           (slow_clock 0) (slow_clock 1) (fresh_world_disk _) reaches_busy_world).
Defined.

Lemma request_id_at_collides_iff_witness :
  request_id_at (burst_clock 0) = request_id_at (burst_clock 5) /\
  request_id_at (slow_clock 0) <> request_id_at (slow_clock 5).
Proof.
  split.
  - apply (request_id_at_collides_iff (burst_clock 0) (burst_clock 5)).
    + unfold valid_datetime, burst_clock.
      cbn [year month day hour minute second microsecond]. repeat split; lia.
    + unfold valid_datetime, burst_clock.
      cbn [year month day hour minute second microsecond]. repeat split; lia.
    + apply burst_clock_same_second.
  - intros Heq.
    apply (request_id_at_collides_iff (slow_clock 0) (slow_clock 5)) in Heq.
    + apply slow_clock_apart in Heq. discriminate.
    + apply slow_clock_valid. lia.
    + apply slow_clock_valid. lia.
Defined.

Lemma reaches_paced_world : reaches (fresh_world paced_clock) paced_world.
Proof.
  unfold paced_world.
  eapply (reaches_step _ _ (Admit (JObj test_request)));
    [eapply (reaches_step _ _ (Admit (JObj test_request)));
       [apply reaches_start|]|];
    apply surjective_pairing.
Qed.

Lemma ticks_paced_world : ticks paced_world = 8%nat.
Proof. vm_compute. reflexivity. Qed.

Lemma paced_clock_valid n : (n < 3600)%nat -> valid_datetime (paced_clock n).
Proof.
  intros Hn. unfold valid_datetime, paced_clock.
  cbn [year month day hour minute second microsecond].
  assert (n `div` 3 < 3600)%nat by (apply Nat.Div0.div_lt_upper_bound; lia).
  assert ((n `div` 3) `div` 60 < 60)%nat by (apply Nat.Div0.div_lt_upper_bound; lia).
  assert ((n `div` 3) `mod` 60 < 60)%nat by (apply Nat.mod_upper_bound; lia).
  assert (n `mod` 3 < 3)%nat by (apply Nat.mod_upper_bound; lia).
  repeat split; lia.
Qed.

(** Readings three apart fall into different seconds, while the three
    readings 3, 4 and 5 share one. *)
Lemma paced_clock_apart n m :
  (n + 3 <= m)%nat -> ~ same_second (paced_clock n) (paced_clock m).
Proof.
  intros Hnm (_ & _ & _ & _ & Hmin & Hsec).
  unfold paced_clock in Hmin, Hsec. cbn [minute second] in Hmin, Hsec.
  assert (Hq : n `div` 3 = m `div` 3).
  { rewrite (Nat.div_mod_eq (n `div` 3) 60), (Nat.div_mod_eq (m `div` 3) 60). lia. }
  pose proof (Nat.div_mod_eq n 3). pose proof (Nat.div_mod_eq m 3).
  pose proof (Nat.mod_upper_bound n 3). pose proof (Nat.mod_upper_bound m 3).
  lia.
Qed.

Example paced_clock_shares_a_second :
  same_second (paced_clock 3) (paced_clock 4) /\
  same_second (paced_clock 4) (paced_clock 5).
Proof. by repeat split. Qed.

Lemma reachable_identifiers_distinct_witness :
  disk paced_world = Garbled \/
  exists d ps cs md,
    disk paced_world = Json (JObj d) /\ queue_doc d ps cs md /\
    NoDup (identifiers ps ++ identifiers cs).
Proof.
  apply (reachable_identifiers_distinct (fresh_world paced_clock) paced_world
           (paced_clock 0) (paced_clock 1) eq_refl reaches_paced_world).
  - intros n Hn. rewrite ticks_paced_world in Hn.
    apply paced_clock_valid. lia.
  - intros n m Hnm _. by apply paced_clock_apart.
Defined.

Lemma no_faults_never_absent w : faults w = no_faults -> never_absent w.
Proof. intros Hf n. by rewrite Hf. Qed.

Lemma no_dump_faults_never_torn w :
  dump_faults w = no_dump_faults -> never_torn w.
Proof. intros Hf n. by rewrite Hf. Qed.

Lemma reading_actions_open_once_witness :
  snd (@manage_queue sample_runtime "get_status" JNull None odd_world)
  = opened OpenRead odd_world.
Proof.
  apply (@reading_actions_open_once sample_runtime "get_status" JNull None
           odd_world (JArr [])
           (fst (@manage_queue sample_runtime "get_status" JNull None odd_world))).
  - apply list_elem_of_further, list_elem_of_here.
  - reflexivity.
  - by apply never_absent_present, no_faults_never_absent.
  - apply surjective_pairing.
Defined.

Lemma file_unchanged_unless_written_witness :
  let run := @dispatch sample_runtime "add_to_queue" (JObj test_request) None
               odd_world in
  fst run = Raise (TypeError BadIndex PyList) /\
  disk (snd run) = disk odd_world.
Proof.
  intros run. split; [vm_compute; reflexivity|].
  destruct (@file_unchanged_unless_written sample_runtime "add_to_queue"
              (JObj test_request) None odd_world (JArr []) (fst run) (snd run))
    as [_ [Hd|[[_ (id & n & Hr)]|[[[=] _]|(_ & Ht & _)]]]].
  - reflexivity.
  - by apply never_absent_present, no_faults_never_absent.
  - apply surjective_pairing.
  - exact Hd.
  - exfalso. vm_compute in Hr. discriminate Hr.
  - exfalso. vm_compute in Ht. discriminate Ht.
Defined.

Lemma busy_world_listable :
  Forall listable
    [queue_item "PQ_20250102_120002" (slow_clock 3) (JObj test_request);
     queue_item "PQ_20250102_120005" (slow_clock 6) (JObj test_request)].
Proof.
  repeat constructor; try (eexists; vm_compute; reflexivity).
Qed.

Lemma get_pending_lists_every_entry_in_order_witness :
  @manage_queue sample_runtime "get_pending" JNull None busy_world =
    (Ok (@listing_of sample_runtime
           [queue_item "PQ_20250102_120002" (slow_clock 3) (JObj test_request);
            queue_item "PQ_20250102_120005" (slow_clock 6) (JObj test_request)]),
     opened OpenRead busy_world).
Proof.
  destruct busy_world_doc as (Hd & Hps & _).
  apply (@get_pending_lists_every_entry_in_order sample_runtime busy_world _ _
           Hd Hps busy_world_listable).
  by apply calm_no_faults.
Defined.

Lemma fresh_store_is_empty_witness :
  let w := fresh_world slow_clock in
  @manage_queue sample_runtime "get_pending" JNull None w
    = (Ok msg_no_pending, opened OpenRead w) /\
  @manage_queue sample_runtime "mark_completed" JNull (Some "PQ_20250102_120002") w
    = (Ok (msg_not_found "PQ_20250102_120002"), opened OpenRead w) /\
  @manage_queue sample_runtime "get_status" JNull None w
    = (Ok (status_text 0 0 "2025-01-02T12:00:01"), opened OpenRead w).
Proof.
  intros w.
  apply (@fresh_store_is_empty sample_runtime w (slow_clock 0) (slow_clock 1)
           "PQ_20250102_120002" (fresh_world_disk slow_clock)).
  - by apply calm_no_faults.
  - done.
Defined.

Lemma init_creates_the_file_only_when_absent_witness :
  exists w',
    __init__ (blank_world slow_clock) = (Ok tt, w') /\
    disk w' = Json (initial_data (slow_clock 0) (slow_clock 1)) /\
    log w' = [OpenWrite].
Proof.
  apply (proj1 (proj2 (init_creates_the_file_only_when_absent
                         (blank_world slow_clock)))).
  - reflexivity.
  - by apply calm_no_faults.
Defined.

Lemma admit_replaces_a_file_that_is_not_json_witness :
  (exists w' d md,
     @manage_queue sample_runtime "add_to_queue" (JObj test_request) None
        garbled_world
       = (Ok (msg_added "PQ_20250102_120002" 1), w') /\
     disk w' = Json (JObj d) /\
     queue_doc d
       [queue_item "PQ_20250102_120002" (slow_clock 3) (JObj test_request)] [] md /\
     md !! "created_at" = Some (JStr "2025-01-02T12:00:00") /\
     md !! "last_updated" = Some (JStr "2025-01-02T12:00:04") /\
     log w' = [OpenRead; OpenWrite; OpenRead; OpenWrite]) /\
  @manage_queue sample_runtime "add_to_queue" (JObj test_request) None
     undecodable_world
    = (Ok "Error in PurchaseQueueTool: UnicodeDecodeError",
       opened OpenRead undecodable_world).
Proof.
  split.
  - apply (proj1 (@admit_replaces_a_file_that_is_not_json sample_runtime
                    (JObj test_request) garbled_world
                    ltac:(vm_compute; reflexivity))).
    + by right.
    + by apply calm_no_faults.
  - apply (proj2 (@admit_replaces_a_file_that_is_not_json sample_runtime
                    (JObj test_request) undecodable_world
                    ltac:(vm_compute; reflexivity)) NotUnicode);
      reflexivity.
Defined.

Lemma busy_world_others :
  Forall (other_request (request_id_at (reading busy_world 0)))
    [queue_item "PQ_20250102_120002" (slow_clock 3) (JObj test_request);
     queue_item "PQ_20250102_120005" (slow_clock 6) (JObj test_request)].
Proof. repeat constructor; vm_compute; reflexivity. Qed.

Lemma admit_then_complete_round_trip_witness :
  exists w1 w2 d2 e md2,
    @manage_queue sample_runtime "add_to_queue" (JObj test_request) None busy_world
      = (Ok (msg_added "PQ_20250102_120008" 3), w1) /\
    @manage_queue sample_runtime "mark_completed" JNull
       (Some "PQ_20250102_120008") w1
      = (Ok (msg_completed "PQ_20250102_120008" 2), w2) /\
    disk w2 = Json (JObj d2) /\
    queue_doc d2
      [queue_item "PQ_20250102_120002" (slow_clock 3) (JObj test_request);
       queue_item "PQ_20250102_120005" (slow_clock 6) (JObj test_request)]
      [e] md2 /\
    field "request_id" e = Some (JStr "PQ_20250102_120008") /\
    field "validation_data" e = Some (JObj test_request) /\
    field "timestamp" e = Some (JStr "2025-01-02T12:00:09") /\
    field "status" e = Some (JStr "completed") /\
    field "completed_at" e = Some (JStr "2025-01-02T12:00:11").
Proof.
  destruct busy_world_doc as (Hd & Hq).
  apply (@admit_then_complete_round_trip sample_runtime (JObj test_request)
           busy_world _ _ [] _ eq_refl Hd Hq busy_world_others).
  by apply calm_no_faults.
Defined.

Lemma document_without_the_keys_witness :
  @manage_queue sample_runtime "get_pending" JNull None bare_world
    = (Ok msg_no_pending, opened OpenRead bare_world) /\
  @manage_queue sample_runtime "mark_completed" JNull (Some "PQ_1") bare_world
    = (Ok (msg_not_found "PQ_1"), opened OpenRead bare_world) /\
  @manage_queue sample_runtime "get_status" JNull None bare_world
    = (Ok (status_text 0 0 "N/A"), opened OpenRead bare_world) /\
  @manage_queue sample_runtime "add_to_queue" (JObj test_request) None bare_world
    = (Ok "Error in PurchaseQueueTool: 'pending_requests'",
       tick (tick (opened OpenRead bare_world))).
Proof.
  apply (@document_without_the_keys sample_runtime bare_world ∅
           (JObj test_request) "PQ_1" eq_refl eq_refl eq_refl eq_refl).
  - by apply calm_no_faults.
  - vm_compute. reflexivity.
  - done.
Defined.

(** The answers to the sample calls. *)
Example sample_calls_answers :
  fst (@serve sample_runtime sample_calls (fresh_world slow_clock)) =
  Ok [ msg_added "PQ_20250102_120002" 1;
       msg_no_request_data;
       msg_added "PQ_20250102_120005" 2;
       msg_completed "PQ_20250102_120002" 1;
       @listing_of sample_runtime
         [queue_item "PQ_20250102_120005" (slow_clock 6) (JObj test_request)];
       msg_unknown_action "purge" ].
Proof. vm_compute. reflexivity. Qed.

Lemma served_payloads_are_conserved_witness :
  exists answers w' d ps cs md,
    @serve sample_runtime sample_calls (fresh_world slow_clock) = (Ok answers, w') /\
    length answers = 6%nat /\
    disk w' = Json (JObj d) /\ queue_doc d ps cs md /\
    payloads (ps ++ cs) ≡ₚ Some <$> admitted sample_calls answers /\
    length cs = length (filter is_completed answers).
Proof.
  apply (@served_payloads_are_conserved sample_runtime sample_calls
           (fresh_world slow_clock) (slow_clock 0) (slow_clock 1)
           (fresh_world_disk slow_clock)).
  - by apply no_faults_never_absent.
  - by apply no_dump_faults_never_torn.
Defined.

Lemma sample_calls_typed :
  Forall (fun c => dict_or_none (call_data c)) sample_calls.
Proof. by repeat constructor. Qed.

Lemma served_pending_keeps_admission_order_witness :
  exists answers w' d ps cs md,
    @serve sample_runtime sample_calls (fresh_world slow_clock) = (Ok answers, w') /\
    disk w' = Json (JObj d) /\ queue_doc d ps cs md /\
    payloads ps `sublist_of` Some <$> admitted sample_calls answers.
Proof.
  apply (@served_pending_keeps_admission_order sample_runtime sample_calls
           (fresh_world slow_clock) (slow_clock 0) (slow_clock 1)
           (fresh_world_disk slow_clock)).
  - by apply no_faults_never_absent.
  - by apply no_dump_faults_never_torn.
Defined.

Lemma served_queue_stays_listable_witness :
  exists answers w' d ps cs md,
    @serve sample_runtime sample_calls (fresh_world slow_clock) = (Ok answers, w') /\
    disk w' = Json (JObj d) /\
    queue_doc d ps cs md /\
    Forall listable ps /\
    (calm 1 w' ->
     @manage_queue sample_runtime "get_pending" JNull None w' =
       (Ok (if bool_decide (ps = []) then msg_no_pending
            else @listing_of sample_runtime ps),
        opened OpenRead w') /\
     @manage_queue sample_runtime "get_status" JNull None w' =
       (Ok (status_text (length ps) (length cs)
              (@py_str sample_runtime (default (JStr "N/A") (md !! "last_updated")))),
        opened OpenRead w')).
Proof.
  apply (@served_queue_stays_listable sample_runtime sample_calls
           (fresh_world slow_clock) (slow_clock 0) (slow_clock 1)
           (fresh_world_disk slow_clock)).
  - by apply no_faults_never_absent.
  - by apply no_dump_faults_never_torn.
  - exact sample_calls_typed.
Defined.

Lemma only_false_values_are_rejected_witness :
  @manage_queue sample_runtime "add_to_queue" (JObj ∅) None
     (blank_world slow_clock)
    = (Ok msg_no_request_data, blank_world slow_clock) /\
  @manage_queue sample_runtime "mark_completed" JNull (Some "")
     (blank_world slow_clock)
    = (Ok msg_no_request_id, blank_world slow_clock) /\
  exists w' d',
    @manage_queue sample_runtime "add_to_queue" (JStr "rush") None
       (fresh_world slow_clock)
      = (Ok (msg_added "PQ_20250102_120002" 1), w') /\
    disk w' = Json (JObj d') /\
    d' !! "pending_requests"
      = Some (JArr [queue_item "PQ_20250102_120002" (slow_clock 3) (JStr "rush")]).
Proof.
  split; [|split].
  - apply (proj1 (@only_false_values_are_rejected sample_runtime (JObj ∅) None)).
    by repeat right.
  - apply (proj1 (proj2 (@only_false_values_are_rejected sample_runtime JNull
                           (Some "")))).
    by right.
  - eapply (proj2 (proj2 (@only_false_values_are_rejected sample_runtime
                            (JStr "rush") None))
              (fresh_world slow_clock) _ [] []).
    + intros Hf%truthy_false_value. vm_compute in Hf. discriminate Hf.
    + apply fresh_world_disk.
    + by split.
    + by apply calm_no_faults.
Defined.

Lemma scalar_payload_breaks_the_listing_witness :
  exists w1 w2 w3,
    @manage_queue sample_runtime "add_to_queue" (JInt 5) None busy_world
      = (Ok (msg_added "PQ_20250102_120008" 3), w1) /\
    @manage_queue sample_runtime "get_pending" JNull None w1
      = (Ok "Error in PurchaseQueueTool: TypeError", w2) /\
    disk w2 = disk w1 /\
    @manage_queue sample_runtime "get_status" JNull None w2
      = (Ok (status_text 3 0 "2025-01-02T12:00:10"), w3).
Proof.
  destruct busy_world_doc as (Hd & Hq).
  apply (@scalar_payload_breaks_the_listing sample_runtime (JInt 5) busy_world
           _ _ [] _ I eq_refl Hd Hq busy_world_listable).
  by apply calm_no_faults.
Defined.
